(** * GadgetbridgeMqtt: the sensor extraction and publication pipeline

    A shallow embedding of [main.py] (class [GadgetbridgeMQTTPublisher]):
    the metric queries, the sensor registry, the extraction executor
    [get_sensor_data], the publish cycle [publish_sensor_data], the
    discovery publisher [setup_home_assistant_entities] and the device
    identity resolver [get_device_alias].

    Conventions of the model.
    - A Python [str] that SQLite hands over is a sequence of Unicode code
      points ([text]).  What [re] and [str.lower] read in the Unicode
      database of the interpreter is a parameter ([unicode]); its ASCII
      rows are written out ([Text.ascii_rows]).  The strings the program
      builds from its literals and the device slug are [string]s of
      bytes, the slug in UTF-8; the display name ([title]) and the
      escapes of [json.dumps] in the discovery payloads are written out
      for ASCII slugs.
    - Python [int] is [Z].  A Python [float] is a finite binary64 number
      ([float]): [/], [round] and [repr] round as IEEE 754 and CPython do.
    - Effects (SQLite, MQTT, logging) are explicit: a computation is a
      function of the host it runs on and of a state holding the trace of
      effects, and it returns a value or raises a Python exception. *)

From Stdlib Require Import ZArith Lia List Bool Ascii String.
From Stdlib Require Import DecimalString.
From stdpp Require Import base option list gmap strings.

Local Open Scope Z_scope.

(* ===================================================================== *)
(** ** Byte strings and the ASCII rows of the character tables            *)
(* ===================================================================== *)

Module PyStr.

Definition code (c : ascii) : Z := Z.of_N (N_of_ascii c).
Definition chr (n : Z) : ascii := ascii_of_N (Z.to_N n).

Definition is_upper (c : ascii) : bool := (65 <=? code c) && (code c <=? 90).
Definition is_lower (c : ascii) : bool := (97 <=? code c) && (code c <=? 122).
Definition is_digit (c : ascii) : bool := (48 <=? code c) && (code c <=? 57).
Definition is_alpha (c : ascii) : bool := is_upper c || is_lower c.
Definition is_alnum (c : ascii) : bool := is_alpha c || is_digit c.

Fixpoint all_chars (p : ascii -> bool) (s : string) : bool :=
  match s with
  | EmptyString => true
  | String c s' => p c && all_chars p s'
  end.

(** The two cases of an ASCII letter; every other byte is left alone. *)
Definition lower_char (c : ascii) : ascii :=
  if is_upper c then chr (code c + 32) else c.
Definition upper_char (c : ascii) : ascii :=
  if is_lower c then chr (code c - 32) else c.

Fixpoint map_chars (f : ascii -> ascii) (s : string) : string :=
  match s with
  | EmptyString => EmptyString
  | String c s' => String (f c) (map_chars f s')
  end.

(** Lower-casing of the ASCII letters, every other byte left as it is:
    LOWER() of SQLite, and [s.lower()] on ASCII text. *)
Definition lower (s : string) : string := map_chars lower_char s.

(** [s.replace(a, b)] for one-character [a] and [b]. *)
Definition replace_char (a b : ascii) (s : string) : string :=
  map_chars (fun c => if Ascii.eqb c a then b else c) s.

(** [s.title()] on ASCII text: a cased character is upper-cased when the
    character before it is not cased, and lower-cased otherwise. *)
Fixpoint title_from (previous_is_cased : bool) (s : string) : string :=
  match s with
  | EmptyString => EmptyString
  | String c s' =>
      String (if previous_is_cased then lower_char c else upper_char c)
             (title_from (is_alpha c) s')
  end.
Definition title (s : string) : string := title_from false s.

(** [needle in hay] *)
Fixpoint contains (needle hay : string) : bool :=
  String.prefix needle hay ||
  match hay with
  | EmptyString => false
  | String _ hay' => contains needle hay'
  end.

(** [", ".join(parts)] and friends. *)
Fixpoint join (sep : string) (parts : list string) : string :=
  match parts with
  | [] => EmptyString
  | [p] => p
  | p :: ps => String.append p (String.append sep (join sep ps))
  end.

(** [str(n)] for an [int]. *)
Definition of_int (n : Z) : string := NilEmpty.string_of_int (Z.to_int n).

End PyStr.

(* ===================================================================== *)
(** ** Python text                                                        *)
(* ===================================================================== *)

(** A Python [str]: its Unicode code points. *)
Definition text := list Z.

(** What the program reads in the Unicode database of the interpreter. *)
Record unicode := Unicode {
  (** [c.isalnum()] for the character with code point [c] *)
  isalnum : Z -> bool;
  (** [s.lower()] *)
  str_lower : text -> text }.

Module Text.

(** The text of an ASCII literal. *)
Definition of_string (s : string) : text :=
  map PyStr.code (list_ascii_of_string s).

(** [s.encode("utf-8")], one code point at a time. *)
Definition utf8_point (c : Z) : list ascii :=
  if c <? 128 then [PyStr.chr c]
  else if c <? 2048 then
    [PyStr.chr (192 + c / 64); PyStr.chr (128 + c mod 64)]
  else if c <? 65536 then
    [PyStr.chr (224 + c / 4096); PyStr.chr (128 + (c / 64) mod 64);
     PyStr.chr (128 + c mod 64)]
  else
    [PyStr.chr (240 + c / 262144); PyStr.chr (128 + (c / 4096) mod 64);
     PyStr.chr (128 + (c / 64) mod 64); PyStr.chr (128 + c mod 64)].

Fixpoint utf8 (s : text) : string :=
  match s with
  | [] => EmptyString
  | c :: s' => String.append (string_of_list_ascii (utf8_point c)) (utf8 s')
  end.

(** The class [\w] of [re] for a [str] pattern: the alphanumeric
    characters and the underscore. *)
Definition is_word (u : unicode) (c : Z) : bool := isalnum u c || (c =? 95).

(** [re.sub(r"\W+", "_", s)]: scanning left to right, every maximal run of
    characters outside [\w] is one match and is replaced by one underscore.
    [in_match] tells that the scanner is inside a match whose replacement
    has been written already. *)
Fixpoint re_sub_nonword_from (u : unicode) (in_match : bool) (s : text)
  : text :=
  match s with
  | [] => []
  | c :: s' =>
      if is_word u c then c :: re_sub_nonword_from u false s'
      else if in_match then re_sub_nonword_from u true s'
      else 95 :: re_sub_nonword_from u true s'
  end.
Definition re_sub_nonword (u : unicode) (s : text) : text :=
  re_sub_nonword_from u false s.

Definition is_ascii (c : Z) : bool := (0 <=? c) && (c <? 128).

Definition lower_point (c : Z) : Z :=
  if (65 <=? c) && (c <=? 90) then c + 32 else c.

(** The ASCII rows of the Unicode database: the alphanumeric characters
    below 128 are the letters and the digits, and lower-casing an ASCII
    text lower-cases its letters one by one. *)
Definition ascii_rows (u : unicode) : Prop :=
  (forall c, is_ascii c = true ->
     isalnum u c = PyStr.is_alnum (PyStr.chr c))
  /\ (forall s, forallb is_ascii s = true ->
        str_lower u s = map lower_point s).

(** The tables that hold the ASCII rows and nothing above them; they stand
    for the interpreter where the text at stake is ASCII. *)
Definition ascii_only : unicode :=
  Unicode (fun c => is_ascii c && PyStr.is_alnum (PyStr.chr c))
          (map lower_point).

End Text.

(* ===================================================================== *)
(** ** Python floats                                                      *)
(* ===================================================================== *)

(** A finite binary64 number, [(-1) ^ negative * significand * 2 ^ exponent]
    with [0 <= significand < 2 ^ 53] and [-1074 <= exponent <= 971]; a
    normal number has [2 ^ 52 <= significand], a subnormal one has exponent
    -1074, and zero is written with exponent 0.  Infinities and NaN do not
    occur: SQLite stores no NaN, and the two operations of the program on
    floats raise [OverflowError] rather than return an infinity. *)
Record float := Float { negative : bool; significand : Z; exponent : Z }.

Module Float.

Definition eqb (x y : float) : bool :=
  Bool.eqb (negative x) (negative y)
  && (significand x =? significand y) && (exponent x =? exponent y).

(** The integer nearest to [n / d], the even one when [n / d] is half way;
    for [0 <= n] and [0 < d]. *)
Definition round_half_even (n d : Z) : Z :=
  let q := n / d in
  let r := n mod d in
  if 2 * r <? d then q
  else if d <? 2 * r then q + 1
  else if Z.even q then q else q + 1.

(** [n / (d * b ^ e)] as a fraction of integers. *)
Definition scaled (b n d e : Z) : Z * Z :=
  if 0 <=? e then (n, d * b ^ e) else (n * b ^ (- e), d).

(** The integer part of the logarithm in base 2 of [n / d]. *)
Definition ilog2 (n d : Z) : Z :=
  let l := Z.log2 n - Z.log2 d in
  let '(a, b) := scaled 2 n d l in
  if a <? b then l - 1 else l.

(** The binary64 number nearest to [(-1) ^ neg * n / d] (round to nearest,
    ties to even), for [0 <= n] and [0 < d]; none when it is out of
    range. *)
Definition nearest (neg : bool) (n d : Z) : option float :=
  if n =? 0 then Some (Float neg 0 0)
  else
    let e := Z.max (ilog2 n d - 52) (-1074) in
    let '(a, b) := scaled 2 n d e in
    let m := round_half_even a b in
    let '(m, e) := if m =? 2 ^ 53 then (2 ^ 52, e + 1) else (m, e) in
    if 971 <? e then None
    else if m =? 0 then Some (Float neg 0 0)
    else Some (Float neg m e).

(** The binary64 number nearest to the fraction [n / d], for [0 < d]. *)
Definition of_ratio (n d : Z) : option float :=
  nearest (n <? 0) (Z.abs n) d.

(** The magnitude of [x] as a fraction. *)
Definition magnitude (x : float) : Z * Z :=
  scaled 2 (significand x) 1 (- exponent x).

(** [x / k] for a positive integer [k]. *)
Definition div_int (x : float) (k : Z) : option float :=
  let '(n, d) := magnitude x in nearest (negative x) n (d * k).

(** [round(x, ndigits)]: the decimal with [ndigits] digits after the point
    nearest to the exact value of [x] (ties to even), and then the
    binary64 number nearest to that decimal. *)
Definition round (x : float) (ndigits : Z) : option float :=
  let '(n, d) := magnitude x in
  let '(a, b) := scaled 10 n d (- ndigits) in
  let k := round_half_even a b in
  let '(n', d') := scaled 10 k 1 ndigits in
  nearest (negative x) n' d'.

Definition le_pow10 (t n d : Z) : bool :=
  let '(a, b) := scaled 10 n d t in b <=? a.

Fixpoint ilog10_from (fuel : nat) (t n d : Z) : Z :=
  match fuel with
  | O => t
  | S fuel' => if le_pow10 t n d then t else ilog10_from fuel' (t - 1) n d
  end.

(** The integer part of the logarithm in base 10 of [n / d]: an estimate
    from the logarithms in base 2 that is at most three too large, then
    corrected downwards. *)
Definition ilog10 (n d : Z) : Z :=
  ilog10_from 8 ((Z.log2 n - Z.log2 d + 1) * 1233 / 4096 + 1) n d.

(** The decimal [digits * 10 ^ u] reads back as [x]. *)
Definition reads_as (x : float) (digits u : Z) : bool :=
  let '(n, d) := scaled 10 digits 1 (- u) in
  match nearest (negative x) n d with
  | Some y => eqb x y
  | None => false
  end.

(** The decimal of [p] significant digits that reads back as [x], if there
    is one, as its digits and the exponent of the last one; of two, the
    one nearer to [x].  [t] is the integer part of the logarithm of [x]. *)
Definition shortest_at (x : float) (t p : Z) : option (Z * Z) :=
  let u := t - p + 1 in
  let '(n, d) := magnitude x in
  let '(a, b) := scaled 10 n d u in
  let lo := a / b in
  let r := a mod b in
  let hi := lo + 1 in
  let lo_ok := reads_as x lo u in
  let hi_ok := reads_as x hi u in
  if lo_ok && hi_ok then
    if 2 * r <? b then Some (lo, u)
    else if b <? 2 * r then Some (hi, u)
    else if Z.even lo then Some (lo, u) else Some (hi, u)
  else if lo_ok then Some (lo, u)
  else if hi_ok then Some (hi, u)
  else None.

Fixpoint shortest_from (fuel : nat) (x : float) (t p : Z) : Z * Z :=
  match fuel with
  | O => (0, 0)
  | S fuel' =>
      match shortest_at x t p with
      | Some r => r
      | None => shortest_from fuel' x t (p + 1)
      end
  end.

(** The shortest decimal that reads back as [x]; seventeen digits always
    do. *)
Definition shortest (x : float) : Z * Z :=
  let '(n, d) := magnitude x in
  shortest_from 17 x (ilog10 n d) 1.

Fixpoint strip_zeros (fuel : nat) (m : Z) : Z :=
  match fuel with
  | O => m
  | S fuel' =>
      if (m mod 10 =? 0) && negb (m =? 0) then strip_zeros fuel' (m / 10)
      else m
  end.

Fixpoint zeros (n : nat) : string :=
  match n with
  | O => EmptyString
  | S n' => String "0"%char (zeros n')
  end.

(** [repr(x)]: the shortest digits that read back as [x], in positional
    notation when the decimal point falls within or just around them, in
    exponent notation below 1e-4 and from 1e16 on. *)
Definition repr (x : float) : string :=
  let sign := if negative x then "-"%string else EmptyString in
  if significand x =? 0 then String.append sign "0.0"
  else
    let '(m, u) := shortest x in
    let decpt := Z.of_nat (String.length (PyStr.of_int m)) + u in
    let digits := PyStr.of_int (strip_zeros 17 m) in
    let n := Z.of_nat (String.length digits) in
    let body :=
      if (decpt <=? -4) || (16 <? decpt) then
        let e := decpt - 1 in
        let mantissa :=
          match digits with
          | String c (String c' rest) => String c (String "."%char (String c' rest))
          | _ => digits
          end in
        let esign := if e <? 0 then "-"%string else "+"%string in
        let edigits := PyStr.of_int (Z.abs e) in
        let edigits :=
          if Z.abs e <? 10 then String "0"%char edigits else edigits in
        String.append mantissa (String "e"%char (String.append esign edigits))
      else if decpt <=? 0 then
        String.append "0." (String.append (zeros (Z.to_nat (- decpt))) digits)
      else if n <=? decpt then
        String.append digits (String.append (zeros (Z.to_nat (decpt - n))) ".0")
      else
        String.append (String.substring 0 (Z.to_nat decpt) digits)
          (String "."%char
             (String.substring (Z.to_nat decpt) (Z.to_nat (n - decpt)) digits))
    in
    String.append sign body.

Arguments nearest : simpl never.
Arguments of_ratio : simpl never.
Arguments div_int : simpl never.
Arguments round : simpl never.
Arguments repr : simpl never.

End Float.

(* ===================================================================== *)
(** ** Python values                                                      *)
(* ===================================================================== *)

(** The scalars that flow from SQLite through the queries to the broker.
    [sqlite3] hands NULL over as [None], INTEGER as [int], REAL as [float]
    and TEXT as [str]; [bool] only comes from [query_is_awake]. *)
Inductive value :=
| VNone
| VBool (b : bool)
| VInt (n : Z)
| VFloat (x : float)
| VStr (s : text).

(** Python exceptions that the modelled calls raise; all derive from
    [Exception]. *)
Inductive exn :=
| SqliteError      (* sqlite3.Error: OperationalError, DatabaseError, ... *)
| TypeError
| IndexError
| OverflowError
| MqttError.       (* aiomqtt.MqttError *)

Inductive outcome (A : Type) :=
| Ok (a : A)
| Raise (e : exn).
Arguments Ok {A} a.
Arguments Raise {A} e.

Module Py.

(** [bool(v)] *)
Definition truthy (v : value) : bool :=
  match v with
  | VNone => false
  | VBool b => b
  | VInt n => negb (n =? 0)
  | VFloat x => negb (significand x =? 0)
  | VStr [] => false
  | VStr (_ :: _) => true
  end.

(** [a or b] *)
Definition or_ (a b : value) : value := if truthy a then a else b.

(** [v is not None] *)
Definition is_not_none (v : value) : bool :=
  match v with VNone => false | _ => true end.

(** A float result that is out of range is an [OverflowError]. *)
Definition in_range (x : option float) : outcome float :=
  match x with
  | Some y => Ok y
  | None => Raise OverflowError
  end.

(** [v / n] for a positive [int] literal [n]: the quotient of two integers
    is rounded once, a float is divided as IEEE 754 says. *)
Definition truediv (v : value) (n : Z) : outcome float :=
  match v with
  | VInt a => in_range (Float.of_ratio a n)
  | VBool b => in_range (Float.of_ratio (if b then 1 else 0) n)
  | VFloat x => in_range (Float.div_int x n)
  | VNone | VStr _ => Raise TypeError
  end.

(** [round(x, ndigits)] for a float [x]. *)
Definition round (x : float) (ndigits : nat) : outcome float :=
  in_range (Float.round x (Z.of_nat ndigits)).

(** [str(v)] *)
Definition str (v : value) : string :=
  match v with
  | VNone => "None"
  | VBool true => "True"
  | VBool false => "False"
  | VInt n => PyStr.of_int n
  | VFloat x => Float.repr x
  | VStr s => Text.utf8 s
  end.

End Py.

(** A result row of a query; every statement of the program selects one
    column.  [fetchone()] gives [None] when the result set is exhausted. *)
Definition row := list value.

Module PyRow.

(** [bool(row)] for the result of [fetchone()]: [None] and the empty tuple
    are false. *)
Definition truthy (r : option row) : bool :=
  match r with
  | Some (_ :: _) => true
  | _ => false
  end.

(** [row[0]]: subscripting [None] is a [TypeError], an empty tuple an
    [IndexError]. *)
Definition item0 (r : option row) : outcome value :=
  match r with
  | None => Raise TypeError
  | Some [] => Raise IndexError
  | Some (v :: _) => Ok v
  end.

End PyRow.

(* ===================================================================== *)
(** ** The Gadgetbridge database                                          *)
(* ===================================================================== *)

(** The tables the program reads, with the columns it reads and the storage
    class the Gadgetbridge schema declares for them: INTEGER columns hold
    an integer or NULL, WEIGHT_KG is REAL, NAME and ALIAS are TEXT.  NAME
    is only read by SQLite, as the bytes of the file; ALIAS is handed to
    Python, as a [str]. *)
Record activity_sample := ActivitySample {
  act_timestamp : Z; act_steps : option Z; act_heart_rate : option Z }.
Record battery_level := BatteryLevel {
  bat_timestamp : Z; bat_level : option Z }.
Record weight_sample := WeightSample {
  wgt_timestamp : Z; wgt_weight_kg : option float }.
Record daily_summary := DailySummary {
  day_timestamp : Z; day_hr_resting : option Z; day_hr_max : option Z;
  day_hr_avg : option Z; day_calories : option Z }.
Record sleep_time := SleepTime {
  slp_timestamp : Z; slp_is_awake : option Z; slp_total_duration : option Z }.
Record device := Device {
  dev_name : option string; dev_alias : option text }.

(** The columns read by the "latest row" statements. *)
Inductive column :=
| LEVEL | WEIGHT_KG | HEART_RATE | HR_RESTING | HR_MAX | HR_AVG | CALORIES
| IS_AWAKE | TOTAL_DURATION.

(** The SQL statements of the program, with their bound parameters. *)
Inductive stmt :=
| SumSteps (lo : Z) (hi : option Z)
    (* SELECT SUM(STEPS) FROM XIAOMI_ACTIVITY_SAMPLE
       WHERE TIMESTAMP >= lo [AND TIMESTAMP <= hi] *)
| Latest (c : column)
    (* SELECT c FROM <table of c> ORDER BY TIMESTAMP DESC LIMIT 1 *)
| SelectAlias.
    (* SELECT ALIAS FROM DEVICE
       WHERE LOWER(NAME) LIKE '%band%' OR LOWER(NAME) LIKE '%watch%' LIMIT 1 *)

Record database := Database {
  XIAOMI_ACTIVITY_SAMPLE : list activity_sample;
  BATTERY_LEVEL : list battery_level;
  MI_SCALE_WEIGHT_SAMPLE : list weight_sample;
  XIAOMI_DAILY_SUMMARY_SAMPLE : list daily_summary;
  XIAOMI_SLEEP_TIME_SAMPLE : list sleep_time;
  DEVICE : list device;
  (** the statements SQLite rejects on this file: a missing table or
      column, a locked or corrupt file, a value of the wrong type *)
  rejects : stmt -> bool }.

Module Sql.

Definition of_integer (c : option Z) : value :=
  match c with Some n => VInt n | None => VNone end.
Definition of_real (c : option float) : value :=
  match c with Some x => VFloat x | None => VNone end.
Definition of_text (c : option text) : value :=
  match c with Some s => VStr s | None => VNone end.

Definition int64 (n : Z) : bool := (- 2 ^ 63 <=? n) && (n <? 2 ^ 63).

(** SUM over an INTEGER column: NULLs are skipped, no non-NULL input gives
    NULL, and an overflow of the 64-bit accumulator is an error. *)
Fixpoint sum_from (acc : option Z) (xs : list (option Z)) : outcome value :=
  match xs with
  | [] => Ok (of_integer acc)
  | None :: xs' => sum_from acc xs'
  | Some x :: xs' =>
      let acc' := match acc with Some a => a + x | None => x end in
      if int64 acc' then sum_from (Some acc') xs' else Raise SqliteError
  end.
Definition sum (xs : list (option Z)) : outcome value := sum_from None xs.

(** ORDER BY TIMESTAMP DESC LIMIT 1: a row with the greatest timestamp
    (SQLite does not say which one among equals; the model takes the
    first in table order). *)
Definition later {A} (ts : A -> Z) (best : option A) (r : A) : option A :=
  match best with
  | None => Some r
  | Some b => if ts b <? ts r then Some r else Some b
  end.
Definition latest {A} (ts : A -> Z) (rows : list A) : option A :=
  fold_left (later ts) rows None.

Definition select1 {A} (col : A -> value) (r : option A) : list row :=
  match r with
  | Some a => [[col a]]
  | None => []
  end.

Definition latest_column (d : database) (c : column) : list row :=
  match c with
  | LEVEL =>
      select1 (fun r => of_integer (bat_level r))
              (latest bat_timestamp (BATTERY_LEVEL d))
  | WEIGHT_KG =>
      select1 (fun r => of_real (wgt_weight_kg r))
              (latest wgt_timestamp (MI_SCALE_WEIGHT_SAMPLE d))
  | HEART_RATE =>
      select1 (fun r => of_integer (act_heart_rate r))
              (latest act_timestamp (XIAOMI_ACTIVITY_SAMPLE d))
  | HR_RESTING =>
      select1 (fun r => of_integer (day_hr_resting r))
              (latest day_timestamp (XIAOMI_DAILY_SUMMARY_SAMPLE d))
  | HR_MAX =>
      select1 (fun r => of_integer (day_hr_max r))
              (latest day_timestamp (XIAOMI_DAILY_SUMMARY_SAMPLE d))
  | HR_AVG =>
      select1 (fun r => of_integer (day_hr_avg r))
              (latest day_timestamp (XIAOMI_DAILY_SUMMARY_SAMPLE d))
  | CALORIES =>
      select1 (fun r => of_integer (day_calories r))
              (latest day_timestamp (XIAOMI_DAILY_SUMMARY_SAMPLE d))
  | IS_AWAKE =>
      select1 (fun r => of_integer (slp_is_awake r))
              (latest slp_timestamp (XIAOMI_SLEEP_TIME_SAMPLE d))
  | TOTAL_DURATION =>
      select1 (fun r => of_integer (slp_total_duration r))
              (latest slp_timestamp (XIAOMI_SLEEP_TIME_SAMPLE d))
  end.

Definition in_range (lo : Z) (hi : option Z) (r : activity_sample) : bool :=
  (lo <=? act_timestamp r) &&
  match hi with Some h => act_timestamp r <=? h | None => true end.

(** LOWER(NAME) LIKE '%band%' OR LOWER(NAME) LIKE '%watch%'; a NULL name
    matches nothing. *)
Definition is_wearable (r : device) : bool :=
  match dev_name r with
  | Some n => PyStr.contains "band" (PyStr.lower n)
              || PyStr.contains "watch" (PyStr.lower n)
  | None => false
  end.

Definition first_row {A} (rows : list A) : option A :=
  match rows with
  | r :: _ => Some r
  | [] => None
  end.

(** The result set of a statement, or the error SQLite reports. *)
Definition run (d : database) (q : stmt) : outcome (list row) :=
  if rejects d q then Raise SqliteError
  else match q with
       | SumSteps lo hi =>
           match sum (map act_steps
                        (List.filter (in_range lo hi)
                           (XIAOMI_ACTIVITY_SAMPLE d))) with
           | Ok v => Ok [[v]]
           | Raise e => Raise e
           end
       | Latest c => Ok (latest_column d c)
       | SelectAlias =>
           Ok (select1 (fun r => of_text (dev_alias r))
                 (first_row (List.filter is_wearable (DEVICE d))))
       end.

End Sql.

(* ===================================================================== *)
(** ** The local clock                                                    *)
(* ===================================================================== *)

(** What the program asks of [datetime]: a date is its proleptic Gregorian
    ordinal (day 1 is 0001-01-01, a Monday).  The conversion of a local
    wall-clock time to a POSIX timestamp belongs to the time zone of the
    host and is a field of the clock. *)
Record localtime := LocalTime {
  (** [datetime.now().date()] *)
  now_date : Z;
  (** [d.replace(day=1)] *)
  replace_day_1 : Z -> Z;
  (** [int(datetime.combine(d, datetime.min.time()).timestamp())] *)
  timestamp_min : Z -> Z;
  (** [int(datetime.combine(d, datetime.max.time()).timestamp())] *)
  timestamp_max : Z -> Z }.

Module Date.

(** [d.weekday()]: Monday is 0. *)
Definition weekday (d : Z) : Z := (d + 6) mod 7.

(** [d - timedelta(days=n)] *)
Definition minus_days (d n : Z) : Z := d - n.

(** The Gregorian calendar of [datetime], for the UTC instance below. *)
Definition is_leap (y : Z) : bool :=
  (y mod 4 =? 0) && (negb (y mod 100 =? 0) || (y mod 400 =? 0)).

Definition days_in_month (y m : Z) : Z :=
  if m =? 2 then (if is_leap y then 29 else 28)
  else if (m =? 4) || (m =? 6) || (m =? 9) || (m =? 11) then 30 else 31.

(** Day of the year, counted from 0, to (month, day of the month). *)
Fixpoint month_day (fuel : nat) (y m n : Z) : Z * Z :=
  match fuel with
  | O => (m, n + 1)
  | S fuel' =>
      if n <? days_in_month y m then (m, n + 1)
      else month_day fuel' y (m + 1) (n - days_in_month y m)
  end.

(** [date.fromordinal(d)] as (year, month, day). *)
Definition ord2ymd (d : Z) : Z * Z * Z :=
  let n := d - 1 in
  let n400 := n / 146097 in
  let n := n mod 146097 in
  let n100 := Z.min 3 (n / 36524) in
  let n := n - n100 * 36524 in
  let n4 := n / 1461 in
  let n := n mod 1461 in
  let n1 := Z.min 3 (n / 365) in
  let n := n - n1 * 365 in
  let y := n400 * 400 + n100 * 100 + n4 * 4 + n1 + 1 in
  let '(m, day) := month_day 11 y 1 n in
  (y, m, day).

Definition day_of_month (d : Z) : Z := snd (ord2ymd d).

(** A host whose local time is UTC: 1970-01-01 has ordinal 719163. *)
Definition utc (today : Z) : localtime :=
  {| now_date := today;
     replace_day_1 := fun d => d - (day_of_month d - 1);
     timestamp_min := fun d => (d - 719163) * 86400;
     timestamp_max := fun d =>
       let t := (d - 719163) * 86400 + 86399 in
       (* int() truncates seconds + 0.999999 towards zero *)
       if t <? 0 then t + 1 else t |}.

End Date.

(* ===================================================================== *)
(** ** JSON                                                               *)
(* ===================================================================== *)

#[local] Set Warnings "-register-all".

Inductive json :=
| JString (s : string)
| JArray (items : list json)
| JObject (members : list (string * json)).

Module Json.

Definition quote : ascii := ascii_of_nat 34.
Definition backslash : ascii := ascii_of_nat 92.

Definition hex_digit (n : Z) : ascii :=
  if n <? 10 then PyStr.chr (48 + n) else PyStr.chr (87 + n).

(** One character of an ASCII string under [ensure_ascii=True]. *)
Definition escape_char (c : ascii) : string :=
  let n := PyStr.code c in
  if n =? 34 then String backslash (String quote EmptyString)
  else if n =? 92 then String backslash (String backslash EmptyString)
  else if n =? 8 then String backslash "b"
  else if n =? 12 then String backslash "f"
  else if n =? 10 then String backslash "n"
  else if n =? 13 then String backslash "r"
  else if n =? 9 then String backslash "t"
  else if (32 <=? n) && (n <=? 126) then String c EmptyString
  else String backslash
         (String "u"%char (String "0"%char (String "0"%char
            (String (hex_digit (n / 16)) (String (hex_digit (n mod 16))
               EmptyString))))).

Fixpoint escape (s : string) : string :=
  match s with
  | EmptyString => EmptyString
  | String c s' => String.append (escape_char c) (escape s')
  end.

Definition dumps_string (s : string) : string :=
  String quote (String.append (escape s) (String quote EmptyString)).

(** [json.dumps(v)] with the default separators; the members of an object
    come in insertion order. *)
Fixpoint dumps (v : json) : string :=
  match v with
  | JString s => dumps_string s
  | JArray items =>
      String.append "[" (String.append (PyStr.join ", " (map dumps items)) "]")
  | JObject members =>
      String.append "{"
        (String.append
           (PyStr.join ", "
              (map (fun kv => String.append (dumps_string (fst kv))
                                (String.append ": " (dumps (snd kv))))
                   members))
           "}")
  end.

End Json.

(* ===================================================================== *)
(** ** The host, the trace of effects and the monad of computations       *)
(* ===================================================================== *)

(** An MQTT PUBLISH as handed to the client. *)
Record message := Message {
  msg_topic : string; msg_payload : string; msg_qos : Z; msg_retain : bool }.

Inductive log_record :=
| DatabaseFileNotFound
| ErrorQuerying (unique_id : string) (e : exn)
| ErrorQueryingDatabase (e : exn)
| ErrorFetchingDeviceAlias (e : exn)
| FailedToPublish (unique_id : string) (e : exn)
| PublishedSensorData (data : gmap string value)
| PublishedDiscoveryConfig (entity_id : string)
| FailedToPublishDiscoveryConfig (e : exn).

Inductive level := INFO | ERROR.

Inductive event :=
| EvConnect                      (* sqlite3.connect returned a connection *)
| EvCursor                       (* conn.cursor() returned a cursor *)
| EvExecute (q : stmt)           (* cursor.execute was called *)
| EvClose                        (* conn.close() *)
| EvPublish (m : message)        (* mqtt_client.publish was called *)
| EvLog (l : level) (r : log_record).

(** What a run cannot change: the file system, the database file and the
    clock.  The wall clock is read by each step query on its own; a run is
    modelled with one reading, that is, it does not straddle midnight. *)
Record host := Host {
  (** [os.path.exists(self.db_path)] *)
  path_exists : bool;
  (** [sqlite3.connect] raises *)
  connect_raises : bool;
  db : database;
  clock : localtime }.

Record state := State {
  (** the effects so far, oldest first *)
  trace : list event;
  (** the pending result set of the cursor *)
  result_set : list row;
  (** whether the coming calls of [publish] raise, in order; none left
      means the call succeeds *)
  publish_raises : list bool }.

Definition M (A : Type) : Type := host -> state -> outcome A * state.

Definition ret {A} (a : A) : M A := fun _ s => (Ok a, s).

Definition bind {A B} (c : M A) (k : A -> M B) : M B :=
  fun h s =>
    match c h s with
    | (Ok a, s') => k a h s'
    | (Raise e, s') => (Raise e, s')
    end.

Definition raise {A} (e : exn) : M A := fun _ s => (Raise e, s).

Definition lift {A} (o : outcome A) : M A := fun _ s => (o, s).

(** [try: body  except Exception as e: handler(e)] *)
Definition try_except {A} (body : M A) (handler : exn -> M A) : M A :=
  fun h s =>
    match body h s with
    | (Ok a, s') => (Ok a, s')
    | (Raise e, s') => handler e h s'
    end.

Declare Scope prog_scope.
Delimit Scope prog_scope with prog.
Notation "x <- c ;; k" := (bind c (fun x => k))
  (at level 100, c at next level, right associativity) : prog_scope.
Notation "c ;;; k" := (bind c (fun _ => k))
  (at level 100, right associativity) : prog_scope.
Local Open Scope prog_scope.

Definition emit (ev : event) : M unit :=
  fun _ s => (Ok tt, State (trace s ++ [ev]) (result_set s) (publish_raises s)).

Definition logger_error (r : log_record) : M unit := emit (EvLog ERROR r).
Definition logger_info (r : log_record) : M unit := emit (EvLog INFO r).

Definition ask {A} (f : host -> A) : M A := fun h s => (Ok (f h), s).

(** Handles; a run has at most one connection and one cursor. *)
Inductive connection := Connection.
Inductive cursor := Cursor.

Definition os_path_exists : M bool := ask path_exists.

Definition sqlite3_connect : M connection :=
  failing <- ask connect_raises ;;
  if failing then raise SqliteError else (emit EvConnect ;;; ret Connection).

(** [conn.cursor()] on the connection just opened; it allocates the cursor
    object and does not touch the file. *)
Definition conn_cursor (conn : connection) : M cursor :=
  emit EvCursor ;;; ret Cursor.

Definition conn_close (conn : connection) : M unit := emit EvClose.

Definition set_result_set (rows : list row) : M unit :=
  fun _ s => (Ok tt, State (trace s) rows (publish_raises s)).

Definition cursor_execute (cur : cursor) (q : stmt) : M unit :=
  emit (EvExecute q) ;;;
  d <- ask db ;;
  rows <- lift (Sql.run d q) ;;
  set_result_set rows.

Definition cursor_fetchone (cur : cursor) : M (option row) :=
  fun _ s =>
    match result_set s with
    | [] => (Ok None, s)
    | r :: rest => (Ok (Some r), State (trace s) rest (publish_raises s))
    end.

Definition next_publish_fault : M bool :=
  fun _ s =>
    match publish_raises s with
    | [] => (Ok false, s)
    | b :: rest => (Ok b, State (trace s) (result_set s) rest)
    end.

(** [await self.mqtt_client.publish(topic, payload, qos=qos, retain=retain)];
    [retain] defaults to [False]. *)
Definition mqtt_publish (topic payload : string) (qos : Z) (retain : bool)
  : M unit :=
  emit (EvPublish (Message topic payload qos retain)) ;;;
  failing <- next_publish_fault ;;
  if failing then raise MqttError else ret tt.

(** [for x in xs: body(x)] *)
Fixpoint for_each {A} (xs : list A) (body : A -> M unit) : M unit :=
  match xs with
  | [] => ret tt
  | x :: xs' => body x ;;; for_each xs' body
  end.

(** Running a computation from a state. *)
Definition result_of {A} (c : M A) (h : host) (s : state) : outcome A :=
  fst (c h s).
Definition trace_of {A} (c : M A) (h : host) (s : state) : list event :=
  trace (snd (c h s)).

(* ===================================================================== *)
(** ** GadgetbridgeMQTTPublisher                                          *)
(* ===================================================================== *)

Local Notation "a +:+ b" := (String.append a b)
  (at level 60, right associativity).

(** A sensor descriptor: an entry of [self.sensors].  The optional keys of
    the Python dict are [option]s. *)
Record sensor := Sensor {
  name : string;
  unique_id : string;
  state_topic : string;
  unit_of_measurement : option string;
  icon : option string;
  state_class : option string;
  device_class : option string;
  query : cursor -> M value }.

Definition today : M Z := ask (fun h => now_date (clock h)).
Definition ts_min (d : Z) : M Z := ask (fun h => timestamp_min (clock h) d).
Definition ts_max (d : Z) : M Z := ask (fun h => timestamp_max (clock h) d).

Definition query_daily_steps (cur : cursor) : M value :=
  today <- today ;;
  today_start <- ts_min today ;;
  today_end <- ts_max today ;;
  cursor_execute cur (SumSteps today_start (Some today_end)) ;;;
  fetched <- cursor_fetchone cur ;;
  total <- lift (PyRow.item0 fetched) ;;
  ret (Py.or_ total (VInt 0)).

Definition query_weekly_steps (cur : cursor) : M value :=
  today <- today ;;
  let week_start := Date.minus_days today (Date.weekday today) in
  week_start_ts <- ts_min week_start ;;
  cursor_execute cur (SumSteps week_start_ts None) ;;;
  fetched <- cursor_fetchone cur ;;
  total <- lift (PyRow.item0 fetched) ;;
  ret (Py.or_ total (VInt 0)).

Definition query_monthly_steps (cur : cursor) : M value :=
  today <- today ;;
  month_start <- ask (fun h => replace_day_1 (clock h) today) ;;
  month_start_ts <- ts_min month_start ;;
  cursor_execute cur (SumSteps month_start_ts None) ;;;
  fetched <- cursor_fetchone cur ;;
  total <- lift (PyRow.item0 fetched) ;;
  ret (Py.or_ total (VInt 0)).

(** The shape shared by the seven plain latest-row queries:
    [row = cursor.fetchone(); return row[0] if row else None]. *)
Definition query_latest (c : column) (cur : cursor) : M value :=
  cursor_execute cur (Latest c) ;;;
  row <- cursor_fetchone cur ;;
  if PyRow.truthy row then lift (PyRow.item0 row) else ret VNone.

Definition query_battery_level : cursor -> M value := query_latest LEVEL.
Definition query_latest_weight : cursor -> M value := query_latest WEIGHT_KG.
Definition query_latest_heart_rate : cursor -> M value :=
  query_latest HEART_RATE.
Definition query_hr_resting : cursor -> M value := query_latest HR_RESTING.
Definition query_hr_max : cursor -> M value := query_latest HR_MAX.
Definition query_hr_avg : cursor -> M value := query_latest HR_AVG.
Definition query_calories : cursor -> M value := query_latest CALORIES.

Definition query_is_awake (cur : cursor) : M value :=
  cursor_execute cur (Latest IS_AWAKE) ;;;
  row <- cursor_fetchone cur ;;
  if PyRow.truthy row
  then (flag <- lift (PyRow.item0 row) ;;
        ret (VBool (negb (Py.truthy flag))))       (* inverted *)
  else ret VNone.

Definition query_total_sleep_duration (cur : cursor) : M value :=
  cursor_execute cur (Latest TOTAL_DURATION) ;;;
  row <- cursor_fetchone cur ;;
  has_value <- (if PyRow.truthy row
                then (v <- lift (PyRow.item0 row) ;; ret (Py.is_not_none v))
                else ret false) ;;
  if has_value
  then (minutes <- lift (PyRow.item0 row) ;;
        hours <- lift (Py.truediv minutes 60) ;;
        rounded <- lift (Py.round hours 2) ;;
        ret (VFloat rounded))
  else ret VNone.

(** The object after [__init__]: the resolved device slug and the registry
    built from it. *)
Record publisher := Publisher {
  device_name : string;
  sensors : list sensor }.

(** [self.sensors] as [__init__] builds it. *)
Definition make_sensors (device_name : string) : list sensor :=
  let topic path := "gadgetbridge/" +:+ device_name +:+ "/" +:+ path in
  [ Sensor "Daily Steps" "daily_steps" (topic "steps/daily")
      (Some "steps") (Some "mdi:walk") (Some "total_increasing") None
      query_daily_steps;
    Sensor "Weekly Steps" "weekly_steps" (topic "steps/weekly")
      (Some "steps") (Some "mdi:walk") (Some "total") None
      query_weekly_steps;
    Sensor "Monthly Steps" "monthly_steps" (topic "steps/monthly")
      (Some "steps") (Some "mdi:walk") (Some "total") None
      query_monthly_steps;
    Sensor "Battery Level" "battery_level" (topic "battery")
      (Some "%") (Some "mdi:battery") None (Some "battery")
      query_battery_level;
    Sensor "Weight" "weight" (topic "weight")
      (Some "kg") (Some "mdi:scale-bathroom") (Some "measurement") None
      query_latest_weight;
    Sensor "Latest Heart Rate" "latest_heart_rate" (topic "heart_rate")
      (Some "bpm") (Some "mdi:heart-pulse") (Some "measurement") None
      query_latest_heart_rate;
    Sensor "Resting Heart Rate" "hr_resting" (topic "hr_resting")
      (Some "bpm") (Some "mdi:heart-pulse") (Some "measurement") None
      query_hr_resting;
    Sensor "Max Heart Rate" "hr_max" (topic "hr_max")
      (Some "bpm") (Some "mdi:heart-pulse") (Some "measurement") None
      query_hr_max;
    Sensor "Average Heart Rate" "hr_avg" (topic "hr_avg")
      (Some "bpm") (Some "mdi:heart-pulse") (Some "measurement") None
      query_hr_avg;
    Sensor "Calories" "calories" (topic "calories")
      (Some "kcal") (Some "mdi:fire") (Some "total_increasing") None
      query_calories;
    Sensor "Is Awake" "is_awake" (topic "is_awake")
      None (Some "mdi:power-sleep") None (Some "enum")
      query_is_awake;
    Sensor "Total Sleep Duration" "total_sleep_duration"
      (topic "total_sleep_duration")
      (Some "h") (Some "mdi:sleep") (Some "measurement") None
      query_total_sleep_duration ].

(** [data.get(key)]: [None] for a key that is not in the dict. *)
Definition dict_get (data : gmap string value) (key : string) : value :=
  default VNone (data !! key).

(** The body of the loop of [get_sensor_data] for one sensor. *)
Definition query_sensor (cur : cursor) (data : gmap string value)
    (sensor : sensor) : M (gmap string value) :=
  try_except
    (v <- query sensor cur ;;
     ret (<[unique_id sensor := v]> data))
    (fun e =>
       logger_error (ErrorQuerying (unique_id sensor) e) ;;;
       ret (<[unique_id sensor := VNone]> data)).

(** [for sensor in sensors: ...], threading the dict the loop fills. *)
Fixpoint query_sensors (cur : cursor) (data : gmap string value)
    (sensors : list sensor) : M (gmap string value) :=
  match sensors with
  | [] => ret data
  | sensor :: rest =>
      data' <- query_sensor cur data sensor ;;
      query_sensors cur data' rest
  end.

Definition get_sensor_data (self : publisher) : M (gmap string value) :=
  found <- os_path_exists ;;
  if negb found
  then (logger_error DatabaseFileNotFound ;;; ret ∅)
  else
    try_except
      (conn <- sqlite3_connect ;;
       cur <- conn_cursor conn ;;
       data <- query_sensors cur ∅ (sensors self) ;;
       conn_close conn ;;;
       ret data)
      (fun e => logger_error (ErrorQueryingDatabase e) ;;; ret ∅).

Definition publish_sensor_data (self : publisher) (data : gmap string value)
  : M unit :=
  for_each (sensors self) (fun sensor =>
    let value := dict_get data (unique_id sensor) in
    if Py.is_not_none value
    then try_except
           (mqtt_publish (state_topic sensor) (Py.str value) 1 false)
           (fun e => logger_error (FailedToPublish (unique_id sensor) e))
    else ret tt) ;;;
  logger_info (PublishedSensorData data).

Definition publish_home_assistant_discovery (self : publisher)
    (entity_type entity_id : string) (config : json) : M unit :=
  let discovery_topic :=
    "homeassistant/" +:+ entity_type +:+ "/" +:+ device_name self +:+ "_"
      +:+ entity_id +:+ "/config" in
  try_except
    (mqtt_publish discovery_topic (Json.dumps config) 1 true ;;;
     logger_info (PublishedDiscoveryConfig entity_id))
    (fun e => logger_error (FailedToPublishDiscoveryConfig e)).

Definition optional_field (key : string) (v : option string)
  : list (string * json) :=
  match v with
  | Some s => [(key, JString s)]
  | None => []
  end.

Definition device_info (self : publisher) : json :=
  JObject
    [ ("identifiers", JArray [JString (device_name self)]);
      ("name", JString ("Gadgetbridge " +:+
                 PyStr.title (PyStr.replace_char "_" " " (device_name self))));
      ("model", JString "Fitness Tracker");
      ("manufacturer", JString "Gadgetbridge") ].

Definition discovery_config (self : publisher) (sensor : sensor) : json :=
  JObject
    ([ ("name", JString (PyStr.title
                           (PyStr.replace_char "_" " " (device_name self))
                         +:+ " " +:+ name sensor));
       ("unique_id", JString (device_name self +:+ "_" +:+ unique_id sensor));
       ("state_topic", JString (state_topic sensor));
       ("device", device_info self) ]
     (* optional fields, in the order of the key list of the source *)
     ++ optional_field "unit_of_measurement" (unit_of_measurement sensor)
     ++ optional_field "icon" (icon sensor)
     ++ optional_field "state_class" (state_class sensor)
     ++ optional_field "device_class" (device_class sensor)).

Definition setup_home_assistant_entities (self : publisher) : M unit :=
  for_each (sensors self) (fun sensor =>
    publish_home_assistant_discovery self "sensor" (unique_id sensor)
      (discovery_config self sensor)).

(** [re.sub(r"\W+", "_", v)]: anything but a [str] is a [TypeError]. *)
Definition re_sub_W (u : unicode) (v : value) : outcome text :=
  match v with
  | VStr s => Ok (Text.re_sub_nonword u s)
  | _ => Raise TypeError
  end.

(** The device slug, on an interpreter with the Unicode database [u]; the
    slug is returned as the UTF-8 string the topics are built from. *)
Definition get_device_alias (u : unicode) : M string :=
  found <- os_path_exists ;;
  if negb found
  then (logger_error DatabaseFileNotFound ;;; ret "fitness_tracker")
  else
    try_except
      (conn <- sqlite3_connect ;;
       cur <- conn_cursor conn ;;
       cursor_execute cur SelectAlias ;;;
       row <- cursor_fetchone cur ;;
       conn_close conn ;;;
       usable <- (if PyRow.truthy row
                  then (v <- lift (PyRow.item0 row) ;; ret (Py.truthy v))
                  else ret false) ;;
       if usable
       then (alias <- lift (PyRow.item0 row) ;;
             sanitized <- lift (re_sub_W u alias) ;;
             ret (Text.utf8 (str_lower u sanitized)))
       else ret "fitness_tracker")
      (fun e =>
         logger_error (ErrorFetchingDeviceAlias e) ;;;
         ret "fitness_tracker").

(** [__init__], as far as the registry is concerned. *)
Definition init (u : unicode) : M publisher :=
  device_name <- get_device_alias u ;;
  ret (Publisher device_name (make_sensors device_name)).

(** One pass of the loop of [run]: extract, then publish. *)
Definition cycle (self : publisher) : M unit :=
  sensor_data <- get_sensor_data self ;;
  publish_sensor_data self sensor_data.

(** The messages handed to the MQTT client, in order. *)
Definition published (tr : list event) : list message :=
  omap (fun ev => match ev with EvPublish m => Some m | _ => None end) tr.

Definition initial (faults : list bool) : state := State [] [] faults.

(* ===================================================================== *)
(** ** Vocabulary of the properties                                       *)
(* ===================================================================== *)

(** The publisher that [__init__] builds around a device slug. *)
Definition publisher_for (device_name : string) : publisher :=
  Publisher device_name (make_sensors device_name).

(** The store can be reached: the file is there and [sqlite3.connect]
    gives a connection. *)
Definition reachable (h : host) : Prop :=
  path_exists h = true /\ connect_raises h = false.

(** The Extraction Result entry a query leaves: its value, or "no value"
    when it raised. *)
Definition value_or_none (o : outcome value) : value :=
  match o with
  | Ok v => v
  | Raise _ => VNone
  end.

(** The statements a trace executed, the closings it contains. *)
Definition executed (tr : list event) : list stmt :=
  omap (fun ev => match ev with EvExecute q => Some q | _ => None end) tr.

Definition is_close (ev : event) : bool :=
  match ev with EvClose => true | _ => false end.

Definition count_events (p : event -> bool) (tr : list event) : nat :=
  length (List.filter p tr).

(** What a query of the registry does to the connection: it executes
    statements and it may log, nothing else. *)
Definition query_event (ev : event) : Prop :=
  match ev with
  | EvExecute _ | EvLog _ _ => True
  | _ => False
  end.

(** The statement(s) a sensor's query sends to the store on a host. *)
Definition statements_of (sensor : sensor) (h : host) : list stmt :=
  executed (trace_of (query sensor Cursor) h (State [] [] [])).

(** The state message of a sensor for an Extraction Result, if any. *)
Definition state_message (data : gmap string value) (sensor : sensor)
  : option message :=
  match dict_get data (unique_id sensor) with
  | VNone => None
  | v => Some (Message (state_topic sensor) (Py.str v) 1 false)
  end.

(** The state messages of a publish cycle as the specification describes
    them: one per sensor whose entry is present, in registry order. *)
Definition state_messages (self : publisher) (data : gmap string value)
  : list message :=
  omap (state_message data) (sensors self).

(** The discovery message of a sensor. *)
Definition discovery_message (self : publisher) (sensor : sensor) : message :=
  Message ("homeassistant/sensor/" +:+ device_name self +:+ "_"
             +:+ unique_id sensor +:+ "/config")
          (Json.dumps (discovery_config self sensor)) 1 true.

Definition discovery_messages (self : publisher) : list message :=
  map (discovery_message self) (sensors self).

(** The answer of a step-total query that sends [sent]. *)
Definition steps_answer (h : host) (sent : stmt) : outcome value :=
  match Sql.run (db h) sent with
  | Ok ((total :: _) :: _) => Ok (Py.or_ total (VInt 0))
  | Ok [] => Raise TypeError
  | Ok ([] :: _) => Raise IndexError
  | Raise e => Raise e
  end.

Definition daily_statement (c : localtime) : stmt :=
  SumSteps (timestamp_min c (now_date c)) (Some (timestamp_max c (now_date c))).
Definition weekly_statement (c : localtime) : stmt :=
  SumSteps (timestamp_min c
              (Date.minus_days (now_date c) (Date.weekday (now_date c))))
           None.
Definition monthly_statement (c : localtime) : stmt :=
  SumSteps (timestamp_min c (replace_day_1 c (now_date c))) None.

(** The identifiers of the three step-total sensors. *)
Definition step_ids : list string :=
  ["daily_steps"; "weekly_steps"; "monthly_steps"]%string.

(** What the specification asks of a sensor's entry, told by the statement
    [q] the sensor sends: no row means no value, and a NULL sum of a
    step-total statement means zero. *)
Definition absent_or_zero (h : host) (q : stmt) (entry : value) : Prop :=
  (Sql.run (db h) q = Ok [] -> entry = VNone)
  /\ (forall lo hi, q = SumSteps lo hi ->
        Sql.run (db h) q = Ok [[VNone]] -> entry = VInt 0).

(** A query in the style of the registry: on a host it sends one
    statement and answers from the result set alone, so that neither the
    answer nor the statement depends on what ran before it, and it leaves
    the MQTT client alone. *)
Definition single_statement_query (q : cursor -> M value) : Prop :=
  forall h, exists (sent : stmt) (answer : outcome value),
    forall s, exists rs,
      q Cursor h s
      = (answer, State (trace s ++ [EvExecute sent]) rs (publish_raises s)).

(** The sanitisation in the words of the specification: mark every
    character as kept or not, then let each run of characters that are not
    kept collapse to one separator. *)
Fixpoint squeeze (marks : list (option Z)) : text :=
  match marks with
  | [] => []
  | Some c :: rest => c :: squeeze rest
  | None :: rest =>
      match rest with
      | None :: _ => squeeze rest
      | _ => 95 :: squeeze rest
      end
  end.

Definition collapse_runs (keep : Z -> bool) (s : text) : text :=
  squeeze (map (fun c => if keep c then Some c else None) s).

(** The slug of an alias when the characters in [keep] are kept and every
    run of other characters collapses to one underscore. *)
Definition slug_of (u : unicode) (keep : Z -> bool) (alias : text) : string :=
  Text.utf8 (str_lower u (collapse_runs keep alias)).

(** A slug of ASCII text is made of lower-case letters, digits and
    underscores. *)
Definition slug_char (c : ascii) : bool :=
  PyStr.is_lower c || PyStr.is_digit c || (PyStr.code c =? 95).

(** The code points of the characters of such a slug. *)
Definition slug_point (c : Z) : bool :=
  ((97 <=? c) && (c <=? 122)) || ((48 <=? c) && (c <=? 57)) || (c =? 95).

(** A text of ASCII characters. *)
Definition is_ascii_text (s : text) : bool := forallb Text.is_ascii s.

(** The first device row that the alias statement matches. *)
Definition matching_device (d : database) : option device :=
  Sql.first_row (List.filter Sql.is_wearable (DEVICE d)).

(** The alias that the alias statement selects, if it selects one, is
    ASCII text. *)
Definition ascii_alias (d : database) : Prop :=
  match matching_device d with
  | Some r =>
      match dev_alias r with
      | Some alias => is_ascii_text alias = true
      | None => True
      end
  | None => True
  end.

(** The most recent sleep record. *)
Definition latest_sleep (d : database) : option sleep_time :=
  Sql.latest slp_timestamp (XIAOMI_SLEEP_TIME_SAMPLE d).

(** The clock does not run backwards around today: the Monday of this week
    and the first of this month do not start after today does, and today
    does not end before it starts. *)
Definition coherent (c : localtime) : Prop :=
  let today := now_date c in
  timestamp_min c (Date.minus_days today (Date.weekday today))
    <= timestamp_min c today
  /\ timestamp_min c (replace_day_1 c today) <= timestamp_min c today
  /\ timestamp_min c today <= timestamp_max c today.

(** A store holding one activity sample, taken at today's local midnight,
    and no other row in any table. *)
Definition one_sample_db (c : localtime) (steps heart_rate : option Z)
  : database :=
  Database
    [ActivitySample (timestamp_min c (now_date c)) steps heart_rate]
    [] [] [] [] [] (fun _ => false).

Definition one_sample_host (c : localtime) (steps heart_rate : option Z)
  : host :=
  Host true false (one_sample_db c steps heart_rate) c.

(* ===================================================================== *)
(** ** Example hosts                                                      *)
(* ===================================================================== *)

Module Examples.

(** 2026-11-03, a Tuesday, on a host on UTC. *)
Definition a_tuesday : localtime := Date.utc 739923.

(** 72.05, as binary64. *)
Definition kg_72_05 : float := Float false 5070068018000691 (-46).

(** A tracker with history in every table; the latest sleep record has a
    NULL awake flag and lasted 125 minutes, the one before 90 minutes. *)
Definition band_db : database :=
  Database
    [ ActivitySample 1793664000 (Some 500) (Some 71);
      ActivitySample 1793577600 (Some 1200) (Some 64) ]
    [ BatteryLevel 1793660000 (Some 83) ]
    [ WeightSample 1793650000 (Some kg_72_05) ]
    [ DailySummary 1793577600 (Some 52) (Some 141) (Some 77) (Some 2100) ]
    [ SleepTime 1793570000 (Some 1) (Some 90);
      SleepTime 1793656400 None (Some 125) ]
    [ Device (Some "Pixel 8") (Some (Text.of_string "Phone"));
      Device (Some "Xiaomi Smart Band 7")
             (Some (Text.of_string "Mi Band 7!")) ]
    (fun _ => false).

Definition band_host : host := Host true false band_db a_tuesday.

(** The same file with a malformed HEART_RATE column: SQLite rejects the
    latest-heart-rate statement and no other. *)
Definition broken_heart_rate_db : database :=
  Database
    (XIAOMI_ACTIVITY_SAMPLE band_db) (BATTERY_LEVEL band_db)
    (MI_SCALE_WEIGHT_SAMPLE band_db) (XIAOMI_DAILY_SUMMARY_SAMPLE band_db)
    (XIAOMI_SLEEP_TIME_SAMPLE band_db) (DEVICE band_db)
    (fun q => match q with Latest HEART_RATE => true | _ => false end).

Definition broken_heart_rate_host : host :=
  Host true false broken_heart_rate_db a_tuesday.

(** A host whose database file cannot be opened. *)
Definition locked_host : host := Host true true band_db a_tuesday.

(** A file without any row. *)
Definition empty_db : database := Database [] [] [] [] [] [] (fun _ => false).
Definition empty_host : host := Host true false empty_db a_tuesday.

(** A sleep table whose latest record says "awake" and lasted 90 minutes. *)
Definition awake_db : database :=
  Database [] [] [] []
    [ SleepTime 1793570000 (Some 0) (Some 125);
      SleepTime 1793656400 (Some 1) (Some 90) ]
    [] (fun _ => false).
Definition awake_host : host := Host true false awake_db a_tuesday.

(** A device whose alias already contains underscores. *)
Definition underscore_db : database :=
  Database [] [] [] [] []
    [ Device (Some "Amazfit Band 7") (Some (Text.of_string "Mi_-_Band")) ]
    (fun _ => false).
Definition underscore_host : host :=
  Host true false underscore_db a_tuesday.

End Examples.

(* ===================================================================== *)
(** ** The scheduler                                                      *)
(* ===================================================================== *)

(** The log lines of [run]. *)
Inductive run_log :=
| StartingPublisher
| SleepingBeforeNextPublish (seconds : Z)
| FailedToConnectToBroker (e : exn).

(** What [run] does, oldest first: the effects of the methods it calls,
    its own waits and log lines, and the life of the MQTT client. *)
Inductive run_event :=
| Did (ev : event)
| Slept (seconds : Z)            (* await asyncio.sleep(seconds) *)
| Logged (l : level) (r : run_log)
| ClientEntered                  (* async with aiomqtt.Client(...) as client *)
| ClientLeft.                    (* the async with block was left *)

(** The process around the publisher: the configured interval, whether the
    broker refuses the client, and the host as the k-th extraction finds
    it (the store and the clock change between cycles). *)
Record process := Process {
  publish_interval : Z;
  client_raises : bool;
  world : nat -> host }.

Record run_state := RunState {
  timeline : list run_event;
  pending_rows : list row;
  client_faults : list bool }.

Definition note (ev : run_event) (rs : run_state) : run_state :=
  RunState (timeline rs ++ [ev]) (pending_rows rs) (client_faults rs).

(** A method call inside [run]: its effects join the timeline. *)
Definition perform {A} (c : M A) (h : host) (rs : run_state)
  : outcome A * run_state :=
  let '(o, s') := c h (State [] (pending_rows rs) (client_faults rs)) in
  (o, RunState (timeline rs ++ map Did (trace s'))
               (result_set s') (publish_raises s')).

(** [while True: sleep; extract; publish; log], cut after [fuel] turns.
    [Ok] means the loop is still going, [Raise] that an exception left it. *)
Fixpoint run_loop (fuel : nat) (self : publisher) (p : process) (k : nat)
    (rs : run_state) : outcome unit * run_state :=
  match fuel with
  | O => (Ok tt, rs)
  | S fuel' =>
      let rs := note (Slept (publish_interval p)) rs in
      match perform (cycle self) (world p k) rs with
      | (Ok _, rs) =>
          run_loop fuel' self p (S k)
            (note (Logged INFO (SleepingBeforeNextPublish (publish_interval p)))
                  rs)
      | (Raise e, rs) => (Raise e, rs)
      end
  end.

Inductive run_status := StillRunning | Returned.

(** [run], observed until the loop has made [fuel] turns. *)
Definition run (fuel : nat) (self : publisher) (p : process)
    (rs : run_state) : run_status * run_state :=
  let rs := note (Logged INFO StartingPublisher) rs in
  if client_raises p
  then (Returned, note (Logged ERROR (FailedToConnectToBroker MqttError)) rs)
  else
    let rs := note ClientEntered rs in
    let body :=
      match perform (setup_home_assistant_entities self) (world p 0) rs with
      | (Raise e, rs) => (Raise e, rs)
      | (Ok _, rs) =>
          (* Publish immediately on startup *)
          match perform (cycle self) (world p 0) rs with
          | (Raise e, rs) => (Raise e, rs)
          | (Ok _, rs) =>
              run_loop fuel self p 1
                (note (Logged INFO
                         (SleepingBeforeNextPublish (publish_interval p))) rs)
          end
      end in
    match body with
    | (Ok _, rs) => (StillRunning, rs)
    | (Raise e, rs) =>
        (Returned,
         note (Logged ERROR (FailedToConnectToBroker e)) (note ClientLeft rs))
    end.

(** What an outside observer of the process sees: the messages and the
    waits, in order. *)
Inductive beat :=
| Wait (seconds : Z)
| Send (m : message).

Definition beats (tl : list run_event) : list beat :=
  omap (fun ev => match ev with
                  | Slept n => Some (Wait n)
                  | Did (EvPublish m) => Some (Send m)
                  | _ => None
                  end) tl.

(** The store was touched: a connection, a cursor, a statement, a close. *)
Definition store_event (ev : event) : bool :=
  match ev with
  | EvConnect | EvCursor | EvExecute _ | EvClose => true
  | _ => false
  end.

(* ===================================================================== *)
(** ** Vocabulary of the further properties                               *)
(* ===================================================================== *)

(** The Extraction Result of the registry on a host. *)
Definition extraction (device_name : string) (h : host) : gmap string value :=
  match result_of (get_sensor_data (publisher_for device_name)) h
                  (State [] [] []) with
  | Ok data => data
  | Raise _ => ∅
  end.

(** The state message a sensor's own query leads to on a host: none when
    the query raises or answers [None]. *)
Definition query_message (h : host) (sensor : sensor) : option message :=
  match value_or_none (result_of (query sensor Cursor) h (State [] [] [])) with
  | VNone => None
  | v => Some (Message (state_topic sensor) (Py.str v) 1 false)
  end.

(** The effects of one turn of the extraction loop: the statement of the
    sensor, and the error log when its query raises. *)
Definition sensor_events (h : host) (sensor : sensor) : list event :=
  map EvExecute (statements_of sensor h)
  ++ match result_of (query sensor Cursor) h (State [] [] []) with
     | Ok _ => []
     | Raise e => [EvLog ERROR (ErrorQuerying (unique_id sensor) e)]
     end.

(** The (timestamp, value) pairs a latest-row statement chooses from. *)
Definition column_values (d : database) (c : column) : list (Z * value) :=
  match c with
  | LEVEL =>
      map (fun r => (bat_timestamp r, Sql.of_integer (bat_level r)))
          (BATTERY_LEVEL d)
  | WEIGHT_KG =>
      map (fun r => (wgt_timestamp r, Sql.of_real (wgt_weight_kg r)))
          (MI_SCALE_WEIGHT_SAMPLE d)
  | HEART_RATE =>
      map (fun r => (act_timestamp r, Sql.of_integer (act_heart_rate r)))
          (XIAOMI_ACTIVITY_SAMPLE d)
  | HR_RESTING =>
      map (fun r => (day_timestamp r, Sql.of_integer (day_hr_resting r)))
          (XIAOMI_DAILY_SUMMARY_SAMPLE d)
  | HR_MAX =>
      map (fun r => (day_timestamp r, Sql.of_integer (day_hr_max r)))
          (XIAOMI_DAILY_SUMMARY_SAMPLE d)
  | HR_AVG =>
      map (fun r => (day_timestamp r, Sql.of_integer (day_hr_avg r)))
          (XIAOMI_DAILY_SUMMARY_SAMPLE d)
  | CALORIES =>
      map (fun r => (day_timestamp r, Sql.of_integer (day_calories r)))
          (XIAOMI_DAILY_SUMMARY_SAMPLE d)
  | IS_AWAKE =>
      map (fun r => (slp_timestamp r, Sql.of_integer (slp_is_awake r)))
          (XIAOMI_SLEEP_TIME_SAMPLE d)
  | TOTAL_DURATION =>
      map (fun r => (slp_timestamp r, Sql.of_integer (slp_total_duration r)))
          (XIAOMI_SLEEP_TIME_SAMPLE d)
  end.

(** The step counts of the samples in a range, NULLs left out. *)
Definition steps_in (d : database) (lo : Z) (hi : option Z) : list Z :=
  omap act_steps (List.filter (Sql.in_range lo hi) (XIAOMI_ACTIVITY_SAMPLE d)).

Definition total (xs : list Z) : Z := fold_right Z.add 0 xs.

(** No sample counts a negative number of steps, and all the steps of the
    table together fit the 64-bit accumulator of SUM. *)
Definition plausible_steps (d : database) : Prop :=
  Forall (fun r => match act_steps r with Some n => 0 <= n | None => True end)
         (XIAOMI_ACTIVITY_SAMPLE d)
  /\ total (omap act_steps (XIAOMI_ACTIVITY_SAMPLE d)) < 2 ^ 63.

(** A character that may stand in the name of an MQTT topic of ASCII
    text: a printable ASCII character that is not a space and none of the
    wildcards [#] and [+]. *)
Definition topic_char (c : ascii) : bool :=
  (32 <? PyStr.code c) && (PyStr.code c <? 127)
  && negb (PyStr.code c =? 35) && negb (PyStr.code c =? 43).

(** The number of topic levels is the number of slashes plus one. *)
Fixpoint count_char (a : ascii) (s : string) : nat :=
  match s with
  | EmptyString => O
  | String c s' => (if Ascii.eqb c a then 1 else 0) + count_char a s'
  end.

(** The error logs of a publish cycle, and its publish calls. *)
Definition publish_failures (tr : list event) : list string :=
  omap (fun ev => match ev with
                  | EvLog ERROR (FailedToPublish uid _) => Some uid
                  | _ => None
                  end) tr.

(** The sensors of a publish cycle whose publish call raises: the i-th
    present sensor fails when the i-th coming fault says so. *)
Fixpoint failing_sensors (data : gmap string value) (sensors : list sensor)
    (faults : list bool) : list string :=
  match sensors with
  | [] => []
  | sensor :: rest =>
      match state_message data sensor with
      | None => failing_sensors data rest faults
      | Some _ =>
          match faults with
          | [] => []
          | true :: faults' =>
              unique_id sensor :: failing_sensors data rest faults'
          | false :: faults' => failing_sensors data rest faults'
          end
      end
  end.

(* ===================================================================== *)
(** ** Basic facts about computations                                     *)
(* ===================================================================== *)

Lemma published_app (tr1 tr2 : list event) :
  published (tr1 ++ tr2) = published tr1 ++ published tr2.
Proof. unfold published. apply omap_app. Qed.

Lemma executed_app (tr1 tr2 : list event) :
  executed (tr1 ++ tr2) = executed tr1 ++ executed tr2.
Proof. unfold executed. apply omap_app. Qed.

(** A publish call hands exactly one message to the client, whether or not
    the call raises. *)
Lemma mqtt_publish_run (topic payload : string) (qos : Z) (retain : bool)
    (h : host) (s : state) :
  exists o s',
    mqtt_publish topic payload qos retain h s = (o, s')
    /\ (o = Ok tt \/ o = Raise MqttError)
    /\ published (trace s')
       = published (trace s) ++ [Message topic payload qos retain].
Proof.
  unfold mqtt_publish, bind, next_publish_fault, emit, raise, ret.
  destruct s as [tr rs faults]; simpl.
  destruct faults as [|[|] faults]; simpl;
    do 2 eexists; (split; [reflexivity|]); simpl;
    (split; [auto|]); apply published_app.
Qed.

Lemma log_run (l : level) (r : log_record) (h : host) (s : state) :
  exists s', emit (EvLog l r) h s = (Ok tt, s')
             /\ published (trace s') = published (trace s).
Proof.
  eexists; split; [reflexivity|]. simpl.
  rewrite published_app. simpl. apply app_nil_r.
Qed.

(** A loop whose body always completes and publishes [f x] publishes the
    concatenation over the list, in order. *)
Lemma for_each_published {A} (body : A -> M unit) (f : A -> list message)
    (xs : list A) :
  (forall x h s, exists s', body x h s = (Ok tt, s')
                   /\ published (trace s') = published (trace s) ++ f x) ->
  forall h s, exists s',
    for_each xs body h s = (Ok tt, s')
    /\ published (trace s') = published (trace s) ++ concat (map f xs).
Proof.
  intros Hbody. induction xs as [|x xs IH]; intros h s; simpl.
  - eexists; split; [reflexivity|]. symmetry; apply app_nil_r.
  - unfold bind. destruct (Hbody x h s) as (s1 & -> & H1).
    destruct (IH h s1) as (s2 & -> & H2).
    eexists; split; [reflexivity|]. rewrite H2, H1. symmetry. apply app_assoc.
Qed.

Lemma concat_map_singleton {A B} (f : A -> B) (xs : list A) :
  concat (map (fun x => [f x]) xs) = map f xs.
Proof.
  induction xs as [|x xs IH]; simpl; [reflexivity|]. now rewrite IH.
Qed.

Lemma omap_as_concat {A B} (f : A -> option B) (xs : list A) :
  omap f xs = concat (map (fun x => match f x with Some b => [b] | None => [] end) xs).
Proof.
  induction xs as [|x xs IH]; simpl; [reflexivity|].
  rewrite <- IH. destruct (f x); reflexivity.
Qed.

(* ===================================================================== *)
(** ** The publish cycle                                                  *)
(* ===================================================================== *)

Lemma publish_sensor_data_run (self : publisher) (data : gmap string value)
    (h : host) (s : state) :
  exists s',
    publish_sensor_data self data h s = (Ok tt, s')
    /\ published (trace s') = published (trace s) ++ state_messages self data.
Proof.
  unfold publish_sensor_data, bind.
  edestruct (for_each_published
               (fun sensor : sensor =>
                  let value := dict_get data (unique_id sensor) in
                  if Py.is_not_none value
                  then try_except
                         (mqtt_publish (state_topic sensor) (Py.str value) 1 false)
                         (fun e => logger_error (FailedToPublish (unique_id sensor) e))
                  else ret tt)
               (fun sensor => match state_message data sensor with
                              | Some m => [m] | None => [] end)
               (sensors self)) as (s1 & Hrun & Hpub).
  - intros x h' s'. unfold state_message. simpl.
    destruct (dict_get data (unique_id x)) eqn:Hv; simpl.
    1: { eexists; split; [reflexivity|]. symmetry; apply app_nil_r. }
    all: unfold try_except;
      match goal with
      | |- context [mqtt_publish ?t ?p ?q ?r ?h0 ?s0] =>
          destruct (mqtt_publish_run t p q r h0 s0) as (o & s1 & -> & [-> | ->] & Hp)
      end.
    all: try (eexists; split; [reflexivity|]; exact Hp).
    all: match goal with
      | |- context [logger_error ?r ?h0 ?st] =>
          destruct (log_run ERROR r h0 st) as (s2 & Hlog & Hp2)
      end;
      unfold logger_error; rewrite Hlog;
      (eexists; split; [reflexivity|]); rewrite Hp2; exact Hp.
  - rewrite Hrun.
    match goal with
    | |- context [logger_info ?r h s1] =>
        destruct (log_run INFO r h s1) as (s2 & Hlog & Hp2)
    end.
    unfold logger_info. rewrite Hlog.
    eexists; split; [reflexivity|].
    rewrite Hp2, Hpub. unfold state_messages. now rewrite omap_as_concat.
Qed.

Lemma present_entry_published (self : publisher) (data : gmap string value)
    (sensor : sensor) :
  sensor ∈ sensors self ->
  dict_get data (unique_id sensor) <> VNone ->
  Message (state_topic sensor)
          (Py.str (dict_get data (unique_id sensor))) 1 false
    ∈ state_messages self data.
Proof.
  intros Hin Hv. unfold state_messages.
  apply list_elem_of_omap. exists sensor. split; [exact Hin|].
  unfold state_message.
  destruct (dict_get data (unique_id sensor)); try reflexivity.
  now contradiction Hv.
Qed.

(** C6. For every Extraction Result, the publish cycle completes and hands
    to the MQTT client exactly one message per sensor whose entry is
    present, in registry order: the value in its string form, on the
    sensor's state topic, with QoS 1 and the retained flag cleared.  A
    sensor whose entry is absent gets no message at all.  This holds
    whatever publish calls fail. *)
Theorem publish_sensor_data_publishes_present_entries
    (self : publisher) (data : gmap string value) (h : host) (s : state) :
  result_of (publish_sensor_data self data) h s = Ok tt
  /\ published (trace_of (publish_sensor_data self data) h s)
     = published (trace s) ++ state_messages self data
  /\ (forall m, m ∈ state_messages self data ->
        msg_retain m = false /\ msg_qos m = 1
        /\ exists sensor, sensor ∈ sensors self
             /\ dict_get data (unique_id sensor) <> VNone
             /\ msg_topic m = state_topic sensor
             /\ msg_payload m = Py.str (dict_get data (unique_id sensor)))
  /\ (forall sensor, sensor ∈ sensors self ->
        dict_get data (unique_id sensor) <> VNone ->
        Message (state_topic sensor)
                (Py.str (dict_get data (unique_id sensor))) 1 false
          ∈ state_messages self data).
Proof.
  destruct (publish_sensor_data_run self data h s) as (s' & Hrun & Hpub).
  unfold result_of, trace_of. rewrite Hrun. simpl.
  split; [reflexivity|]. split; [exact Hpub|]. split.
  - intros m Hm. unfold state_messages in Hm.
    apply list_elem_of_omap in Hm. destruct Hm as (sensor & Hin & Hmsg).
    unfold state_message in Hmsg.
    destruct (dict_get data (unique_id sensor)) eqn:Hv; try discriminate;
      injection Hmsg as <-; simpl; (split; [reflexivity|]);
      (split; [reflexivity|]); exists sensor; rewrite Hv;
      repeat split; auto; discriminate.
  - intros sensor Hin Hv. now apply present_entry_published.
Qed.

(* ===================================================================== *)
(** ** The metric queries                                                 *)
(* ===================================================================== *)

Lemma cursor_execute_run (q : stmt) (h : host) (s : state) :
  cursor_execute Cursor q h s
  = match Sql.run (db h) q with
    | Ok rows =>
        (Ok tt, State (trace s ++ [EvExecute q]) rows (publish_raises s))
    | Raise e =>
        (Raise e,
         State (trace s ++ [EvExecute q]) (result_set s) (publish_raises s))
    end.
Proof.
  unfold cursor_execute, bind, emit, ask, lift, set_result_set. simpl.
  destruct (Sql.run (db h) q); reflexivity.
Qed.

(** The answer of the plain latest-row queries. *)
Lemma query_latest_run (c : column) (h : host) (s : state) :
  exists rs,
    query_latest c Cursor h s
    = (match Sql.run (db h) (Latest c) with
       | Ok ((v :: _) :: _) => Ok v
       | Ok _ => Ok VNone
       | Raise e => Raise e
       end,
       State (trace s ++ [EvExecute (Latest c)]) rs (publish_raises s)).
Proof.
  unfold query_latest, bind. rewrite cursor_execute_run.
  destruct (Sql.run (db h) (Latest c)) as [[|[|v r] rows]|e];
    simpl; eexists; reflexivity.
Qed.

Lemma query_is_awake_run (h : host) (s : state) :
  exists rs,
    query_is_awake Cursor h s
    = (match Sql.run (db h) (Latest IS_AWAKE) with
       | Ok ((flag :: _) :: _) => Ok (VBool (negb (Py.truthy flag)))
       | Ok _ => Ok VNone
       | Raise e => Raise e
       end,
       State (trace s ++ [EvExecute (Latest IS_AWAKE)]) rs (publish_raises s)).
Proof.
  unfold query_is_awake, bind. rewrite cursor_execute_run.
  destruct (Sql.run (db h) (Latest IS_AWAKE)) as [[|[|v r] rows]|e];
    simpl; eexists; reflexivity.
Qed.

Lemma query_total_sleep_duration_run (h : host) (s : state) :
  exists rs,
    query_total_sleep_duration Cursor h s
    = (match Sql.run (db h) (Latest TOTAL_DURATION) with
       | Ok ((VNone :: _) :: _) => Ok VNone
       | Ok ((minutes :: _) :: _) =>
           match Py.truediv minutes 60 with
           | Ok hours =>
               match Py.round hours 2 with
               | Ok rounded => Ok (VFloat rounded)
               | Raise e => Raise e
               end
           | Raise e => Raise e
           end
       | Ok _ => Ok VNone
       | Raise e => Raise e
       end,
       State (trace s ++ [EvExecute (Latest TOTAL_DURATION)]) rs
             (publish_raises s)).
Proof.
  unfold query_total_sleep_duration, bind. rewrite cursor_execute_run.
  destruct (Sql.run (db h) (Latest TOTAL_DURATION)) as [[|[|v r] rows]|e];
    simpl; try (eexists; reflexivity).
  destruct v; simpl; try (eexists; reflexivity);
    unfold lift;
    match goal with
    | |- context [Py.in_range ?x] => destruct (Py.in_range x) as [hours|e]
    end; simpl; try (eexists; reflexivity);
    destruct (Py.round hours 2); simpl; eexists; reflexivity.
Qed.

Lemma query_daily_steps_run (h : host) (s : state) :
  exists rs,
    query_daily_steps Cursor h s
    = (steps_answer h (daily_statement (clock h)),
       State (trace s ++ [EvExecute (daily_statement (clock h))]) rs
             (publish_raises s)).
Proof.
  unfold query_daily_steps, bind, today, ts_min, ts_max, ask, steps_answer,
    daily_statement.
  rewrite cursor_execute_run.
  destruct (Sql.run _ _) as [[|[|v r] rows]|e]; simpl; eexists; reflexivity.
Qed.

Lemma query_weekly_steps_run (h : host) (s : state) :
  exists rs,
    query_weekly_steps Cursor h s
    = (steps_answer h (weekly_statement (clock h)),
       State (trace s ++ [EvExecute (weekly_statement (clock h))]) rs
             (publish_raises s)).
Proof.
  unfold query_weekly_steps, bind, today, ts_min, ask, steps_answer,
    weekly_statement.
  rewrite cursor_execute_run.
  destruct (Sql.run _ _) as [[|[|v r] rows]|e]; simpl; eexists; reflexivity.
Qed.

Lemma query_monthly_steps_run (h : host) (s : state) :
  exists rs,
    query_monthly_steps Cursor h s
    = (steps_answer h (monthly_statement (clock h)),
       State (trace s ++ [EvExecute (monthly_statement (clock h))]) rs
             (publish_raises s)).
Proof.
  unfold query_monthly_steps, bind, today, ts_min, ask, steps_answer,
    monthly_statement.
  rewrite cursor_execute_run.
  destruct (Sql.run _ _) as [[|[|v r] rows]|e]; simpl; eexists; reflexivity.
Qed.

Lemma registry_queries_single_statement (device_name : string) :
  Forall (fun sensor => single_statement_query (query sensor))
         (make_sensors device_name).
Proof.
  unfold make_sensors.
  repeat apply Forall_cons_2; try apply Forall_nil_2; simpl; intros h;
    do 2 eexists; intros s.
  - apply query_daily_steps_run.
  - apply query_weekly_steps_run.
  - apply query_monthly_steps_run.
  - apply (query_latest_run LEVEL).
  - apply (query_latest_run WEIGHT_KG).
  - apply (query_latest_run HEART_RATE).
  - apply (query_latest_run HR_RESTING).
  - apply (query_latest_run HR_MAX).
  - apply (query_latest_run HR_AVG).
  - apply (query_latest_run CALORIES).
  - apply query_is_awake_run.
  - apply query_total_sleep_duration_run.
Qed.

Lemma registry_unique_ids (device_name : string) :
  NoDup (map unique_id (make_sensors device_name)).
Proof.
  simpl. repeat (apply NoDup_cons; split; [set_unfold; intuition discriminate|]).
  apply NoDup_nil; exact I.
Qed.

(* ===================================================================== *)
(** ** The extraction executor                                            *)
(* ===================================================================== *)

Lemma single_statement_result (q : cursor -> M value) (h : host)
    (s s0 : state) :
  single_statement_query q ->
  result_of (q Cursor) h s = result_of (q Cursor) h s0.
Proof.
  intros Hq. destruct (Hq h) as (sent & answer & Hrun).
  destruct (Hrun s) as (rs & Hs). destruct (Hrun s0) as (rs0 & Hs0).
  unfold result_of. now rewrite Hs, Hs0.
Qed.

(** One turn of the loop never raises: the entry is the value of the
    query, or [None] when the query raised. *)
Lemma query_sensor_total (sensor : sensor) (data : gmap string value)
    (h : host) (s : state) :
  exists s',
    query_sensor Cursor data sensor h s
    = (Ok (<[unique_id sensor :=
               value_or_none (result_of (query sensor Cursor) h s)]> data), s').
Proof.
  unfold query_sensor, try_except, bind, result_of.
  destruct (query sensor Cursor h s) as [[v|e] s1]; simpl;
    eexists; reflexivity.
Qed.

Lemma query_sensors_total (l : list sensor) (data : gmap string value)
    (h : host) (s : state) :
  exists data' s', query_sensors Cursor data l h s = (Ok data', s').
Proof.
  revert data s. induction l as [|sensor l IH]; intros data s; simpl.
  - do 2 eexists; reflexivity.
  - unfold bind. destruct (query_sensor_total sensor data h s) as (s1 & ->).
    apply IH.
Qed.

Lemma query_sensor_run (sensor : sensor) (data : gmap string value)
    (h : host) (s : state) :
  single_statement_query (query sensor) ->
  exists evs rs,
    query_sensor Cursor data sensor h s
    = (Ok (<[unique_id sensor :=
               value_or_none (result_of (query sensor Cursor) h s)]> data),
       State (trace s ++ evs) rs (publish_raises s))
    /\ Forall query_event evs
    /\ length (executed evs) = 1%nat.
Proof.
  intros Hq. destruct (Hq h) as (sent & answer & Hrun).
  destruct (Hrun s) as (rs & Hs).
  unfold query_sensor, try_except, bind, result_of. rewrite Hs. simpl.
  destruct answer as [v|e]; simpl.
  - exists [EvExecute sent], rs. split; [reflexivity|].
    split; [repeat constructor | reflexivity].
  - exists [EvExecute sent; EvLog ERROR (ErrorQuerying (unique_id sensor) e)], rs.
    unfold logger_error, emit, ret. simpl. rewrite <- app_assoc. simpl.
    split; [reflexivity|]. split; [repeat constructor | reflexivity].
Qed.

(** The loop over a registry of single-statement queries with distinct
    identifiers: it completes, every sensor's entry is what its query
    answers, and the trace grows by one statement per sensor. *)
Lemma query_sensors_run (h : host) (l : list sensor) :
  Forall (fun sensor => single_statement_query (query sensor)) l ->
  forall (data : gmap string value) (s : state),
  exists data' evs rs,
    query_sensors Cursor data l h s
    = (Ok data', State (trace s ++ evs) rs (publish_raises s))
    /\ Forall query_event evs
    /\ length (executed evs) = length l
    /\ (forall k, k ∉ map unique_id l -> data' !! k = data !! k)
    /\ (NoDup (map unique_id l) ->
        forall sensor, sensor ∈ l -> forall s0,
          data' !! unique_id sensor
          = Some (value_or_none (result_of (query sensor Cursor) h s0))).
Proof.
  induction 1 as [|sensor l Hq Hl IH]; intros data s; simpl.
  - exists data, [], (result_set s). unfold ret. rewrite app_nil_r.
    destruct s; simpl. split; [reflexivity|]. split; [constructor|].
    split; [reflexivity|]. split; [reflexivity|].
    intros _ sensor Hin. inversion Hin.
  - unfold bind.
    destruct (query_sensor_run sensor data h s Hq) as (evs1 & rs1 & -> & Hev1 & Hx1).
    destruct (IH (<[unique_id sensor :=
                      value_or_none (result_of (query sensor Cursor) h s)]> data)
                 (State (trace s ++ evs1) rs1 (publish_raises s)))
      as (data' & evs2 & rs2 & -> & Hev2 & Hx2 & Hkeep & Hval).
    simpl. exists data', (evs1 ++ evs2), rs2. rewrite app_assoc.
    split; [reflexivity|]. split; [now apply Forall_app|].
    split; [rewrite executed_app, length_app, Hx1, Hx2; reflexivity|].
    split.
    + intros k Hk. rewrite Hkeep.
      * apply lookup_insert_ne. intros Heq. apply Hk. rewrite <- Heq. now left.
      * intros Hin. apply Hk. now right.
    + intros Hnd sensor' Hin s0. apply NoDup_cons in Hnd as [Hfresh Hnd].
      apply elem_of_cons in Hin as [-> | Hin].
      * rewrite Hkeep by exact Hfresh. rewrite lookup_insert_eq.
        now rewrite (single_statement_result _ h s s0 Hq).
      * now apply Hval.
Qed.

(** The executor on a registry of single-statement queries with distinct
    identifiers, when the store can be reached. *)
Lemma get_sensor_data_run_registry (self : publisher) (h : host) (s : state) :
  reachable h ->
  Forall (fun sensor => single_statement_query (query sensor)) (sensors self) ->
  NoDup (map unique_id (sensors self)) ->
  exists data evs rs,
    get_sensor_data self h s
    = (Ok data,
       State (trace s ++ EvConnect :: EvCursor :: evs ++ [EvClose]) rs
             (publish_raises s))
    /\ Forall query_event evs
    /\ length (executed evs) = length (sensors self)
    /\ (forall sensor, sensor ∈ sensors self -> forall s0,
          data !! unique_id sensor
          = Some (value_or_none (result_of (query sensor Cursor) h s0))).
Proof.
  intros (Hpath & Hconn) Hsingle Hnodup.
  unfold get_sensor_data, os_path_exists, bind, ask. rewrite Hpath. simpl.
  unfold try_except, bind, sqlite3_connect, conn_cursor, bind, ask.
  rewrite Hconn. simpl.
  destruct (query_sensors_run h (sensors self) Hsingle ∅
              (State ((trace s ++ [EvConnect]) ++ [EvCursor]) (result_set s)
                     (publish_raises s)))
    as (data & evs & rs & Hrun & Hev & Hx & _ & Hval).
  rewrite Hrun. simpl.
  exists data, evs, rs. split.
  - f_equal. f_equal. rewrite <- !app_assoc. reflexivity.
  - split; [exact Hev|]. split; [exact Hx|]. now apply Hval.
Qed.

Lemma get_sensor_data_run (device_name : string) (h : host) (s : state) :
  reachable h ->
  exists data evs rs,
    get_sensor_data (publisher_for device_name) h s
    = (Ok data,
       State (trace s ++ EvConnect :: EvCursor :: evs ++ [EvClose]) rs
             (publish_raises s))
    /\ Forall query_event evs
    /\ length (executed evs) = length (make_sensors device_name)
    /\ (forall sensor, sensor ∈ make_sensors device_name -> forall s0,
          data !! unique_id sensor
          = Some (value_or_none (result_of (query sensor Cursor) h s0))).
Proof.
  intros Hreach.
  apply (get_sensor_data_run_registry (publisher_for device_name) h s Hreach).
  - apply registry_queries_single_statement.
  - apply registry_unique_ids.
Qed.

(** The executor always returns a dict, whatever the registry holds. *)
Lemma get_sensor_data_total (self : publisher) (h : host) (s : state) :
  exists data s', get_sensor_data self h s = (Ok data, s').
Proof.
  unfold get_sensor_data, os_path_exists, bind, ask. simpl.
  destruct (path_exists h); simpl; [|do 2 eexists; reflexivity].
  unfold try_except, bind, sqlite3_connect, conn_cursor, bind, ask. simpl.
  destruct (connect_raises h); simpl; [do 2 eexists; reflexivity|].
  match goal with
  | |- context [query_sensors Cursor ?d ?l h ?st] =>
      destruct (query_sensors_total l d h st) as (data & s1 & ->)
  end.
  simpl. do 2 eexists; reflexivity.
Qed.

(** When the store cannot be reached the result is the empty dict. *)
Lemma get_sensor_data_unreachable (self : publisher) (h : host) (s : state) :
  path_exists h = false \/ connect_raises h = true ->
  result_of (get_sensor_data self) h s = Ok ∅.
Proof.
  intros Hun.
  unfold result_of, get_sensor_data, os_path_exists, bind, ask. simpl.
  destruct (path_exists h); simpl; [|reflexivity].
  unfold try_except, bind, sqlite3_connect, conn_cursor, bind, ask. simpl.
  destruct (connect_raises h); simpl; [reflexivity|].
  destruct Hun as [Hun | Hun]; discriminate.
Qed.

(** C1. The executor never raises: on every host and from every state it
    returns a dict.  When the database file is missing or no connection can
    be opened, the dict is empty.  When the store can be reached, every
    sensor of the registry has an entry: the value its query returns, or
    "no value" ([None]) when its query raises, so that a failing query
    costs no other sensor its value. *)
Theorem get_sensor_data_isolates_failures
    (device_name : string) (h : host) (s : state) :
  (exists data,
     result_of (get_sensor_data (publisher_for device_name)) h s = Ok data)
  /\ (path_exists h = false \/ connect_raises h = true ->
      result_of (get_sensor_data (publisher_for device_name)) h s = Ok ∅)
  /\ (reachable h ->
      exists data,
        result_of (get_sensor_data (publisher_for device_name)) h s = Ok data
        /\ forall sensor, sensor ∈ make_sensors device_name -> forall s0,
             match result_of (query sensor Cursor) h s0 with
             | Ok v => data !! unique_id sensor = Some v
             | Raise _ => data !! unique_id sensor = Some VNone
             end).
Proof.
  split; [|split].
  - destruct (get_sensor_data_total (publisher_for device_name) h s)
      as (data & s' & Hrun).
    exists data. unfold result_of. now rewrite Hrun.
  - intros [Hun | Hun]; apply get_sensor_data_unreachable; auto.
  - intros Hreach.
    destruct (get_sensor_data_run device_name h s Hreach)
      as (data & evs & rs & Hrun & _ & _ & Hval).
    exists data. split; [unfold result_of; now rewrite Hrun|].
    intros sensor Hin s0. specialize (Hval sensor Hin s0).
    destruct (result_of (query sensor Cursor) h s0); exact Hval.
Qed.

(** On the file with the malformed HEART_RATE column every sensor but the
    latest heart rate keeps its value. *)
Lemma get_sensor_data_isolates_failures_witness :
  exists data,
    result_of (get_sensor_data (publisher_for "mi_band_7_"))
              Examples.broken_heart_rate_host (initial []) = Ok data
    /\ forall sensor, sensor ∈ make_sensors "mi_band_7_" -> forall s0,
         match result_of (query sensor Cursor)
                         Examples.broken_heart_rate_host s0 with
         | Ok v => data !! unique_id sensor = Some v
         | Raise _ => data !! unique_id sensor = Some VNone
         end.
Proof.
  apply (get_sensor_data_isolates_failures
           "mi_band_7_" Examples.broken_heart_rate_host (initial [])).
  repeat split; reflexivity.
Defined.

(* ===================================================================== *)
(** ** No row, NULL sums and NULL columns                                 *)
(* ===================================================================== *)

Lemma statements_of_single (sensor : sensor) (h : host) (sent : stmt)
    (answer : outcome value) :
  (forall s, exists rs,
     query sensor Cursor h s
     = (answer, State (trace s ++ [EvExecute sent]) rs (publish_raises s))) ->
  statements_of sensor h = [sent]
  /\ forall s0, result_of (query sensor Cursor) h s0 = answer.
Proof.
  intros Hrun. split.
  - unfold statements_of, trace_of.
    destruct (Hrun (State [] [] [])) as (rs & ->). reflexivity.
  - intros s0. unfold result_of. destruct (Hrun s0) as (rs & ->). reflexivity.
Qed.

(** What each sensor of the registry sends, and what it answers when the
    statement returns no row, or a NULL sum. *)
Lemma registry_no_row (device_name : string) (h : host) :
  Forall (fun sensor =>
            (if bool_decide (unique_id sensor ∈ step_ids)
             then exists lo hi, statements_of sensor h = [SumSteps lo hi]
             else exists c, statements_of sensor h = [Latest c])
            /\ forall q, q ∈ statements_of sensor h -> forall s0,
                 absent_or_zero h q
                   (value_or_none (result_of (query sensor Cursor) h s0)))
         (make_sensors device_name).
Proof.
  unfold make_sensors.
  repeat apply Forall_cons_2; try apply Forall_nil_2; simpl.
  all: match goal with
       | |- context [statements_of ?sn _] =>
           first
             [ destruct (statements_of_single sn h _ _
                           (query_daily_steps_run h)) as [Hst Hans]
             | destruct (statements_of_single sn h _ _
                           (query_weekly_steps_run h)) as [Hst Hans]
             | destruct (statements_of_single sn h _ _
                           (query_monthly_steps_run h)) as [Hst Hans]
             | destruct (statements_of_single sn h _ _
                           (query_is_awake_run h)) as [Hst Hans]
             | destruct (statements_of_single sn h _ _
                           (query_total_sleep_duration_run h)) as [Hst Hans]
             | destruct (statements_of_single sn h _ _
                           (query_latest_run _ h)) as [Hst Hans] ]
       end.
  all: simpl in Hst, Hans; rewrite Hst; split;
    [ try (do 2 eexists; reflexivity); try (eexists; reflexivity) | ].
  all: intros q Hq s0; apply list_elem_of_singleton in Hq; subst q;
    rewrite Hans; unfold absent_or_zero, steps_answer; split;
    [ intros ->; reflexivity
    | intros lo hi Heq; try discriminate Heq; intros ->; reflexivity ].
Qed.

(** C2. In an extraction run on a reachable store, a sensor whose
    statement returns no row gets "no value" as its entry: this is the
    case of the nine latest-row sensors, the only ones whose statement can
    come back empty.  The three step-total sensors send a SUM, and when the
    sum is NULL their entry is the integer zero. *)
Theorem no_row_is_absent_and_null_sum_is_zero
    (device_name : string) (h : host) (s : state) :
  reachable h ->
  exists data,
    result_of (get_sensor_data (publisher_for device_name)) h s = Ok data
    /\ forall sensor, sensor ∈ make_sensors device_name ->
         (if bool_decide (unique_id sensor ∈ step_ids)
          then exists lo hi, statements_of sensor h = [SumSteps lo hi]
          else exists c, statements_of sensor h = [Latest c])
         /\ forall q, q ∈ statements_of sensor h ->
              (Sql.run (db h) q = Ok [] ->
               data !! unique_id sensor = Some VNone)
              /\ (forall lo hi, q = SumSteps lo hi ->
                    Sql.run (db h) q = Ok [[VNone]] ->
                    data !! unique_id sensor = Some (VInt 0)).
Proof.
  intros Hreach.
  destruct (get_sensor_data_run device_name h s Hreach)
    as (data & evs & rs & Hrun & _ & _ & Hval).
  exists data. split; [unfold result_of; now rewrite Hrun|].
  intros sensor Hin.
  pose proof (registry_no_row device_name h) as Hreg.
  rewrite Forall_forall in Hreg. destruct (Hreg sensor Hin) as [Hkind Hrow].
  split; [exact Hkind|].
  intros q Hq. destruct (Hrow q Hq s) as [Hnone Hzero].
  rewrite (Hval sensor Hin s). split.
  - intros Hq0. now rewrite Hnone.
  - intros lo hi Heq Hq0. now rewrite (Hzero lo hi Heq Hq0).
Qed.

(** On a file without rows the hypothesis holds, the latest-row statements
    return no row and the sums are NULL. *)
Lemma no_row_is_absent_and_null_sum_is_zero_witness :
  exists data,
    result_of (get_sensor_data (publisher_for "fitness_tracker"))
              Examples.empty_host (initial []) = Ok data
    /\ forall sensor, sensor ∈ make_sensors "fitness_tracker" ->
         (if bool_decide (unique_id sensor ∈ step_ids)
          then exists lo hi,
                 statements_of sensor Examples.empty_host = [SumSteps lo hi]
          else exists c, statements_of sensor Examples.empty_host = [Latest c])
         /\ forall q, q ∈ statements_of sensor Examples.empty_host ->
              (Sql.run (db Examples.empty_host) q = Ok [] ->
               data !! unique_id sensor = Some VNone)
              /\ (forall lo hi, q = SumSteps lo hi ->
                    Sql.run (db Examples.empty_host) q = Ok [[VNone]] ->
                    data !! unique_id sensor = Some (VInt 0)).
Proof.
  apply (no_row_is_absent_and_null_sum_is_zero
           "fitness_tracker" Examples.empty_host (initial [])).
  repeat split; reflexivity.
Defined.

(* ===================================================================== *)
(** ** The discovery publisher                                            *)
(* ===================================================================== *)

Lemma publish_home_assistant_discovery_run (self : publisher)
    (sensor : sensor) (h : host) (s : state) :
  exists s',
    publish_home_assistant_discovery self "sensor" (unique_id sensor)
      (discovery_config self sensor) h s = (Ok tt, s')
    /\ published (trace s')
       = published (trace s) ++ [discovery_message self sensor].
Proof.
  unfold publish_home_assistant_discovery, try_except, bind.
  match goal with
  | |- context [mqtt_publish ?t ?p ?q ?r ?h0 ?s0] =>
      destruct (mqtt_publish_run t p q r h0 s0)
        as (o & s1 & -> & [-> | ->] & Hp)
  end.
  - destruct (log_run INFO (PublishedDiscoveryConfig (unique_id sensor)) h s1)
      as (s2 & Hlog & Hp2).
    unfold logger_info. rewrite Hlog.
    eexists; split; [reflexivity|]. rewrite Hp2. exact Hp.
  - destruct (log_run ERROR (FailedToPublishDiscoveryConfig MqttError) h s1)
      as (s2 & Hlog & Hp2).
    unfold logger_error. rewrite Hlog.
    eexists; split; [reflexivity|]. rewrite Hp2. exact Hp.
Qed.

Lemma setup_home_assistant_entities_run (self : publisher)
    (h : host) (s : state) :
  exists s',
    setup_home_assistant_entities self h s = (Ok tt, s')
    /\ published (trace s') = published (trace s) ++ discovery_messages self.
Proof.
  unfold setup_home_assistant_entities.
  edestruct (for_each_published
               (fun sensor : sensor =>
                  publish_home_assistant_discovery self "sensor"
                    (unique_id sensor) (discovery_config self sensor))
               (fun sensor => [discovery_message self sensor])
               (sensors self)) as (s1 & Hrun & Hpub).
  - intros x h' s'. apply publish_home_assistant_discovery_run.
  - rewrite Hrun. eexists; split; [reflexivity|]. rewrite Hpub.
    f_equal. unfold discovery_messages. apply concat_map_singleton.
Qed.

(** C7. The discovery pass completes from every state and hands to the
    client one retained QoS-1 message per sensor, whose topic and payload
    are functions of the registry and the device slug alone.  Two passes in
    a row therefore publish the same list of messages twice, topic by
    topic and byte by byte, whatever the state of the client and whichever
    publish calls fail. *)
Theorem discovery_is_deterministic
    (self : publisher) (h : host) (s : state) :
  result_of (setup_home_assistant_entities self ;;;
             setup_home_assistant_entities self) h s = Ok tt
  /\ published (trace_of (setup_home_assistant_entities self) h s)
     = published (trace s) ++ discovery_messages self
  /\ published (trace_of (setup_home_assistant_entities self ;;;
                          setup_home_assistant_entities self) h s)
     = published (trace s)
         ++ discovery_messages self ++ discovery_messages self
  /\ Forall (fun m => msg_retain m = true /\ msg_qos m = 1)
            (discovery_messages self).
Proof.
  destruct (setup_home_assistant_entities_run self h s) as (s1 & Hrun1 & Hp1).
  destruct (setup_home_assistant_entities_run self h s1) as (s2 & Hrun2 & Hp2).
  unfold result_of, trace_of, bind. rewrite Hrun1, Hrun2. simpl.
  split; [reflexivity|]. split; [exact Hp1|]. split.
  - rewrite Hp2, Hp1. symmetry. apply app_assoc.
  - unfold discovery_messages. apply Forall_forall.
    intros m Hm. apply list_elem_of_fmap in Hm as (sensor & -> & _).
    split; reflexivity.
Qed.

(* ===================================================================== *)
(** ** The life of the connection                                         *)
(* ===================================================================== *)

Lemma query_events_quiet (evs : list event) :
  Forall query_event evs ->
  published evs = [] /\ List.filter is_close evs = [].
Proof.
  induction 1 as [|ev evs Hev _ [IHp IHc]]; [split; reflexivity|].
  destruct ev; simpl in Hev; try contradiction; simpl; auto.
Qed.

Lemma count_events_app (p : event -> bool) (tr1 tr2 : list event) :
  count_events p (tr1 ++ tr2) = (count_events p tr1 + count_events p tr2)%nat.
Proof. unfold count_events. now rewrite List.filter_app, length_app. Qed.

(** C8. In every extraction run that opens a connection (the file is
    there and [sqlite3.connect] returns), the run appends to the trace:
    the opening, the cursor, then one statement per sensor of the registry
    (with the error logs of the queries that failed), then the closing.
    The connection is closed exactly once, and after every query, whether
    or not queries fail. *)
Theorem connection_closed_once_after_queries
    (device_name : string) (h : host) (s : state) :
  reachable h ->
  exists evs,
    trace_of (get_sensor_data (publisher_for device_name)) h s
    = trace s ++ EvConnect :: EvCursor :: evs ++ [EvClose]
    /\ Forall query_event evs
    /\ length (executed evs) = length (make_sensors device_name)
    /\ count_events is_close (EvConnect :: EvCursor :: evs ++ [EvClose])
       = 1%nat.
Proof.
  intros Hreach.
  destruct (get_sensor_data_run device_name h s Hreach)
    as (data & evs & rs & Hrun & Hev & Hx & _).
  exists evs. unfold trace_of. rewrite Hrun. simpl.
  split; [reflexivity|]. split; [exact Hev|]. split; [exact Hx|].
  change (EvConnect :: EvCursor :: evs ++ [EvClose])
    with ([EvConnect; EvCursor] ++ evs ++ [EvClose]).
  rewrite !count_events_app. unfold count_events at 2.
  destruct (query_events_quiet evs Hev) as [_ ->]. reflexivity.
Qed.

Lemma connection_closed_once_after_queries_witness :
  exists evs,
    trace_of (get_sensor_data (publisher_for "mi_band_7_"))
             Examples.broken_heart_rate_host (initial [])
    = trace (initial []) ++ EvConnect :: EvCursor :: evs ++ [EvClose]
    /\ Forall query_event evs
    /\ length (executed evs) = length (make_sensors "mi_band_7_")
    /\ count_events is_close (EvConnect :: EvCursor :: evs ++ [EvClose])
       = 1%nat.
Proof.
  apply (connection_closed_once_after_queries
           "mi_band_7_" Examples.broken_heart_rate_host (initial [])).
  repeat split; reflexivity.
Defined.

(* ===================================================================== *)
(** ** One cycle                                                          *)
(* ===================================================================== *)

(** A cycle on a reachable store: the executor fills every entry and the
    publish cycle sends the present ones; the executor itself publishes
    nothing. *)
Lemma cycle_run (device_name : string) (h : host) (s : state) :
  reachable h ->
  exists data,
    result_of (get_sensor_data (publisher_for device_name)) h s = Ok data
    /\ (forall sensor, sensor ∈ make_sensors device_name -> forall s0,
          data !! unique_id sensor
          = Some (value_or_none (result_of (query sensor Cursor) h s0)))
    /\ result_of (cycle (publisher_for device_name)) h s = Ok tt
    /\ published (trace_of (cycle (publisher_for device_name)) h s)
       = published (trace s) ++ state_messages (publisher_for device_name) data.
Proof.
  intros Hreach.
  destruct (get_sensor_data_run device_name h s Hreach)
    as (data & evs & rs & Hrun & Hev & _ & Hval).
  exists data. unfold result_of, trace_of, cycle, bind. rewrite Hrun. simpl.
  split; [reflexivity|]. split; [exact Hval|].
  match goal with
  | |- context [publish_sensor_data ?p ?d ?h0 ?st] =>
      destruct (publish_sensor_data_run p d h0 st) as (s' & Hpub & Hmsgs)
  end.
  rewrite Hpub. simpl. split; [reflexivity|].
  rewrite Hmsgs. simpl. f_equal.
  change (EvConnect :: EvCursor :: evs ++ [EvClose])
    with ([EvConnect; EvCursor] ++ evs ++ [EvClose]).
  rewrite !published_app.
  destruct (query_events_quiet evs Hev) as [-> _]. simpl. apply app_nil_r.
Qed.

Lemma dict_get_lookup (data : gmap string value) (k : string) (v : value) :
  data !! k = Some v -> dict_get data k = v.
Proof. unfold dict_get. now intros ->. Qed.

(** The statement of a latest-row query on a file that accepts it. *)
Lemma run_latest (d : database) (c : column) :
  rejects d (Latest c) = false ->
  Sql.run d (Latest c) = Ok (Sql.latest_column d c).
Proof. unfold Sql.run. now intros ->. Qed.

(* ===================================================================== *)
(** ** The sleep sensors                                                  *)
(* ===================================================================== *)

Ltac registry_member :=
  unfold make_sensors;
  repeat first [ apply list_elem_of_here | apply list_elem_of_further ].

Lemma is_awake_answer (h : host) (s0 : state) (r : sleep_time) :
  rejects (db h) (Latest IS_AWAKE) = false ->
  latest_sleep (db h) = Some r ->
  result_of (query_is_awake Cursor) h s0
  = Ok (VBool (negb (Py.truthy (Sql.of_integer (slp_is_awake r))))).
Proof.
  intros Hacc Hlatest. unfold result_of.
  destruct (query_is_awake_run h s0) as (rs & ->). simpl.
  rewrite (run_latest _ _ Hacc). unfold Sql.latest_column.
  unfold latest_sleep in Hlatest. rewrite Hlatest. reflexivity.
Qed.

Lemma total_sleep_duration_answer (h : host) (s0 : state) (r : sleep_time)
    (minutes : Z) :
  rejects (db h) (Latest TOTAL_DURATION) = false ->
  latest_sleep (db h) = Some r ->
  slp_total_duration r = Some minutes ->
  result_of (query_total_sleep_duration Cursor) h s0
  = match Py.truediv (VInt minutes) 60 with
    | Ok hours =>
        match Py.round hours 2 with
        | Ok rounded => Ok (VFloat rounded)
        | Raise e => Raise e
        end
    | Raise e => Raise e
    end.
Proof.
  intros Hacc Hlatest Hdur. unfold result_of.
  destruct (query_total_sleep_duration_run h s0) as (rs & ->). simpl.
  rewrite (run_latest _ _ Hacc). unfold Sql.latest_column.
  unfold latest_sleep in Hlatest. rewrite Hlatest. simpl. rewrite Hdur.
  reflexivity.
Qed.

(** Rounding to an integer stays within one half. *)
Lemma round_half_even_near (n d : Z) :
  0 < d -> 2 * Z.abs (n - d * Float.round_half_even n d) <= d.
Proof.
  intros Hd. unfold Float.round_half_even.
  pose proof (Z.div_mod n d ltac:(lia)) as Hdm.
  pose proof (Z.mod_pos_bound n d Hd) as Hb.
  destruct (2 * (n mod d) <? d) eqn:Hlo.
  - apply Z.ltb_lt in Hlo. lia.
  - apply Z.ltb_ge in Hlo.
    destruct (d <? 2 * (n mod d)) eqn:Hhi.
    + apply Z.ltb_lt in Hhi. lia.
    + apply Z.ltb_ge in Hhi. destruct (Z.even (n / d)); lia.
Qed.

Lemma ilog2_le (n d : Z) : Float.ilog2 n d <= Z.log2 n - Z.log2 d.
Proof.
  unfold Float.ilog2. destruct (Float.scaled 2 n d _) as [a b].
  destruct (a <? b); lia.
Qed.

Lemma log2_below (n a : Z) : 0 < n -> n < 2 ^ a -> Z.log2 n <= a - 1.
Proof. intros Hn Hlt. apply Z.log2_lt_pow2 in Hlt; lia. Qed.

(** The binary64 number nearest to a fraction below [2 ^ 43]: it is
    [M / 2 ^ E] with at least nine binary places, and it lies within half
    a unit of the last place of the fraction. *)
Lemma nearest_moderate (neg : bool) (n d : Z) :
  0 < n -> 0 < d -> d <= 1024 -> Z.log2 n - Z.log2 d <= 42 ->
  exists M E,
    Float.nearest neg n d = Some (Float neg M (- E))
    /\ 9 <= E /\ 0 < M
    /\ 2 * Z.abs (n * 2 ^ E - d * M) <= d.
Proof.
  intros Hn Hd Hd' Hlog. unfold Float.nearest.
  destruct (n =? 0) eqn:Hn0; [apply Z.eqb_eq in Hn0; lia|].
  pose proof (ilog2_le n d) as Hl.
  set (e := Z.max (Float.ilog2 n d - 52) (-1074)).
  assert (He : -1074 <= e <= -10) by (unfold e; lia).
  unfold Float.scaled.
  destruct (0 <=? e) eqn:Hpos; [apply Z.leb_le in Hpos; lia|].
  pose proof (round_half_even_near (n * 2 ^ (- e)) d Hd) as Hnear.
  set (M := Float.round_half_even (n * 2 ^ (- e)) d) in *.
  assert (HP : 2 ^ 10 <= 2 ^ (- e)) by (apply Z.pow_le_mono_r; lia).
  change (2 ^ 10) with 1024 in HP.
  assert (HP' : 2 ^ (- e) = 2 * 2 ^ (- (e + 1))).
  { replace (- e) with (Z.succ (- (e + 1))) at 1 by lia.
    apply Z.pow_succ_r. lia. }
  destruct (M =? 2 ^ 53) eqn:HM.
  - apply Z.eqb_eq in HM.
    destruct (971 <? e + 1) eqn:Hov; [apply Z.ltb_lt in Hov; lia|].
    change (2 ^ 52 =? 0) with false. cbv iota.
    exists (2 ^ 52), (- (e + 1)). rewrite Z.opp_involutive.
    split; [reflexivity|]. split; [lia|]. split; [reflexivity|].
    rewrite HM in Hnear. change (2 ^ 53) with (2 * 2 ^ 52) in Hnear.
    rewrite HP' in Hnear. lia.
  - destruct (971 <? e) eqn:Hov; [apply Z.ltb_lt in Hov; lia|].
    assert (0 < M) by nia.
    destruct (M =? 0) eqn:HM0; [apply Z.eqb_eq in HM0; lia|].
    exists M, (- e). rewrite Z.opp_involutive.
    split; [reflexivity|]. split; [lia|]. split; [assumption|]. exact Hnear.
Qed.

(** [round(n / 60, 2)] for a moderate [n]: the error of the division is
    too small to move the quotient across the middle between two
    hundredths, which is at least a sixth of a hundredth away. *)
Lemma round_quotient_positive (neg : bool) (n : Z) :
  0 < n -> n <= 10 ^ 14 ->
  exists hours k x,
    Float.nearest neg n 60 = Some hours
    /\ Float.round hours 2 = Some x
    /\ Float.nearest neg k 100 = Some x
    /\ 0 < k
    /\ 2 * Z.abs (100 * n - 60 * k) < 60.
Proof.
  intros Hn Hbound.
  change (10 ^ 14) with 100000000000000 in Hbound.
  assert (Hlog : Z.log2 n <= 47).
  { apply (log2_below n 48 Hn). change (2 ^ 48) with 281474976710656. lia. }
  destruct (nearest_moderate neg n 60 Hn ltac:(lia) ltac:(lia))
    as (M & E & Hq & HE & HM & Hnear).
  { change (Z.log2 60) with 5. lia. }
  exists (Float neg M (- E)).
  unfold Float.round, Float.magnitude, Float.scaled.
  cbn [significand exponent negative]. rewrite Z.opp_involutive.
  destruct (0 <=? E) eqn:HE0; [|apply Z.leb_gt in HE0; lia].
  change (0 <=? - 2) with false. change (0 <=? 2) with true. cbv iota.
  change (10 ^ (- - 2)) with 100. change (1 * 10 ^ 2) with 100.
  rewrite Z.mul_1_l.
  assert (HP : 2 ^ 9 <= 2 ^ E) by (apply Z.pow_le_mono_r; lia).
  change (2 ^ 9) with 512 in HP.
  pose proof (round_half_even_near (M * 100) (2 ^ E) ltac:(lia)) as Hk.
  set (k := Float.round_half_even (M * 100) (2 ^ E)) in *.
  set (P := 2 ^ E) in *.
  assert (Hclose : 2 * Z.abs (100 * n - 60 * k) < 60).
  { assert (Hid : P * (5 * n - 3 * k)
                  = 5 * (n * P - 60 * M) + 3 * (M * 100 - P * k)) by ring.
    assert (Habs : 2 * (P * Z.abs (5 * n - 3 * k)) <= 300 + 3 * P).
    { rewrite <- (Z.abs_eq P) at 1 by lia. rewrite <- Z.abs_mul, Hid. lia. }
    assert (Z.abs (5 * n - 3 * k) <= 1) by nia.
    lia. }
  assert (Hkpos : 0 < k) by lia.
  assert (Hklog : Z.log2 k - Z.log2 100 <= 42).
  { change (Z.log2 100) with 6.
    assert (Z.log2 k <= 47); [|lia].
    apply (log2_below k 48 Hkpos). change (2 ^ 48) with 281474976710656.
    lia. }
  destruct (nearest_moderate neg k 100 Hkpos ltac:(lia) ltac:(lia) Hklog)
    as (M' & E' & Hx & _).
  exists k, (Float neg M' (- E')).
  repeat split; assumption.
Qed.

(** Rounding [minutes / 60] to two places, for durations of up to [10 ^ 14]
    minutes: the result is the float nearest to [k / 100], where [k / 100]
    is within half a hundredth of the quotient and never exactly half
    way. *)
Lemma round_minutes_to_hours (minutes : Z) :
  Z.abs minutes <= 10 ^ 14 ->
  exists hours k x,
    Py.truediv (VInt minutes) 60 = Ok hours
    /\ Py.round hours 2 = Ok x
    /\ Float.of_ratio k 100 = Some x
    /\ 2 * Z.abs (100 * minutes - 60 * k) < 60.
Proof.
  intros Hbound. unfold Py.truediv, Py.round, Float.of_ratio.
  change (Z.of_nat 2) with 2.
  destruct (Z.eq_dec minutes 0) as [-> | Hnz].
  - exists (Float false 0 0), 0, (Float false 0 0).
    repeat split; reflexivity || (simpl; lia).
  - destruct (round_quotient_positive (minutes <? 0) (Z.abs minutes)
                ltac:(lia) Hbound)
      as (hours & k & x & -> & Hr & Hx & Hk & Hnear).
    exists hours. cbn [Py.in_range]. rewrite Hr. cbn [Py.in_range].
    destruct (minutes <? 0) eqn:Hneg.
    + apply Z.ltb_lt in Hneg. exists (- k), x.
      split; [reflexivity|]. split; [reflexivity|].
      replace (- k <? 0) with true by (symmetry; apply Z.ltb_lt; lia).
      rewrite Z.abs_opp, (Z.abs_eq k) by lia.
      split; [exact Hx|]. lia.
    + apply Z.ltb_ge in Hneg. exists k, x.
      split; [reflexivity|]. split; [reflexivity|].
      replace (k <? 0) with false by (symmetry; apply Z.ltb_ge; lia).
      rewrite (Z.abs_eq k) by lia.
      split; [exact Hx|]. lia.
Qed.

(** C3. When the most recent sleep record has a non-NULL awake flag, the
    entry of the is_awake sensor is the negation of the flag taken as a
    boolean (stored 1 gives [False], stored 0 gives [True]), and a cycle
    publishes that value on the sensor's state topic. *)
Theorem is_awake_is_negated
    (device_name : string) (h : host) (s : state) (r : sleep_time) (flag : Z) :
  reachable h ->
  rejects (db h) (Latest IS_AWAKE) = false ->
  latest_sleep (db h) = Some r ->
  slp_is_awake r = Some flag ->
  exists data,
    result_of (get_sensor_data (publisher_for device_name)) h s = Ok data
    /\ data !! "is_awake" = Some (VBool (negb (Py.truthy (VInt flag))))
    /\ (flag = 1 -> data !! "is_awake" = Some (VBool false))
    /\ (flag = 0 -> data !! "is_awake" = Some (VBool true))
    /\ Message ("gadgetbridge/" +:+ device_name +:+ "/is_awake")
               (Py.str (VBool (negb (Py.truthy (VInt flag))))) 1 false
         ∈ published (trace_of (cycle (publisher_for device_name)) h s).
Proof.
  intros Hreach Hacc Hlatest Hflag.
  destruct (cycle_run device_name h s Hreach)
    as (data & Hdata & Hval & _ & Hpub).
  exists data. split; [exact Hdata|].
  set (sn := Sensor "Is Awake" "is_awake"
               ("gadgetbridge/" +:+ device_name +:+ "/is_awake")
               None (Some "mdi:power-sleep") None (Some "enum")
               query_is_awake).
  assert (Hin : sn ∈ make_sensors device_name) by registry_member.
  assert (Hentry : data !! "is_awake"
                   = Some (VBool (negb (Py.truthy (VInt flag))))).
  { pose proof (Hval sn Hin s) as He. unfold sn in He.
    cbn [unique_id query] in He. rewrite He.
    rewrite (is_awake_answer h s r Hacc Hlatest), Hflag. reflexivity. }
  split; [exact Hentry|].
  split; [intros ->; exact Hentry|]. split; [intros ->; exact Hentry|].
  rewrite Hpub. apply elem_of_app. right.
  pose proof (present_entry_published (publisher_for device_name) data sn Hin)
    as Hmsg.
  unfold sn in Hmsg. cbn [unique_id state_topic] in Hmsg.
  rewrite (dict_get_lookup _ _ _ Hentry) in Hmsg. apply Hmsg. discriminate.
Qed.

(** On the example file the latest sleep record says "awake". *)
Lemma is_awake_is_negated_witness :
  exists data,
    result_of (get_sensor_data (publisher_for "mi_band_7_"))
              Examples.awake_host (initial []) = Ok data
    /\ data !! "is_awake" = Some (VBool (negb (Py.truthy (VInt 1))))
    /\ (1 = 1 -> data !! "is_awake" = Some (VBool false))
    /\ (1 = 0 -> data !! "is_awake" = Some (VBool true))
    /\ Message ("gadgetbridge/" +:+ "mi_band_7_" +:+ "/is_awake")
               (Py.str (VBool (negb (Py.truthy (VInt 1))))) 1 false
         ∈ published (trace_of (cycle (publisher_for "mi_band_7_"))
                               Examples.awake_host (initial [])).
Proof.
  apply (is_awake_is_negated "mi_band_7_" Examples.awake_host (initial [])
           (SleepTime 1793656400 (Some 1) (Some 90)) 1).
  - repeat split; reflexivity.
  - reflexivity.
  - reflexivity.
  - reflexivity.
Defined.

(** C9. When the most recent sleep record has a non-NULL total duration of
    [minutes], of at most [10 ^ 14] in magnitude, the entry of the
    sleep-duration sensor is the duration divided by 60 and rounded to two
    decimal places: it is the float nearest to [k / 100], where [k / 100]
    lies within half a hundredth of [minutes / 60].  90 minutes give 1.5
    and 125 minutes give 2.08. *)
Theorem sleep_duration_in_hours
    (device_name : string) (h : host) (s : state) (r : sleep_time)
    (minutes : Z) :
  reachable h ->
  rejects (db h) (Latest TOTAL_DURATION) = false ->
  latest_sleep (db h) = Some r ->
  slp_total_duration r = Some minutes ->
  Z.abs minutes <= 10 ^ 14 ->
  exists data k x,
    result_of (get_sensor_data (publisher_for device_name)) h s = Ok data
    /\ data !! "total_sleep_duration" = Some (VFloat x)
    /\ Float.of_ratio k 100 = Some x
    /\ 2 * Z.abs (100 * minutes - 60 * k) < 60
    /\ (minutes = 90 -> k = 150 /\ Py.str (VFloat x) = "1.5"%string)
    /\ (minutes = 125 -> k = 208 /\ Py.str (VFloat x) = "2.08"%string).
Proof.
  intros Hreach Hacc Hlatest Hdur Hbound.
  destruct (cycle_run device_name h s Hreach)
    as (data & Hdata & Hval & _ & _).
  destruct (round_minutes_to_hours minutes Hbound)
    as (hours & k & x & Hdiv & Hround & Hx & Hnear).
  exists data, k, x. split; [exact Hdata|].
  set (sn := Sensor "Total Sleep Duration" "total_sleep_duration"
               ("gadgetbridge/" +:+ device_name +:+ "/total_sleep_duration")
               (Some "h") (Some "mdi:sleep") (Some "measurement") None
               query_total_sleep_duration).
  assert (Hin : sn ∈ make_sensors device_name) by registry_member.
  split.
  { pose proof (Hval sn Hin s) as He. unfold sn in He.
    cbn [unique_id query] in He. rewrite He.
    rewrite (total_sleep_duration_answer h s r minutes Hacc Hlatest Hdur).
    rewrite Hdiv, Hround. reflexivity. }
  split; [exact Hx|]. split; [exact Hnear|].
  split; intros ->.
  - assert (k = 150) as -> by lia. split; [reflexivity|].
    vm_compute in Hx. injection Hx as <-. vm_compute. reflexivity.
  - assert (k = 208) as -> by lia. split; [reflexivity|].
    vm_compute in Hx. injection Hx as <-. vm_compute. reflexivity.
Qed.

(** On the example file the latest sleep record lasted 90 minutes. *)
Lemma sleep_duration_in_hours_witness :
  exists data k x,
    result_of (get_sensor_data (publisher_for "mi_band_7_"))
              Examples.awake_host (initial []) = Ok data
    /\ data !! "total_sleep_duration" = Some (VFloat x)
    /\ Float.of_ratio k 100 = Some x
    /\ 2 * Z.abs (100 * 90 - 60 * k) < 60
    /\ (90 = 90 -> k = 150 /\ Py.str (VFloat x) = "1.5"%string)
    /\ (90 = 125 -> k = 208 /\ Py.str (VFloat x) = "2.08"%string).
Proof.
  apply (sleep_duration_in_hours "mi_band_7_" Examples.awake_host (initial [])
           (SleepTime 1793656400 (Some 1) (Some 90)) 90).
  - repeat split; reflexivity.
  - reflexivity.
  - reflexivity.
  - reflexivity.
  - vm_compute. discriminate.
Defined.

(** A NULL in the selected column of the latest row: every latest-row
    sensor but is_awake answers "no value". *)
Lemma registry_null_column (device_name : string) (h : host) :
  Forall (fun sensor =>
            forall c, statements_of sensor h = [Latest c] ->
              c <> IS_AWAKE ->
              Sql.run (db h) (Latest c) = Ok [[VNone]] ->
              forall s0,
                value_or_none (result_of (query sensor Cursor) h s0) = VNone)
         (make_sensors device_name).
Proof.
  unfold make_sensors.
  repeat apply Forall_cons_2; try apply Forall_nil_2.
  all: match goal with
       | |- context [statements_of ?sn _] =>
           first
             [ destruct (statements_of_single sn h _ _
                           (query_daily_steps_run h)) as [Hst Hans]
             | destruct (statements_of_single sn h _ _
                           (query_weekly_steps_run h)) as [Hst Hans]
             | destruct (statements_of_single sn h _ _
                           (query_monthly_steps_run h)) as [Hst Hans]
             | destruct (statements_of_single sn h _ _
                           (query_is_awake_run h)) as [Hst Hans]
             | destruct (statements_of_single sn h _ _
                           (query_total_sleep_duration_run h)) as [Hst Hans]
             | destruct (statements_of_single sn h _ _
                           (query_latest_run _ h)) as [Hst Hans] ]
       end.
  all: intros c Hc Hne Hrun s0; rewrite Hst in Hc;
    try discriminate Hc; injection Hc as <-;
    try (now contradiction Hne);
    rewrite Hans, Hrun; reflexivity.
Qed.

(** C10. When the most recent sleep record has a NULL awake flag, the
    entry of the is_awake sensor is the present value [True], and a cycle
    publishes it.  Every other latest-row sensor whose column is NULL in
    its latest row has "no value" as its entry and publishes nothing. *)
Theorem null_awake_flag_is_published_as_true
    (device_name : string) (h : host) (s : state) (r : sleep_time) :
  reachable h ->
  rejects (db h) (Latest IS_AWAKE) = false ->
  latest_sleep (db h) = Some r ->
  slp_is_awake r = None ->
  exists data,
    result_of (get_sensor_data (publisher_for device_name)) h s = Ok data
    /\ data !! "is_awake" = Some (VBool true)
    /\ Message ("gadgetbridge/" +:+ device_name +:+ "/is_awake")
               "True" 1 false
         ∈ published (trace_of (cycle (publisher_for device_name)) h s)
    /\ (forall sensor c,
          sensor ∈ make_sensors device_name ->
          statements_of sensor h = [Latest c] ->
          c <> IS_AWAKE ->
          Sql.run (db h) (Latest c) = Ok [[VNone]] ->
          data !! unique_id sensor = Some VNone
          /\ state_message data sensor = None).
Proof.
  intros Hreach Hacc Hlatest Hflag.
  destruct (cycle_run device_name h s Hreach)
    as (data & Hdata & Hval & _ & Hpub).
  exists data. split; [exact Hdata|].
  set (sn := Sensor "Is Awake" "is_awake"
               ("gadgetbridge/" +:+ device_name +:+ "/is_awake")
               None (Some "mdi:power-sleep") None (Some "enum")
               query_is_awake).
  assert (Hin : sn ∈ make_sensors device_name) by registry_member.
  assert (Hentry : data !! "is_awake" = Some (VBool true)).
  { pose proof (Hval sn Hin s) as He. unfold sn in He.
    cbn [unique_id query] in He. rewrite He.
    rewrite (is_awake_answer h s r Hacc Hlatest), Hflag. reflexivity. }
  split; [exact Hentry|]. split.
  - rewrite Hpub. apply elem_of_app. right.
    pose proof (present_entry_published (publisher_for device_name) data sn Hin)
      as Hmsg.
    unfold sn in Hmsg. cbn [unique_id state_topic] in Hmsg.
    rewrite (dict_get_lookup _ _ _ Hentry) in Hmsg. apply Hmsg. discriminate.
  - intros sensor c Hsin Hst Hne Hrun.
    pose proof (registry_null_column device_name h) as Hreg.
    rewrite Forall_forall in Hreg.
    pose proof (Hreg sensor Hsin c Hst Hne Hrun s) as Hnone.
    assert (Hsome : data !! unique_id sensor = Some VNone).
    { rewrite (Hval sensor Hsin s). now rewrite Hnone. }
    split; [exact Hsome|].
    unfold state_message. now rewrite (dict_get_lookup _ _ _ Hsome).
Qed.

(** On the example file the latest sleep record has a NULL awake flag. *)
Lemma null_awake_flag_is_published_as_true_witness :
  exists data,
    result_of (get_sensor_data (publisher_for "mi_band_7_"))
              Examples.band_host (initial []) = Ok data
    /\ data !! "is_awake" = Some (VBool true)
    /\ Message ("gadgetbridge/" +:+ "mi_band_7_" +:+ "/is_awake")
               "True" 1 false
         ∈ published (trace_of (cycle (publisher_for "mi_band_7_"))
                               Examples.band_host (initial []))
    /\ (forall sensor c,
          sensor ∈ make_sensors "mi_band_7_" ->
          statements_of sensor Examples.band_host = [Latest c] ->
          c <> IS_AWAKE ->
          Sql.run (db Examples.band_host) (Latest c) = Ok [[VNone]] ->
          data !! unique_id sensor = Some VNone
          /\ state_message data sensor = None).
Proof.
  apply (null_awake_flag_is_published_as_true
           "mi_band_7_" Examples.band_host (initial [])
           (SleepTime 1793656400 None (Some 125))).
  - repeat split; reflexivity.
  - reflexivity.
  - reflexivity.
  - reflexivity.
Defined.

(* ===================================================================== *)
(** ** A store with one activity sample                                   *)
(* ===================================================================== *)

Lemma one_sample_sum (c : localtime) (steps : Z) (hr : option Z)
    (lo : Z) (hi : option Z) :
  Sql.int64 steps = true ->
  lo <= timestamp_min c (now_date c) ->
  match hi with Some u => timestamp_min c (now_date c) <= u | None => True end ->
  Sql.run (one_sample_db c (Some steps) hr) (SumSteps lo hi)
  = Ok [[VInt steps]].
Proof.
  intros Hfit Hlo Hhi. unfold Sql.run, one_sample_db. simpl.
  unfold Sql.in_range. simpl.
  apply Z.leb_le in Hlo. rewrite Hlo. simpl.
  destruct hi as [u|]; [apply Z.leb_le in Hhi; rewrite Hhi|];
    simpl; unfold Sql.sum; simpl; rewrite Hfit; reflexivity.
Qed.

(** What the twelve queries answer on the one-sample store. *)
Lemma one_sample_answers (c : localtime) (hr : option Z) (s0 : state) :
  coherent c ->
  let h := one_sample_host c (Some 500) hr in
  result_of (query_daily_steps Cursor) h s0 = Ok (VInt 500)
  /\ result_of (query_weekly_steps Cursor) h s0 = Ok (VInt 500)
  /\ result_of (query_monthly_steps Cursor) h s0 = Ok (VInt 500)
  /\ result_of (query_battery_level Cursor) h s0 = Ok VNone
  /\ result_of (query_latest_weight Cursor) h s0 = Ok VNone
  /\ result_of (query_latest_heart_rate Cursor) h s0 = Ok (Sql.of_integer hr)
  /\ result_of (query_hr_resting Cursor) h s0 = Ok VNone
  /\ result_of (query_hr_max Cursor) h s0 = Ok VNone
  /\ result_of (query_hr_avg Cursor) h s0 = Ok VNone
  /\ result_of (query_calories Cursor) h s0 = Ok VNone
  /\ result_of (query_is_awake Cursor) h s0 = Ok VNone
  /\ result_of (query_total_sleep_duration Cursor) h s0 = Ok VNone.
Proof.
  intros (Hweek & Hmonth & Hday) h. unfold result_of.
  destruct (query_daily_steps_run h s0) as (rs1 & ->).
  destruct (query_weekly_steps_run h s0) as (rs2 & ->).
  destruct (query_monthly_steps_run h s0) as (rs3 & ->).
  unfold steps_answer, daily_statement, weekly_statement, monthly_statement.
  cbn [fst clock db h one_sample_host].
  rewrite !one_sample_sum by (try reflexivity; assumption).
  repeat split; try reflexivity.
Qed.

(** The claim of the specification fails on its own scenario: with one
    sample of 500 steps (and a heart rate of 71) at today's midnight, a
    cycle does publish on the weekly and monthly step topics, and on the
    latest-heart-rate topic. *)
Lemma single_sample_counterexample :
  let msgs :=
    published (trace_of (cycle (publisher_for "fitness_tracker"))
                 (one_sample_host Examples.a_tuesday (Some 500) (Some 71))
                 (initial [])) in
  Message "gadgetbridge/fitness_tracker/steps/weekly" "500" 1 false ∈ msgs
  /\ Message "gadgetbridge/fitness_tracker/steps/monthly" "500" 1 false ∈ msgs
  /\ Message "gadgetbridge/fitness_tracker/heart_rate" "71" 1 false ∈ msgs.
Proof.
  vm_compute. repeat split.
  - apply list_elem_of_further, list_elem_of_here.
  - do 2 apply list_elem_of_further. apply list_elem_of_here.
  - do 3 apply list_elem_of_further. apply list_elem_of_here.
Qed.

(** C4, amended. Given a store with exactly one activity sample, taken at
    today's local midnight with 500 steps, and no other row in any table,
    one full cycle publishes 500 on the daily, the weekly and the monthly
    step topics (the sample lies in all three ranges), then the sample's
    heart rate on the latest-heart-rate topic when that column is not NULL,
    and nothing else: nothing on the battery, weight, resting, maximum and
    average heart-rate, calories and sleep topics. *)
Theorem one_sample_cycle
    (device_name : string) (c : localtime) (hr : option Z) (s : state) :
  coherent c ->
  published (trace_of (cycle (publisher_for device_name))
                      (one_sample_host c (Some 500) hr) s)
  = published (trace s)
    ++ [ Message ("gadgetbridge/" +:+ device_name +:+ "/steps/daily")
                 "500" 1 false;
         Message ("gadgetbridge/" +:+ device_name +:+ "/steps/weekly")
                 "500" 1 false;
         Message ("gadgetbridge/" +:+ device_name +:+ "/steps/monthly")
                 "500" 1 false ]
    ++ match hr with
       | Some bpm =>
           [ Message ("gadgetbridge/" +:+ device_name +:+ "/heart_rate")
                     (PyStr.of_int bpm) 1 false ]
       | None => []
       end.
Proof.
  intros Hc.
  assert (Hreach : reachable (one_sample_host c (Some 500) hr))
    by (repeat split; reflexivity).
  destruct (cycle_run device_name _ s Hreach) as (data & _ & Hval & _ & ->).
  f_equal.
  destruct (one_sample_answers c hr s Hc)
    as (A1 & A2 & A3 & A4 & A5 & A6 & A7 & A8 & A9 & A10 & A11 & A12).
  assert (Hall : Forall (fun sensor =>
                   data !! unique_id sensor
                   = Some (value_or_none
                             (result_of (query sensor Cursor)
                                (one_sample_host c (Some 500) hr) s)))
                 (make_sensors device_name)).
  { apply Forall_forall. intros sensor Hin. now apply Hval. }
  unfold make_sensors in Hall.
  repeat match type of Hall with
         | Forall _ (_ :: _) =>
             apply Forall_cons in Hall as
               [?E%dict_get_lookup Hall]; cbn [unique_id query] in *
         end.
  clear Hall.
  unfold query_battery_level, query_latest_weight, query_latest_heart_rate,
    query_hr_resting, query_hr_max, query_hr_avg, query_calories in *.
  rewrite ?A1, ?A2, ?A3, ?A4, ?A5, ?A6, ?A7, ?A8, ?A9, ?A10, ?A11, ?A12 in *.
  cbn [value_or_none] in *.
  unfold state_messages, publisher_for, make_sensors, state_message.
  cbn [sensors omap list_omap unique_id state_topic].
  repeat match goal with
         | H : dict_get data _ = _ |- _ => rewrite H; clear H
         end.
  destruct hr as [bpm|]; reflexivity.
Qed.

(** The UTC clock of the example is coherent on its day. *)
Lemma one_sample_cycle_witness :
  published (trace_of (cycle (publisher_for "fitness_tracker"))
               (one_sample_host Examples.a_tuesday (Some 500) (Some 71))
               (initial []))
  = published (trace (initial []))
    ++ [ Message ("gadgetbridge/" +:+ "fitness_tracker" +:+ "/steps/daily")
                 "500" 1 false;
         Message ("gadgetbridge/" +:+ "fitness_tracker" +:+ "/steps/weekly")
                 "500" 1 false;
         Message ("gadgetbridge/" +:+ "fitness_tracker" +:+ "/steps/monthly")
                 "500" 1 false ]
    ++ [ Message ("gadgetbridge/" +:+ "fitness_tracker" +:+ "/heart_rate")
                 (PyStr.of_int 71) 1 false ].
Proof.
  apply (one_sample_cycle "fitness_tracker" Examples.a_tuesday (Some 71)
           (initial [])).
  unfold coherent. vm_compute. repeat split; discriminate.
Defined.

(* ===================================================================== *)
(** ** The device identity resolver                                       *)
(* ===================================================================== *)

(** The scanner of [re.sub] and the two-pass reading of the specification
    agree, for the class [\w]. *)
Lemma re_sub_nonword_from_squeeze (u : unicode) (s : text) :
  let marks := map (fun c => if Text.is_word u c then Some c else None) s in
  Text.re_sub_nonword_from u false s = squeeze marks
  /\ squeeze marks
     = match marks with
       | None :: _ => 95 :: Text.re_sub_nonword_from u true s
       | _ => Text.re_sub_nonword_from u true s
       end.
Proof.
  induction s as [|c s [IH1 IH2]]; [split; reflexivity|].
  cbn [map Text.re_sub_nonword_from].
  destruct (Text.is_word u c) eqn:Hc.
  - cbn [squeeze]. rewrite IH1. split; reflexivity.
  - cbn [squeeze]. cbv zeta in IH1, IH2.
    destruct (map _ s) as [|[c'|] rest] eqn:Hm.
    + rewrite IH2. split; reflexivity.
    + rewrite IH2. split; reflexivity.
    + rewrite IH2. split; reflexivity.
Qed.

Lemma re_sub_nonword_collapses (u : unicode) (s : text) :
  Text.re_sub_nonword u s = collapse_runs (Text.is_word u) s.
Proof. apply re_sub_nonword_from_squeeze. Qed.

(** The resolver in closed form. *)
Lemma get_device_alias_result (u : unicode) (h : host) (s : state) :
  result_of (get_device_alias u) h s
  = Ok (if path_exists h && negb (connect_raises h)
           && negb (rejects (db h) SelectAlias)
        then match matching_device (db h) with
             | Some r =>
                 match dev_alias r with
                 | Some (c :: rest) =>
                     Text.utf8 (str_lower u (Text.re_sub_nonword u (c :: rest)))
                 | _ => "fitness_tracker"%string
                 end
             | None => "fitness_tracker"%string
             end
        else "fitness_tracker"%string).
Proof.
  unfold result_of, get_device_alias, os_path_exists, bind, ask. simpl.
  destruct (path_exists h); simpl; [|reflexivity].
  unfold try_except, bind, sqlite3_connect, conn_cursor, bind, ask. simpl.
  destruct (connect_raises h); simpl; [reflexivity|].
  rewrite cursor_execute_run. unfold Sql.run, matching_device.
  destruct (rejects (db h) SelectAlias); simpl; [reflexivity|].
  destruct (Sql.first_row _) as [r|]; simpl; [|reflexivity].
  destruct (dev_alias r) as [[|c rest]|]; reflexivity.
Qed.

(** The claim of the specification fails on an alias that already holds
    underscores: they are characters of the class [\w], so a run of
    non-alphanumeric characters such as "_-_" is not collapsed to a single
    separator. *)
Lemma alias_underscores_counterexample :
  result_of (get_device_alias Text.ascii_only)
            Examples.underscore_host (initial [])
    = Ok "mi___band"%string
  /\ slug_of Text.ascii_only (isalnum Text.ascii_only)
             (Text.of_string "Mi_-_Band") = "mi_band"%string
  /\ result_of (get_device_alias Text.ascii_only)
               Examples.underscore_host (initial [])
     <> Ok (slug_of Text.ascii_only (isalnum Text.ascii_only)
                    (Text.of_string "Mi_-_Band")).
Proof.
  split; [reflexivity|]. split; [reflexivity|]. vm_compute. discriminate.
Qed.

(** C5, amended. The resolver never raises.  It returns the fallback slug
    "fitness_tracker" when the store cannot be reached or rejects the
    statement, when no device row matches, and when the alias of the first
    matching row is NULL or empty.  Otherwise it returns the alias with
    every run of characters other than alphanumeric characters and the
    underscore collapsed to one underscore, in lower case; underscores of
    the alias are kept.  This holds for every alias and every Unicode
    database; with the ASCII rows in place, "Mi Band 7!" gives
    "mi_band_7_". *)
Theorem get_device_alias_resolves (u : unicode) (h : host) (s : state) :
  (exists slug, result_of (get_device_alias u) h s = Ok slug)
  /\ (path_exists h = false \/ connect_raises h = true
      \/ rejects (db h) SelectAlias = true ->
      result_of (get_device_alias u) h s = Ok "fitness_tracker"%string)
  /\ (reachable h ->
      rejects (db h) SelectAlias = false ->
      match matching_device (db h) with
      | None =>
          result_of (get_device_alias u) h s = Ok "fitness_tracker"%string
      | Some r =>
          match dev_alias r with
          | None | Some [] =>
              result_of (get_device_alias u) h s
              = Ok "fitness_tracker"%string
          | Some alias =>
              result_of (get_device_alias u) h s
              = Ok (slug_of u (Text.is_word u) alias)
          end
      end)
  /\ (Text.ascii_rows u ->
      slug_of u (Text.is_word u) (Text.of_string "Mi Band 7!")
      = "mi_band_7_"%string).
Proof.
  rewrite get_device_alias_result. split; [eexists; reflexivity|]. split.
  - intros [-> | [-> | ->]]; simpl; rewrite ?andb_false_r; reflexivity.
  - split.
    + intros (-> & ->) ->. simpl.
      destruct (matching_device (db h)) as [r|]; [|reflexivity].
      destruct (dev_alias r) as [[|c rest]|]; try reflexivity.
      unfold slug_of. now rewrite <- re_sub_nonword_collapses.
    + intros [Halnum Hlower]. unfold slug_of.
      rewrite <- re_sub_nonword_collapses.
      unfold Text.re_sub_nonword, Text.of_string.
      cbn [list_ascii_of_string map Text.re_sub_nonword_from].
      unfold Text.is_word.
      rewrite !Halnum by reflexivity. cbn -[str_lower Text.utf8].
      rewrite Hlower by reflexivity. reflexivity.
Qed.

(** The alias of the example band is "Mi Band 7!". *)
Lemma get_device_alias_resolves_witness :
  result_of (get_device_alias Text.ascii_only) Examples.band_host (initial [])
  = Ok (slug_of Text.ascii_only (Text.is_word Text.ascii_only)
                (Text.of_string "Mi Band 7!")).
Proof.
  apply (proj1 (proj2 (proj2 (get_device_alias_resolves
                                Text.ascii_only
                                Examples.band_host (initial []))))).
  - repeat split; reflexivity.
  - reflexivity.
Defined.

Example mi_band_7_slug :
  result_of (get_device_alias Text.ascii_only) Examples.band_host (initial [])
  = Ok "mi_band_7_"%string.
Proof. reflexivity. Qed.

(** [round(90 / 60, 2)], [round(125 / 60, 2)] and the weight of the
    example, as Python prints them. *)
Example sleep_duration_examples :
  (hours <- lift (Py.truediv (VInt 90) 60) ;;
   rounded <- lift (Py.round hours 2) ;;
   ret (Py.str (VFloat rounded))) Examples.band_host (initial [])
  = (Ok "1.5"%string, initial [])
  /\ (hours <- lift (Py.truediv (VInt 125) 60) ;;
      rounded <- lift (Py.round hours 2) ;;
      ret (Py.str (VFloat rounded))) Examples.band_host (initial [])
     = (Ok "2.08"%string, initial [])
  /\ Py.str (VFloat Examples.kg_72_05) = "72.05"%string.
Proof. vm_compute. repeat split; reflexivity. Qed.

(** The isolation example of the specification: with a malformed
    HEART_RATE column the latest heart rate has no value and the other
    sensors keep theirs. *)
Example isolation_on_broken_heart_rate :
  match result_of (get_sensor_data (publisher_for "mi_band_7_"))
                  Examples.broken_heart_rate_host (initial []) with
  | Ok data =>
      (data !! "latest_heart_rate", data !! "daily_steps",
       data !! "battery_level", data !! "weight", data !! "hr_max",
       data !! "total_sleep_duration")
  | Raise _ => (None, None, None, None, None, None)
  end
  = (Some VNone, Some (VInt 500), Some (VInt 83),
     Some (VFloat Examples.kg_72_05), Some (VInt 141),
     option_map VFloat (Float.of_ratio 208 100)).
Proof. vm_compute. reflexivity. Qed.

(* ===================================================================== *)
(** ** More about the extraction executor                                 *)
(* ===================================================================== *)

Lemma sensor_events_single (sensor : sensor) (h : host) (sent : stmt)
    (answer : outcome value) :
  (forall s, exists rs,
     query sensor Cursor h s
     = (answer, State (trace s ++ [EvExecute sent]) rs (publish_raises s))) ->
  sensor_events h sensor
  = EvExecute sent
    :: match answer with
       | Ok _ => []
       | Raise e => [EvLog ERROR (ErrorQuerying (unique_id sensor) e)]
       end.
Proof.
  intros Hrun. destruct (statements_of_single sensor h sent answer Hrun)
    as [Hst Hans].
  unfold sensor_events. now rewrite Hst, Hans.
Qed.

Lemma query_sensor_trace (sensor : sensor) (data : gmap string value)
    (h : host) (s : state) :
  single_statement_query (query sensor) ->
  exists rs,
    query_sensor Cursor data sensor h s
    = (Ok (<[unique_id sensor :=
               value_or_none (result_of (query sensor Cursor) h s)]> data),
       State (trace s ++ sensor_events h sensor) rs (publish_raises s)).
Proof.
  intros Hq. destruct (Hq h) as (sent & answer & Hrun).
  rewrite (sensor_events_single sensor h sent answer Hrun).
  destruct (Hrun s) as (rs & Hs).
  unfold query_sensor, try_except, bind, result_of. rewrite Hs. simpl.
  destruct answer as [v|e]; simpl.
  - exists rs. reflexivity.
  - exists rs. unfold logger_error, emit, ret. simpl.
    now rewrite <- app_assoc.
Qed.

Lemma query_sensors_trace (h : host) (l : list sensor) :
  Forall (fun sensor => single_statement_query (query sensor)) l ->
  forall (data : gmap string value) (s : state),
  exists data' rs,
    query_sensors Cursor data l h s
    = (Ok data',
       State (trace s ++ concat (map (sensor_events h) l)) rs
             (publish_raises s))
    /\ (forall k, k ∉ map unique_id l -> data' !! k = data !! k)
    /\ (NoDup (map unique_id l) ->
        forall sensor, sensor ∈ l -> forall s0,
          data' !! unique_id sensor
          = Some (value_or_none (result_of (query sensor Cursor) h s0))).
Proof.
  induction 1 as [|sensor l Hq Hl IH]; intros data s; simpl.
  - exists data, (result_set s). unfold ret. rewrite app_nil_r.
    destruct s; simpl. split; [reflexivity|]. split; [reflexivity|].
    intros _ sensor Hin. inversion Hin.
  - unfold bind.
    destruct (query_sensor_trace sensor data h s Hq) as (rs1 & ->).
    destruct (IH (<[unique_id sensor :=
                      value_or_none (result_of (query sensor Cursor) h s)]> data)
                 (State (trace s ++ sensor_events h sensor) rs1
                        (publish_raises s)))
      as (data' & rs2 & -> & Hkeep & Hval).
    simpl. exists data', rs2. rewrite app_assoc.
    split; [reflexivity|]. split.
    + intros k Hk. rewrite Hkeep.
      * apply lookup_insert_ne. intros Heq. apply Hk. rewrite <- Heq. now left.
      * intros Hin. apply Hk. now right.
    + intros Hnd sensor' Hin s0. apply NoDup_cons in Hnd as [Hfresh Hnd].
      apply elem_of_cons in Hin as [-> | Hin].
      * rewrite Hkeep by exact Hfresh. rewrite lookup_insert_eq.
        now rewrite (single_statement_result _ h s s0 Hq).
      * now apply Hval.
Qed.

(** The whole run on a reachable store: the dict and the trace. *)
Lemma get_sensor_data_full (device_name : string) (h : host) (s : state) :
  reachable h ->
  exists data rs,
    get_sensor_data (publisher_for device_name) h s
    = (Ok data,
       State (trace s ++ [EvConnect; EvCursor]
                ++ concat (map (sensor_events h) (make_sensors device_name))
                ++ [EvClose])
             rs (publish_raises s))
    /\ (forall sensor, sensor ∈ make_sensors device_name -> forall s0,
          data !! unique_id sensor
          = Some (value_or_none (result_of (query sensor Cursor) h s0)))
    /\ (forall k, k ∉ map unique_id (make_sensors device_name) ->
          data !! k = None).
Proof.
  intros (Hpath & Hconn).
  pose proof (registry_queries_single_statement device_name) as Hsingle.
  pose proof (registry_unique_ids device_name) as Hnodup.
  change (make_sensors device_name)
    with (sensors (publisher_for device_name)) in *.
  generalize dependent (publisher_for device_name). intros self Hsingle Hnodup.
  unfold get_sensor_data, os_path_exists, bind, ask. rewrite Hpath. simpl.
  unfold try_except, bind, sqlite3_connect, conn_cursor, bind, ask.
  rewrite Hconn. simpl.
  destruct (query_sensors_trace h (sensors self) Hsingle ∅
              (State ((trace s ++ [EvConnect]) ++ [EvCursor]) (result_set s)
                     (publish_raises s)))
    as (data & rs & Hrun & Hkeep & Hval).
  rewrite Hrun. simpl. exists data, rs. split.
  - f_equal. f_equal. rewrite <- !app_assoc. reflexivity.
  - split; [now apply Hval|]. intros k Hk. now rewrite Hkeep.
Qed.

(** The result of the executor does not depend on the state it starts
    from. *)
Lemma get_sensor_data_extraction (device_name : string) (h : host)
    (s : state) :
  result_of (get_sensor_data (publisher_for device_name)) h s
  = Ok (extraction device_name h).
Proof.
  assert (Hsame : forall s1 s2,
             result_of (get_sensor_data (publisher_for device_name)) h s1
             = result_of (get_sensor_data (publisher_for device_name)) h s2).
  { intros s1 s2.
    destruct (path_exists h) eqn:Hpath;
      [|rewrite !get_sensor_data_unreachable by auto; reflexivity].
    destruct (connect_raises h) eqn:Hconn;
      [rewrite !get_sensor_data_unreachable by auto; reflexivity|].
    assert (Hreach : reachable h) by (repeat split; assumption).
    destruct (get_sensor_data_full device_name h s1 Hreach)
      as (d1 & rs1 & Hrun1 & Hval1 & Hout1).
    destruct (get_sensor_data_full device_name h s2 Hreach)
      as (d2 & rs2 & Hrun2 & Hval2 & Hout2).
    unfold result_of. rewrite Hrun1, Hrun2. simpl. f_equal.
    apply map_eq. intros k.
    destruct (decide (k ∈ map unique_id (make_sensors device_name)))
      as [Hin | Hout].
    - apply list_elem_of_fmap in Hin as (sensor & -> & Hin).
      rewrite (Hval1 sensor Hin s1), (Hval2 sensor Hin s1). reflexivity.
    - rewrite (Hout1 k Hout), (Hout2 k Hout). reflexivity. }
  unfold extraction.
  destruct (get_sensor_data_total (publisher_for device_name) h (State [] [] []))
    as (data & s' & Hrun).
  rewrite (Hsame s (State [] [] [])). unfold result_of. now rewrite Hrun.
Qed.

Lemma sensor_events_quiet (h : host) (l : list sensor) :
  published (concat (map (sensor_events h) l)) = []
  /\ executed (concat (map (sensor_events h) l))
     = concat (map (fun sensor => statements_of sensor h) l).
Proof.
  induction l as [|sensor l [IHp IHe]]; [split; reflexivity|].
  cbn [map concat]. rewrite published_app, executed_app, IHp, IHe.
  unfold sensor_events. rewrite published_app, executed_app.
  assert (Hp : forall qs, published (map EvExecute qs) = []).
  { induction qs as [|q qs IH]; [reflexivity | exact IH]. }
  assert (He : forall qs, executed (map EvExecute qs) = qs).
  { induction qs as [|q qs IH]; [reflexivity|].
    change (executed (map EvExecute (q :: qs)))
      with (q :: executed (map EvExecute qs)).
    now rewrite IH. }
  rewrite Hp, He.
  destruct (result_of (query sensor Cursor) h (State [] [] []));
    split; cbn; rewrite ?app_nil_r; reflexivity.
Qed.

Lemma elem_of_concat_map {A B} (f : A -> list B) (l : list A) (x : B) :
  x ∈ concat (map f l) <-> exists a, a ∈ l /\ x ∈ f a.
Proof.
  induction l as [|a l IH]; cbn [map concat].
  - split; [intros H; inversion H | intros (a & H & _); inversion H].
  - rewrite elem_of_app, IH. split.
    + intros [H | (a' & Hin & H)].
      * exists a. split; [apply list_elem_of_here | exact H].
      * exists a'. split; [now apply list_elem_of_further | exact H].
    + intros (a' & Hin & H). apply elem_of_cons in Hin as [-> | Hin].
      * now left.
      * right. eauto.
Qed.

(** X1. On a reachable store the Extraction Result has exactly one entry
    per sensor of the registry, and no other key. *)
Theorem extraction_has_one_entry_per_sensor
    (device_name : string) (h : host) (s : state) :
  reachable h ->
  exists data,
    result_of (get_sensor_data (publisher_for device_name)) h s = Ok data
    /\ (forall k, is_Some (data !! k)
                  <-> k ∈ map unique_id (make_sensors device_name))
    /\ size data = length (make_sensors device_name).
Proof.
  intros Hreach.
  destruct (get_sensor_data_full device_name h s Hreach)
    as (data & rs & Hrun & Hval & Hout).
  exists data. split; [unfold result_of; now rewrite Hrun|].
  assert (Hkeys : forall k, is_Some (data !! k)
                            <-> k ∈ map unique_id (make_sensors device_name)).
  { intros k. split.
    - intros Hsome.
      destruct (decide (k ∈ map unique_id (make_sensors device_name)))
        as [Hin | Hnot]; [exact Hin|].
      rewrite (Hout k Hnot) in Hsome. now destruct Hsome.
    - intros Hin. apply list_elem_of_fmap in Hin as (sensor & -> & Hin).
      rewrite (Hval sensor Hin s). eauto. }
  split; [exact Hkeys|].
  rewrite <- length_map with (f := unique_id).
  rewrite <- size_dom.
  assert (Hdom : dom data
                 = list_to_set (map unique_id (make_sensors device_name))).
  { apply set_eq. intros k. rewrite elem_of_dom, elem_of_list_to_set.
    apply Hkeys. }
  rewrite Hdom. apply size_list_to_set, registry_unique_ids.
Qed.

Lemma extraction_has_one_entry_per_sensor_witness :
  exists data,
    result_of (get_sensor_data (publisher_for "mi_band_7_"))
              Examples.broken_heart_rate_host (initial []) = Ok data
    /\ (forall k, is_Some (data !! k)
                  <-> k ∈ map unique_id (make_sensors "mi_band_7_"))
    /\ size data = length (make_sensors "mi_band_7_").
Proof.
  apply (extraction_has_one_entry_per_sensor
           "mi_band_7_" Examples.broken_heart_rate_host (initial [])).
  repeat split; reflexivity.
Defined.

(** X2. The Extraction Result is a snapshot of the host: it does not
    depend on the state the executor starts from, neither on rows a former
    statement left in the cursor, nor on what was logged or published
    before, nor on the faults of the MQTT client. *)
Theorem extraction_is_a_snapshot
    (device_name : string) (h : host) (s1 s2 : state) :
  result_of (get_sensor_data (publisher_for device_name)) h s1
  = result_of (get_sensor_data (publisher_for device_name)) h s2.
Proof. now rewrite !get_sensor_data_extraction. Qed.

(** X3. On a reachable store the executor works through the registry in
    order: after opening the connection and its cursor it sends the
    statement of each sensor in turn, logs an error naming the sensor right
    after a statement whose query raised, and closes the connection last.
    An error is logged for a sensor exactly when its query raises. *)
Theorem extraction_runs_the_registry_in_order
    (device_name : string) (h : host) (s : state) :
  reachable h ->
  trace_of (get_sensor_data (publisher_for device_name)) h s
  = trace s ++ [EvConnect; EvCursor]
      ++ concat (map (sensor_events h) (make_sensors device_name))
      ++ [EvClose]
  /\ executed (trace_of (get_sensor_data (publisher_for device_name)) h s)
     = executed (trace s)
       ++ concat (map (fun sensor => statements_of sensor h)
                      (make_sensors device_name))
  /\ (forall uid e,
        EvLog ERROR (ErrorQuerying uid e)
          ∈ concat (map (sensor_events h) (make_sensors device_name))
        <-> exists sensor,
              sensor ∈ make_sensors device_name
              /\ unique_id sensor = uid
              /\ forall s0, result_of (query sensor Cursor) h s0 = Raise e).
Proof.
  intros Hreach.
  destruct (get_sensor_data_full device_name h s Hreach)
    as (data & rs & Hrun & _ & _).
  unfold trace_of. rewrite Hrun. cbn [snd trace].
  split; [reflexivity|]. split.
  - rewrite !executed_app.
    destruct (sensor_events_quiet h (make_sensors device_name)) as [_ ->].
    cbn. now rewrite app_nil_r.
  - intros uid e.
    pose proof (registry_queries_single_statement device_name) as Hsingle.
    rewrite Forall_forall in Hsingle.
    split.
    + intros Hin. apply elem_of_concat_map in Hin as (sensor & Hsensor & Hin).
      exists sensor. split; [exact Hsensor|].
      unfold sensor_events in Hin. apply elem_of_app in Hin as [Hin | Hin].
      * apply list_elem_of_fmap in Hin as (q & Hq & _). discriminate Hq.
      * destruct (result_of (query sensor Cursor) h (State [] [] []))
          as [v|e'] eqn:Hres; [inversion Hin|].
        apply list_elem_of_singleton in Hin. injection Hin as <- <-.
        split; [reflexivity|]. intros s0.
        rewrite <- Hres. apply single_statement_result, Hsingle, Hsensor.
    + intros (sensor & Hsensor & <- & Hraise).
      apply elem_of_concat_map. exists sensor. split; [exact Hsensor|].
      unfold sensor_events. rewrite Hraise. apply elem_of_app. right.
      apply list_elem_of_here.
Qed.

Lemma extraction_runs_the_registry_in_order_witness :
  trace_of (get_sensor_data (publisher_for "mi_band_7_"))
           Examples.broken_heart_rate_host (initial [])
  = trace (initial []) ++ [EvConnect; EvCursor]
      ++ concat (map (sensor_events Examples.broken_heart_rate_host)
                     (make_sensors "mi_band_7_"))
      ++ [EvClose]
  /\ executed (trace_of (get_sensor_data (publisher_for "mi_band_7_"))
                        Examples.broken_heart_rate_host (initial []))
     = executed (trace (initial []))
       ++ concat (map (fun sensor =>
                         statements_of sensor Examples.broken_heart_rate_host)
                      (make_sensors "mi_band_7_"))
  /\ (forall uid e,
        EvLog ERROR (ErrorQuerying uid e)
          ∈ concat (map (sensor_events Examples.broken_heart_rate_host)
                        (make_sensors "mi_band_7_"))
        <-> exists sensor,
              sensor ∈ make_sensors "mi_band_7_"
              /\ unique_id sensor = uid
              /\ forall s0,
                   result_of (query sensor Cursor)
                             Examples.broken_heart_rate_host s0 = Raise e).
Proof.
  apply (extraction_runs_the_registry_in_order
           "mi_band_7_" Examples.broken_heart_rate_host (initial [])).
  repeat split; reflexivity.
Defined.

(* ===================================================================== *)
(** ** More about the publish cycle                                       *)
(* ===================================================================== *)

Lemma publish_failures_app (tr1 tr2 : list event) :
  publish_failures (tr1 ++ tr2) = publish_failures tr1 ++ publish_failures tr2.
Proof. unfold publish_failures. apply omap_app. Qed.

Lemma client_events_leave_store (evs : list event) :
  Forall (fun ev => store_event ev = false) evs ->
  executed evs = [] /\ List.filter store_event evs = [].
Proof.
  induction 1 as [|ev evs Hev _ [IHe IHf]]; [split; reflexivity|].
  split.
  - destruct ev; try discriminate Hev; exact IHe.
  - cbn. now rewrite Hev.
Qed.

Lemma failing_sensors_nil (data : gmap string value) (l : list sensor) :
  failing_sensors data l [] = [].
Proof.
  induction l as [|sensor l IH]; [reflexivity|].
  cbn. destruct (state_message data sensor); [reflexivity | exact IH].
Qed.

(** The loop of [publish_sensor_data] over a list of sensors: it always
    completes, touches nothing but the client and the log, sends the state
    messages, uses one coming fault per message and logs the failures. *)
Lemma publish_loop_run (data : gmap string value) (h : host)
    (l : list sensor) (s : state) :
  exists evs,
    for_each l (fun sensor : sensor =>
      let value := dict_get data (unique_id sensor) in
      if Py.is_not_none value
      then try_except
             (mqtt_publish (state_topic sensor) (Py.str value) 1 false)
             (fun e => logger_error (FailedToPublish (unique_id sensor) e))
      else ret tt) h s
    = (Ok tt,
       State (trace s ++ evs) (result_set s)
             (drop (length (omap (state_message data) l)) (publish_raises s)))
    /\ Forall (fun ev => store_event ev = false) evs
    /\ published evs = omap (state_message data) l
    /\ publish_failures evs = failing_sensors data l (publish_raises s).
Proof.
  match goal with
  | |- context [for_each _ ?b] => set (body := b)
  end.
  revert s. induction l as [|sensor l IH]; intros s.
  - exists []. cbn. rewrite app_nil_r. destruct s. repeat split; constructor.
  - cbn [for_each]. unfold bind.
    assert (Hbody : exists evs1 n,
      body sensor h s
      = (Ok tt, State (trace s ++ evs1) (result_set s)
                      (drop n (publish_raises s)))
      /\ Forall (fun ev => store_event ev = false) evs1
      /\ published evs1
         = match state_message data sensor with Some m => [m] | None => [] end
      /\ n = length (match state_message data sensor with
                     | Some m => [m] | None => [] end)
      /\ failing_sensors data (sensor :: l) (publish_raises s)
         = publish_failures evs1
           ++ failing_sensors data l (drop n (publish_raises s))).
    { subst body. cbn [failing_sensors]. unfold state_message. cbn beta zeta.
      destruct (dict_get data (unique_id sensor)) eqn:Hv; cbn [Py.is_not_none].
      1: { exists [], 0%nat. cbn. rewrite app_nil_r. destruct s.
           repeat split; constructor. }
      all: unfold try_except, mqtt_publish, logger_error, bind,
             next_publish_fault, emit, raise, ret;
           destruct s as [tr rs faults];
           cbn [trace result_set publish_raises];
           destruct faults as [|[|] faults]; cbn;
           rewrite ?failing_sensors_nil.
      all: first
        [ (eexists [EvPublish _], 1%nat; cbn;
           rewrite ?failing_sensors_nil;
           repeat split; repeat constructor; fail)
        | (eexists [EvPublish _; EvLog ERROR _], 1%nat; cbn;
           rewrite <- app_assoc; cbn; rewrite ?failing_sensors_nil;
           repeat split; repeat constructor) ]. }
    destruct Hbody as (evs1 & n & -> & Hev1 & Hp1 & Hn & Hf1).
    destruct (IH (State (trace s ++ evs1) (result_set s)
                        (drop n (publish_raises s))))
      as (evs2 & -> & Hev2 & Hp2 & Hf2).
    cbn [trace result_set publish_raises] in *.
    exists (evs1 ++ evs2). rewrite app_assoc, drop_drop.
    split.
    { f_equal. f_equal. f_equal. rewrite Hn. cbn [omap list_omap].
      destruct (state_message data sensor); cbn; lia. }
    split; [now apply Forall_app|].
    split.
    { rewrite published_app, Hp1, Hp2. cbn [omap list_omap].
      destruct (state_message data sensor); reflexivity. }
    rewrite publish_failures_app, Hf2. symmetry. exact Hf1.
Qed.

(** The whole of [publish_sensor_data]. *)
Lemma publish_sensor_data_full (self : publisher) (data : gmap string value)
    (h : host) (s : state) :
  exists evs,
    publish_sensor_data self data h s
    = (Ok tt,
       State (trace s ++ evs ++ [EvLog INFO (PublishedSensorData data)])
             (result_set s)
             (drop (length (state_messages self data)) (publish_raises s)))
    /\ Forall (fun ev => store_event ev = false) evs
    /\ published evs = state_messages self data
    /\ publish_failures evs
       = failing_sensors data (sensors self) (publish_raises s).
Proof.
  destruct (publish_loop_run data h (sensors self) s)
    as (evs & Hrun & Hev & Hp & Hf).
  exists evs. unfold publish_sensor_data, bind. cbv zeta in Hrun. rewrite Hrun.
  unfold logger_info, emit. cbn.
  rewrite <- app_assoc. repeat split; assumption.
Qed.

(** X4. Every failing publish call of a publish cycle is logged once, with
    the identifier of its sensor and in registry order, and the cycle goes
    on: each present entry gets exactly one publish call (there is no
    retry), the store is not touched, and the cycle ends with its summary
    log line. *)
Theorem publish_failures_are_logged
    (self : publisher) (data : gmap string value) (h : host) (s : state) :
  publish_failures (trace_of (publish_sensor_data self data) h s)
  = publish_failures (trace s)
    ++ failing_sensors data (sensors self) (publish_raises s)
  /\ publish_raises (snd (publish_sensor_data self data h s))
     = drop (length (state_messages self data)) (publish_raises s)
  /\ executed (trace_of (publish_sensor_data self data) h s)
     = executed (trace s)
  /\ last (trace_of (publish_sensor_data self data) h s)
     = Some (EvLog INFO (PublishedSensorData data)).
Proof.
  destruct (publish_sensor_data_full self data h s)
    as (evs & Hrun & Hev & _ & Hf).
  unfold trace_of. rewrite Hrun. cbn [snd trace publish_raises].
  split.
  { rewrite !publish_failures_app, Hf. cbn. now rewrite app_nil_r. }
  split; [reflexivity|]. split.
  { rewrite !executed_app.
    destruct (client_events_leave_store evs Hev) as [-> _].
    cbn. now rewrite app_nil_r. }
  rewrite app_assoc. apply last_snoc.
Qed.

Lemma state_messages_empty (self : publisher) : state_messages self ∅ = [].
Proof.
  unfold state_messages. induction (sensors self) as [|x l IH];
    [reflexivity | exact IH].
Qed.

Lemma get_sensor_data_unreachable_full (self : publisher) (h : host)
    (s : state) :
  path_exists h = false \/ connect_raises h = true ->
  exists evs,
    get_sensor_data self h s
    = (Ok ∅, State (trace s ++ evs) (result_set s) (publish_raises s))
    /\ published evs = [] /\ executed evs = []
    /\ List.filter is_close evs = []
    /\ (path_exists h = false -> List.filter store_event evs = []).
Proof.
  intros Hun.
  unfold get_sensor_data, os_path_exists, bind, ask. simpl.
  destruct (path_exists h) eqn:Hpath; simpl.
  2: { exists [EvLog ERROR DatabaseFileNotFound]. repeat split. }
  unfold try_except, bind, sqlite3_connect, conn_cursor, bind, ask. simpl.
  destruct (connect_raises h) eqn:Hconn; simpl.
  1: { exists [EvLog ERROR (ErrorQueryingDatabase SqliteError)].
       repeat split. }
  destruct Hun as [Hun | Hun]; discriminate.
Qed.

(** X5. A cycle against a store that cannot be reached still completes:
    it executes no statement, hands no message to the MQTT client and
    uses up none of its attempts.  When the file is missing, the store is
    not even opened. *)
Theorem cycle_on_unreachable_store
    (self : publisher) (h : host) (s : state) :
  path_exists h = false \/ connect_raises h = true ->
  result_of (cycle self) h s = Ok tt
  /\ published (trace_of (cycle self) h s) = published (trace s)
  /\ executed (trace_of (cycle self) h s) = executed (trace s)
  /\ publish_raises (snd (cycle self h s)) = publish_raises s
  /\ (path_exists h = false ->
      List.filter store_event (trace_of (cycle self) h s)
      = List.filter store_event (trace s)).
Proof.
  intros Hun.
  destruct (get_sensor_data_unreachable_full self h s Hun)
    as (evs & Hrun & Hp & Hx & _ & Hstore).
  unfold result_of, trace_of, cycle, bind. rewrite Hrun.
  match goal with
  | |- context [publish_sensor_data ?p ?d ?h0 ?st] =>
      destruct (publish_sensor_data_full p d h0 st)
        as (evs2 & Hrun2 & Hev2 & Hp2 & _)
  end.
  rewrite Hrun2. cbn [fst snd trace result_set publish_raises].
  rewrite state_messages_empty in *. cbn [length drop].
  destruct (client_events_leave_store evs2 Hev2) as [Hx2 Hs2].
  split; [reflexivity|]. split.
  { rewrite !published_app, Hp, Hp2. cbn. now rewrite !app_nil_r. }
  split.
  { rewrite !executed_app, Hx, Hx2. cbn. now rewrite !app_nil_r. }
  split; [reflexivity|].
  intros Hpath. rewrite !List.filter_app, Hs2, (Hstore Hpath). cbn.
  now rewrite !app_nil_r.
Qed.

Lemma cycle_on_unreachable_store_witness :
  result_of (cycle (publisher_for "mi_band_7_"))
            Examples.locked_host (initial [true]) = Ok tt
  /\ published (trace_of (cycle (publisher_for "mi_band_7_"))
                         Examples.locked_host (initial [true]))
     = published (trace (initial [true]))
  /\ executed (trace_of (cycle (publisher_for "mi_band_7_"))
                        Examples.locked_host (initial [true]))
     = executed (trace (initial [true]))
  /\ publish_raises (snd (cycle (publisher_for "mi_band_7_")
                                Examples.locked_host (initial [true])))
     = publish_raises (initial [true])
  /\ (path_exists Examples.locked_host = false ->
      List.filter store_event
        (trace_of (cycle (publisher_for "mi_band_7_"))
                  Examples.locked_host (initial [true]))
      = List.filter store_event (trace (initial [true]))).
Proof.
  apply (cycle_on_unreachable_store
           (publisher_for "mi_band_7_") Examples.locked_host
           (initial [true])).
  right. reflexivity.
Defined.

(** A cycle of the registry on any host. *)
Lemma cycle_anywhere (device_name : string) (h : host) (s : state) :
  exists s',
    cycle (publisher_for device_name) h s = (Ok tt, s')
    /\ published (trace s')
       = published (trace s)
         ++ state_messages (publisher_for device_name)
                           (extraction device_name h).
Proof.
  pose proof (get_sensor_data_extraction device_name h s) as Hres.
  unfold result_of in Hres.
  assert (Hquiet : exists s1,
             get_sensor_data (publisher_for device_name) h s
             = (Ok (extraction device_name h), s1)
             /\ published (trace s1) = published (trace s)).
  { destruct (path_exists h) eqn:Hpath.
    2: { destruct (get_sensor_data_unreachable_full
                     (publisher_for device_name) h s (or_introl Hpath))
           as (evs & Hrun & Hp & _).
         rewrite Hrun in Hres. cbn in Hres. rewrite <- Hres.
         eexists; split; [exact Hrun|]. cbn.
         rewrite published_app, Hp. apply app_nil_r. }
    destruct (connect_raises h) eqn:Hconn.
    1: { destruct (get_sensor_data_unreachable_full
                     (publisher_for device_name) h s
                     (or_intror Hconn))
           as (evs & Hrun & Hp & _).
         rewrite Hrun in Hres. cbn in Hres. rewrite <- Hres.
         eexists; split; [exact Hrun|]. cbn.
         rewrite published_app, Hp. apply app_nil_r. }
    assert (Hreach : reachable h) by (repeat split; assumption).
    destruct (get_sensor_data_full device_name h s Hreach)
      as (data & rs & Hrun & _ & _).
    rewrite Hrun in Hres. cbn [fst] in Hres. rewrite <- Hres.
    eexists; split; [exact Hrun|]. cbn [trace].
    rewrite !published_app.
    destruct (sensor_events_quiet h (make_sensors device_name)) as [-> _].
    cbn. apply app_nil_r. }
  destruct Hquiet as (s1 & Hrun & Hp).
  unfold cycle, bind. rewrite Hrun.
  destruct (publish_sensor_data_run (publisher_for device_name)
              (extraction device_name h) h s1) as (s2 & Hrun2 & Hp2).
  exists s2. split; [exact Hrun2|]. now rewrite Hp2, Hp.
Qed.

(* ===================================================================== *)
(** ** The scheduler                                                      *)
(* ===================================================================== *)

Lemma beats_app (tl1 tl2 : list run_event) :
  beats (tl1 ++ tl2) = beats tl1 ++ beats tl2.
Proof. unfold beats. apply omap_app. Qed.

Lemma beats_did (tr : list event) :
  beats (map Did tr) = map Send (published tr).
Proof.
  induction tr as [|ev tr IH]; [reflexivity|].
  destruct ev; cbn; try exact IH.
  f_equal. exact IH.
Qed.

Lemma perform_cycle (device_name : string) (h : host) (rs : run_state) :
  exists rs',
    perform (cycle (publisher_for device_name)) h rs = (Ok tt, rs')
    /\ beats (timeline rs')
       = beats (timeline rs)
         ++ map Send (state_messages (publisher_for device_name)
                                     (extraction device_name h)).
Proof.
  unfold perform.
  destruct (cycle_anywhere device_name h
              (State [] (pending_rows rs) (client_faults rs)))
    as (s' & -> & Hp).
  eexists; split; [reflexivity|]. cbn [timeline].
  rewrite beats_app, beats_did, Hp. reflexivity.
Qed.

Lemma perform_setup (self : publisher) (h : host) (rs : run_state) :
  exists rs',
    perform (setup_home_assistant_entities self) h rs = (Ok tt, rs')
    /\ beats (timeline rs')
       = beats (timeline rs) ++ map Send (discovery_messages self).
Proof.
  unfold perform.
  destruct (setup_home_assistant_entities_run self h
              (State [] (pending_rows rs) (client_faults rs)))
    as (s' & -> & Hp).
  eexists; split; [reflexivity|]. cbn [timeline].
  rewrite beats_app, beats_did, Hp. reflexivity.
Qed.

Lemma beats_note (ev : run_event) (rs : run_state) :
  beats (timeline (note ev rs))
  = beats (timeline rs)
    ++ match ev with
       | Slept n => [Wait n]
       | Did (EvPublish m) => [Send m]
       | _ => []
       end.
Proof.
  unfold note. cbn [timeline]. rewrite beats_app.
  destruct ev as [[]| | | |]; reflexivity.
Qed.

(** The loop: every turn waits the interval, then sends the state messages
    of the Extraction Result of the host as it is then; no turn ends the
    loop. *)
Lemma run_loop_beats (device_name : string) (p : process) (fuel : nat) :
  forall (k : nat) (rs : run_state),
  exists rs',
    run_loop fuel (publisher_for device_name) p k rs = (Ok tt, rs')
    /\ beats (timeline rs')
       = beats (timeline rs)
         ++ concat
              (map (fun i =>
                      Wait (publish_interval p)
                      :: map Send
                           (state_messages (publisher_for device_name)
                              (extraction device_name (world p i))))
                   (seq k fuel)).
Proof.
  induction fuel as [|fuel IH]; intros k rs.
  - exists rs. split; [reflexivity|]. cbn. now rewrite app_nil_r.
  - cbn [run_loop].
    destruct (perform_cycle device_name (world p k)
                (note (Slept (publish_interval p)) rs))
      as (rs1 & -> & Hb1).
    destruct (IH (S k)
                (note (Logged INFO
                         (SleepingBeforeNextPublish (publish_interval p)))
                      rs1))
      as (rs2 & -> & Hb2).
    exists rs2. split; [reflexivity|].
    rewrite Hb2, beats_note, Hb1, beats_note. cbn [seq map concat].
    rewrite app_nil_r, <- !app_assoc. reflexivity.
Qed.

(** X6. The schedule of [run].  When the broker refuses the client, [run]
    logs the failure and returns without a single message or wait.
    Otherwise it never returns by itself; what it sends and when it waits
    is, in this order: the discovery messages, at once the state messages
    of a first extraction, and then for every turn of the loop one wait of
    the configured interval followed by the state messages of a fresh
    extraction of the host as it is at that moment. *)
Theorem run_schedule
    (device_name : string) (p : process) (fuel : nat) (rs : run_state) :
  let self := publisher_for device_name in
  if client_raises p
  then fst (run fuel self p rs) = Returned
       /\ timeline (snd (run fuel self p rs))
          = timeline rs
            ++ [Logged INFO StartingPublisher;
                Logged ERROR (FailedToConnectToBroker MqttError)]
  else fst (run fuel self p rs) = StillRunning
       /\ beats (timeline (snd (run fuel self p rs)))
          = beats (timeline rs)
            ++ map Send (discovery_messages self)
            ++ map Send (state_messages self
                           (extraction device_name (world p 0)))
            ++ concat
                 (map (fun i =>
                         Wait (publish_interval p)
                         :: map Send
                              (state_messages self
                                 (extraction device_name (world p i))))
                      (seq 1 fuel)).
Proof.
  cbv zeta. unfold run. destruct (client_raises p).
  - cbn. rewrite <- app_assoc. split; reflexivity.
  - destruct (perform_setup (publisher_for device_name) (world p 0)
                (note ClientEntered (note (Logged INFO StartingPublisher) rs)))
      as (rs1 & -> & Hb1).
    destruct (perform_cycle device_name (world p 0) rs1) as (rs2 & -> & Hb2).
    destruct (run_loop_beats device_name p fuel 1
                (note (Logged INFO
                         (SleepingBeforeNextPublish (publish_interval p)))
                      rs2))
      as (rs3 & -> & Hb3).
    split; [reflexivity|]. cbn [snd].
    rewrite Hb3, beats_note, Hb2, Hb1, !beats_note. cbn [app].
    rewrite !app_nil_r, <- !app_assoc. reflexivity.
Qed.

(* ===================================================================== *)
(** ** What the statements select                                         *)
(* ===================================================================== *)

Lemma latest_fold {A} (ts : A -> Z) (rows : list A) :
  forall best : option A,
  match fold_left (Sql.later ts) rows best with
  | None => best = None /\ rows = []
  | Some r =>
      (Some r = best \/ r ∈ rows)
      /\ (forall b, best = Some b -> ts b <= ts r)
      /\ (forall r', r' ∈ rows -> ts r' <= ts r)
  end.
Proof.
  induction rows as [|x rows IH]; intros best; cbn [fold_left].
  - destruct best as [b|]; [|split; reflexivity].
    split; [now left|]. split.
    + intros b' Hb. injection Hb as ->. lia.
    + intros r' Hr. inversion Hr.
  - specialize (IH (Sql.later ts best x)).
    destruct (fold_left (Sql.later ts) rows (Sql.later ts best x)) as [r|].
    + destruct IH as (Hwho & Hbest & Hrows).
      assert (Hx : ts x <= ts r /\ (forall b, best = Some b -> ts b <= ts r)
                   /\ (Some r = best \/ r ∈ x :: rows)).
      { unfold Sql.later in *. destruct best as [b|].
        - destruct (ts b <? ts x) eqn:Hlt.
          + apply Z.ltb_lt in Hlt. pose proof (Hbest x eq_refl).
            split; [assumption|]. split.
            * intros b' Hb. injection Hb as <-. lia.
            * destruct Hwho as [Hwho | Hwho].
              -- injection Hwho as ->. right. apply list_elem_of_here.
              -- right. now apply list_elem_of_further.
          + apply Z.ltb_ge in Hlt. pose proof (Hbest b eq_refl).
            split; [lia|]. split.
            * intros b' Hb. injection Hb as <-. assumption.
            * destruct Hwho as [Hwho | Hwho]; [now left|].
              right. now apply list_elem_of_further.
        - pose proof (Hbest x eq_refl). split; [assumption|]. split.
          + intros b Hb. discriminate Hb.
          + destruct Hwho as [Hwho | Hwho].
            * injection Hwho as ->. right. apply list_elem_of_here.
            * right. now apply list_elem_of_further. }
      destruct Hx as (Hx & Hb & Hw). split; [exact Hw|]. split; [exact Hb|].
      intros r' Hr. apply elem_of_cons in Hr as [-> | Hr]; auto.
    + destruct IH as [Hnone _]. unfold Sql.later in Hnone.
      destruct best as [b|]; [destruct (ts b <? ts x)|]; discriminate.
Qed.

(** ORDER BY TIMESTAMP DESC LIMIT 1 over a table: no row for an empty
    table, else the selected column of a row that no row is later than. *)
Lemma select_latest {A} (ts : A -> Z) (col : A -> value) (rows : list A) :
  (map (fun r => (ts r, col r)) rows = []
   /\ Sql.select1 col (Sql.latest ts rows) = [])
  \/ (exists t v,
        (t, v) ∈ map (fun r => (ts r, col r)) rows
        /\ (forall t' v', (t', v') ∈ map (fun r => (ts r, col r)) rows ->
                          t' <= t)
        /\ Sql.select1 col (Sql.latest ts rows) = [[v]]).
Proof.
  unfold Sql.latest. pose proof (latest_fold ts rows None) as H.
  destruct (fold_left (Sql.later ts) rows None) as [r|].
  - right. destruct H as ([Hwho | Hin] & _ & Hmax); [discriminate|].
    exists (ts r), (col r). split; [|split; [|reflexivity]].
    + apply list_elem_of_fmap. eauto.
    + intros t' v' Hin'. apply list_elem_of_fmap in Hin' as (r' & Heq & Hr').
      injection Heq as -> ->. now apply Hmax.
  - left. destruct H as [_ ->]. split; reflexivity.
Qed.

(** X7. A latest-row query answers with the selected column of a row with
    the greatest timestamp of its table, and with "no value" when the
    table is empty. *)
Theorem latest_row_has_the_greatest_timestamp
    (c : column) (h : host) (s : state) :
  rejects (db h) (Latest c) = false ->
  (column_values (db h) c = []
   /\ result_of (query_latest c Cursor) h s = Ok VNone)
  \/ (exists t v,
        (t, v) ∈ column_values (db h) c
        /\ (forall t' v', (t', v') ∈ column_values (db h) c -> t' <= t)
        /\ result_of (query_latest c Cursor) h s = Ok v).
Proof.
  intros Hacc. unfold result_of.
  destruct (query_latest_run c h s) as (rs & ->). cbn [fst].
  rewrite (run_latest _ _ Hacc).
  assert (Hsel :
    (column_values (db h) c = [] /\ Sql.latest_column (db h) c = [])
    \/ (exists t v,
          (t, v) ∈ column_values (db h) c
          /\ (forall t' v', (t', v') ∈ column_values (db h) c -> t' <= t)
          /\ Sql.latest_column (db h) c = [[v]])).
  { destruct c; apply select_latest. }
  destruct Hsel as [[Hempty ->] | (t & v & Hin & Hmax & ->)].
  - left. split; [exact Hempty | reflexivity].
  - right. exists t, v. repeat split; assumption.
Qed.

Lemma latest_row_has_the_greatest_timestamp_witness :
  (column_values (db Examples.band_host) LEVEL = []
   /\ result_of (query_latest LEVEL Cursor) Examples.band_host (initial [])
      = Ok VNone)
  \/ (exists t v,
        (t, v) ∈ column_values (db Examples.band_host) LEVEL
        /\ (forall t' v',
              (t', v') ∈ column_values (db Examples.band_host) LEVEL ->
              t' <= t)
        /\ result_of (query_latest LEVEL Cursor) Examples.band_host
                     (initial []) = Ok v).
Proof.
  apply (latest_row_has_the_greatest_timestamp
           LEVEL Examples.band_host (initial [])).
  reflexivity.
Defined.

Lemma total_cons (x : Z) (xs : list Z) : total (x :: xs) = x + total xs.
Proof. reflexivity. Qed.

Lemma total_nonneg (xs : list Z) :
  Forall (fun n => 0 <= n) xs -> 0 <= total xs.
Proof.
  induction 1 as [|x xs Hx _ IH]; [cbn; lia|]. rewrite total_cons. lia.
Qed.

(** SUM over non-negative values that fit the accumulator together. *)
Lemma sum_from_plausible (xs : list (option Z)) :
  forall acc,
    0 <= acc ->
    Forall (fun n => 0 <= n) (omap id xs) ->
    acc + total (omap id xs) < 2 ^ 63 ->
    Sql.sum_from (Some acc) xs = Ok (VInt (acc + total (omap id xs))).
Proof.
  induction xs as [|[x|] xs IH]; intros acc Hacc Hpos Hfit.
  - cbn. now rewrite Z.add_0_r.
  - change (omap id (Some x :: xs)) with (x :: omap id xs) in *.
    apply Forall_cons in Hpos as [Hx Hpos]. rewrite total_cons in *.
    pose proof (total_nonneg _ Hpos) as Hrest.
    cbn [Sql.sum_from].
    assert (Hint : Sql.int64 (acc + x) = true).
    { unfold Sql.int64. apply andb_true_iff.
      split; [apply Z.leb_le | apply Z.ltb_lt]; lia. }
    rewrite Hint, IH by (try assumption; lia). do 2 f_equal. lia.
  - cbn [Sql.sum_from]. change (omap id (None :: xs)) with (omap id xs) in *.
    now apply IH.
Qed.

Lemma sum_plausible (xs : list (option Z)) :
  Forall (fun n => 0 <= n) (omap id xs) ->
  total (omap id xs) < 2 ^ 63 ->
  Sql.sum xs = Ok (match omap id xs with
                   | [] => VNone
                   | _ => VInt (total (omap id xs))
                   end).
Proof.
  unfold Sql.sum. induction xs as [|[x|] xs IH]; intros Hpos Hfit.
  - reflexivity.
  - change (omap id (Some x :: xs)) with (x :: omap id xs) in *.
    apply Forall_cons in Hpos as [Hx Hpos]. rewrite total_cons in *.
    pose proof (total_nonneg _ Hpos) as Hrest.
    cbn [Sql.sum_from].
    assert (Hint : Sql.int64 x = true).
    { unfold Sql.int64. apply andb_true_iff.
      split; [apply Z.leb_le | apply Z.ltb_lt]; lia. }
    rewrite Hint. now apply sum_from_plausible.
  - cbn [Sql.sum_from]. change (omap id (None :: xs)) with (omap id xs) in *.
    now apply IH.
Qed.

Lemma omap_id_map {A B} (f : A -> option B) (l : list A) :
  omap id (map f l) = omap f l.
Proof.
  induction l as [|a l IH]; [reflexivity|].
  cbn. destruct (f a); cbn; now rewrite IH.
Qed.

Lemma steps_nonneg (rows : list activity_sample) :
  Forall (fun r => match act_steps r with Some n => 0 <= n | None => True end)
         rows ->
  Forall (fun n => 0 <= n) (omap act_steps rows).
Proof.
  induction 1 as [|r rows Hr _ IH]; [constructor|].
  cbn [omap list_omap]. destruct (act_steps r); [constructor|]; assumption.
Qed.

Lemma omap_steps_cons (r : activity_sample) (rows : list activity_sample) :
  omap act_steps (r :: rows)
  = match act_steps r with
    | Some n => n :: omap act_steps rows
    | None => omap act_steps rows
    end.
Proof. reflexivity. Qed.

(** A narrower range counts no more steps than a wider one. *)
Lemma steps_in_range_le (rows : list activity_sample)
    (narrow wide : activity_sample -> bool) :
  Forall (fun r => match act_steps r with Some n => 0 <= n | None => True end)
         rows ->
  (forall r, narrow r = true -> wide r = true) ->
  0 <= total (omap act_steps (List.filter narrow rows))
       <= total (omap act_steps (List.filter wide rows)).
Proof.
  intros Hpos Hsub. induction Hpos as [|r rows Hr _ IH]; [cbn; lia|].
  cbn [List.filter]. specialize (Hsub r).
  destruct (narrow r).
  - rewrite (Hsub eq_refl), !omap_steps_cons.
    destruct (act_steps r); rewrite ?total_cons; lia.
  - destruct (wide r); rewrite ?omap_steps_cons;
      destruct (act_steps r); rewrite ?total_cons; lia.
Qed.

Lemma filter_all {A} (l : list A) : List.filter (fun _ => true) l = l.
Proof. induction l as [|a l IH]; [reflexivity | cbn; now rewrite IH]. Qed.

(** The steps of a range are some of the steps of the table. *)
Lemma steps_in_plausible (d : database) (lo : Z) (hi : option Z) :
  plausible_steps d ->
  Forall (fun n => 0 <= n) (steps_in d lo hi)
  /\ total (steps_in d lo hi) < 2 ^ 63.
Proof.
  intros [Hpos Hfit]. unfold steps_in. split.
  - apply steps_nonneg. apply Forall_forall. intros r Hr.
    rewrite Forall_forall in Hpos. apply Hpos.
    apply list_elem_of_In. apply list_elem_of_In in Hr.
    now apply List.filter_In in Hr.
  - pose proof (steps_in_range_le (XIAOMI_ACTIVITY_SAMPLE d)
                  (Sql.in_range lo hi) (fun _ => true) Hpos
                  (fun _ _ => eq_refl)) as Hle.
    rewrite filter_all in Hle. lia.
Qed.

(** The answer of a step-total query on plausible data: the total of the
    steps in its range, zero when there are none. *)
Lemma steps_answer_total (h : host) (lo : Z) (hi : option Z) :
  rejects (db h) (SumSteps lo hi) = false ->
  plausible_steps (db h) ->
  steps_answer h (SumSteps lo hi)
  = Ok (VInt (total (steps_in (db h) lo hi))).
Proof.
  intros Hacc Hplaus.
  destruct (steps_in_plausible (db h) lo hi Hplaus) as [Hpos Hfit].
  unfold steps_answer, Sql.run. rewrite Hacc.
  unfold steps_in in *. rewrite <- omap_id_map in Hpos, Hfit.
  rewrite (sum_plausible _ Hpos Hfit). rewrite omap_id_map in *.
  destruct (omap act_steps _) as [|n ns] eqn:Hsteps; [reflexivity|].
  unfold Py.or_, Py.truthy.
  destruct (total (n :: ns) =? 0) eqn:Hz; cbn [negb]; [|reflexivity].
  apply Z.eqb_eq in Hz. now rewrite Hz.
Qed.

(** X8. On plausible step data (no negative count, all counts together
    within 64 bits) each step-total query answers with an integer, the
    total of the non-NULL step counts of the samples in its range: today's
    local day for the daily total, everything since Monday's midnight for
    the weekly one and since the first of the month for the monthly one,
    samples dated in the future included.  The answer is zero when the
    range holds no count; it is never "no value". *)
Theorem step_totals_are_sums (h : host) (s : state) :
  plausible_steps (db h) ->
  rejects (db h) (daily_statement (clock h)) = false ->
  rejects (db h) (weekly_statement (clock h)) = false ->
  rejects (db h) (monthly_statement (clock h)) = false ->
  let c := clock h in
  let today := now_date c in
  result_of (query_daily_steps Cursor) h s
    = Ok (VInt (total (steps_in (db h) (timestamp_min c today)
                                (Some (timestamp_max c today)))))
  /\ result_of (query_weekly_steps Cursor) h s
     = Ok (VInt (total (steps_in (db h)
                          (timestamp_min c
                             (Date.minus_days today (Date.weekday today)))
                          None)))
  /\ result_of (query_monthly_steps Cursor) h s
     = Ok (VInt (total (steps_in (db h)
                          (timestamp_min c (replace_day_1 c today)) None))).
Proof.
  intros Hplaus Hd Hw Hm c today. unfold result_of.
  destruct (query_daily_steps_run h s) as (rs1 & ->).
  destruct (query_weekly_steps_run h s) as (rs2 & ->).
  destruct (query_monthly_steps_run h s) as (rs3 & ->).
  cbn [fst].
  unfold daily_statement, weekly_statement, monthly_statement in *.
  rewrite !steps_answer_total by assumption.
  repeat split; reflexivity.
Qed.

Lemma step_totals_are_sums_witness :
  let h := Examples.band_host in
  let c := clock h in
  let today := now_date c in
  result_of (query_daily_steps Cursor) h (initial [])
    = Ok (VInt (total (steps_in (db h) (timestamp_min c today)
                                (Some (timestamp_max c today)))))
  /\ result_of (query_weekly_steps Cursor) h (initial [])
     = Ok (VInt (total (steps_in (db h)
                          (timestamp_min c
                             (Date.minus_days today (Date.weekday today)))
                          None)))
  /\ result_of (query_monthly_steps Cursor) h (initial [])
     = Ok (VInt (total (steps_in (db h)
                          (timestamp_min c (replace_day_1 c today)) None))).
Proof.
  apply (step_totals_are_sums Examples.band_host (initial [])).
  - split; [repeat constructor; cbn; lia | vm_compute; reflexivity].
  - reflexivity.
  - reflexivity.
  - reflexivity.
Defined.

(** X9. On plausible step data and a coherent clock the daily total never
    exceeds the weekly total nor the monthly total, and none of them is
    negative. *)
Theorem daily_steps_at_most_weekly_and_monthly (h : host) (s : state) :
  plausible_steps (db h) ->
  coherent (clock h) ->
  rejects (db h) (daily_statement (clock h)) = false ->
  rejects (db h) (weekly_statement (clock h)) = false ->
  rejects (db h) (monthly_statement (clock h)) = false ->
  exists daily weekly monthly,
    result_of (query_daily_steps Cursor) h s = Ok (VInt daily)
    /\ result_of (query_weekly_steps Cursor) h s = Ok (VInt weekly)
    /\ result_of (query_monthly_steps Cursor) h s = Ok (VInt monthly)
    /\ 0 <= daily /\ daily <= weekly /\ daily <= monthly.
Proof.
  intros Hplaus (Hweek & Hmonth & _) Hd Hw Hm. unfold result_of.
  destruct (query_daily_steps_run h s) as (rs1 & ->).
  destruct (query_weekly_steps_run h s) as (rs2 & ->).
  destruct (query_monthly_steps_run h s) as (rs3 & ->).
  cbn [fst].
  unfold daily_statement, weekly_statement, monthly_statement in *.
  rewrite !steps_answer_total by assumption.
  do 3 eexists. do 3 (split; [reflexivity|]).
  destruct Hplaus as [Hpos _]. unfold steps_in.
  set (today := now_date (clock h)) in *.
  assert (Hin : forall lo r,
             lo <= timestamp_min (clock h) today ->
             Sql.in_range (timestamp_min (clock h) today)
               (Some (timestamp_max (clock h) today)) r = true ->
             Sql.in_range lo None r = true).
  { intros lo r Hlo Hr. unfold Sql.in_range in *.
    apply andb_true_iff in Hr as [Hr _]. apply Z.leb_le in Hr.
    rewrite andb_true_r. apply Z.leb_le. lia. }
  pose proof (steps_in_range_le _ _ _ Hpos (fun r => Hin _ r Hweek)) as Hw'.
  pose proof (steps_in_range_le _ _ _ Hpos (fun r => Hin _ r Hmonth)) as Hm'.
  lia.
Qed.

Lemma daily_steps_at_most_weekly_and_monthly_witness :
  exists daily weekly monthly,
    result_of (query_daily_steps Cursor) Examples.band_host (initial [])
      = Ok (VInt daily)
    /\ result_of (query_weekly_steps Cursor) Examples.band_host (initial [])
       = Ok (VInt weekly)
    /\ result_of (query_monthly_steps Cursor) Examples.band_host (initial [])
       = Ok (VInt monthly)
    /\ 0 <= daily /\ daily <= weekly /\ daily <= monthly.
Proof.
  apply (daily_steps_at_most_weekly_and_monthly
           Examples.band_host (initial [])).
  - split; [repeat constructor; cbn; lia | vm_compute; reflexivity].
  - unfold coherent. vm_compute. repeat split; discriminate.
  - reflexivity.
  - reflexivity.
  - reflexivity.
Defined.

Example band_step_totals :
  result_of (query_daily_steps Cursor) Examples.band_host (initial [])
    = Ok (VInt 500)
  /\ result_of (query_weekly_steps Cursor) Examples.band_host (initial [])
     = Ok (VInt 1700)
  /\ result_of (query_monthly_steps Cursor) Examples.band_host (initial [])
     = Ok (VInt 1700).
Proof. repeat split; reflexivity. Qed.

(** X10. The sleep duration in hours grows with the stored minutes, for
    durations of up to [10 ^ 14] minutes: of two latest sleep records, the
    longer one never gets the smaller number of hundredths.  A
    non-negative duration gives a non-negative value, and a duration that
    is a multiple of three minutes is converted to the float nearest to
    its exact number of hundredths. *)
Theorem sleep_hours_grow_with_minutes
    (h1 h2 : host) (s1 s2 : state) (r1 r2 : sleep_time) (m1 m2 : Z) :
  rejects (db h1) (Latest TOTAL_DURATION) = false ->
  rejects (db h2) (Latest TOTAL_DURATION) = false ->
  latest_sleep (db h1) = Some r1 ->
  latest_sleep (db h2) = Some r2 ->
  slp_total_duration r1 = Some m1 ->
  slp_total_duration r2 = Some m2 ->
  Z.abs m1 <= 10 ^ 14 ->
  Z.abs m2 <= 10 ^ 14 ->
  m1 <= m2 ->
  exists k1 k2 x1 x2,
    result_of (query_total_sleep_duration Cursor) h1 s1 = Ok (VFloat x1)
    /\ result_of (query_total_sleep_duration Cursor) h2 s2 = Ok (VFloat x2)
    /\ Float.of_ratio k1 100 = Some x1
    /\ Float.of_ratio k2 100 = Some x2
    /\ k1 <= k2
    /\ (0 <= m1 -> 0 <= k1)
    /\ (m1 mod 3 = 0 -> 3 * k1 = 5 * m1).
Proof.
  intros Ha1 Ha2 Hl1 Hl2 Hd1 Hd2 Hb1 Hb2 Hle.
  rewrite (total_sleep_duration_answer h1 s1 r1 m1 Ha1 Hl1 Hd1).
  rewrite (total_sleep_duration_answer h2 s2 r2 m2 Ha2 Hl2 Hd2).
  destruct (round_minutes_to_hours m1 Hb1)
    as (q1 & k1 & x1 & -> & -> & Hx1 & Hk1).
  destruct (round_minutes_to_hours m2 Hb2)
    as (q2 & k2 & x2 & -> & -> & Hx2 & Hk2).
  exists k1, k2, x1, x2. split; [reflexivity|]. split; [reflexivity|].
  split; [exact Hx1|]. split; [exact Hx2|].
  split; [lia|]. split; [lia|].
  intros Hmod. apply Z.mod_divide in Hmod; [|lia].
  destruct Hmod as (j & ->). lia.
Qed.

Lemma sleep_hours_grow_with_minutes_witness :
  exists k1 k2 x1 x2,
    result_of (query_total_sleep_duration Cursor) Examples.awake_host
              (initial []) = Ok (VFloat x1)
    /\ result_of (query_total_sleep_duration Cursor) Examples.band_host
                 (initial []) = Ok (VFloat x2)
    /\ Float.of_ratio k1 100 = Some x1
    /\ Float.of_ratio k2 100 = Some x2
    /\ k1 <= k2
    /\ (0 <= 90 -> 0 <= k1)
    /\ (90 mod 3 = 0 -> 3 * k1 = 5 * 90).
Proof.
  apply (sleep_hours_grow_with_minutes
           Examples.awake_host Examples.band_host (initial []) (initial [])
           (SleepTime 1793656400 (Some 1) (Some 90))
           (SleepTime 1793656400 None (Some 125)) 90 125);
    try reflexivity; vm_compute; discriminate.
Defined.

(* ===================================================================== *)
(** ** Topics                                                             *)
(* ===================================================================== *)

Lemma append_cancel (p a b : string) :
  String.append p a = String.append p b -> a = b.
Proof.
  induction p as [|c p IH]; [auto|].
  change (String.append (String c p) a) with (String c (String.append p a)).
  change (String.append (String c p) b) with (String c (String.append p b)).
  intros H. injection H as H. auto.
Qed.

Lemma all_chars_append (f : ascii -> bool) (a b : string) :
  PyStr.all_chars f (String.append a b)
  = PyStr.all_chars f a && PyStr.all_chars f b.
Proof.
  induction a as [|c a IH]; [reflexivity|].
  change (String.append (String c a) b) with (String c (String.append a b)).
  cbn [PyStr.all_chars]. now rewrite IH, andb_assoc.
Qed.

Lemma count_char_append (c : ascii) (a b : string) :
  count_char c (String.append a b) = (count_char c a + count_char c b)%nat.
Proof.
  induction a as [|x a IH]; [reflexivity|].
  change (String.append (String x a) b) with (String x (String.append a b)).
  cbn [count_char]. rewrite IH. lia.
Qed.

(** X11. Whatever the device slug, no two sensors of the registry share a
    state topic, and no two share a discovery topic. *)
Theorem registry_topics_are_distinct (device_name : string) :
  NoDup (map state_topic (make_sensors device_name))
  /\ NoDup (map msg_topic (discovery_messages (publisher_for device_name))).
Proof.
  split.
  - change (map state_topic (make_sensors device_name))
      with (map (fun suffix =>
                   String.append "gadgetbridge/"
                     (String.append device_name suffix))
                ["/steps/daily"; "/steps/weekly"; "/steps/monthly";
                 "/battery"; "/weight"; "/heart_rate"; "/hr_resting";
                 "/hr_max"; "/hr_avg"; "/calories"; "/is_awake";
                 "/total_sleep_duration"]%string).
    apply NoDup_fmap_2.
    + intros a b H. now apply append_cancel, append_cancel in H.
    + repeat (apply NoDup_cons; split;
              [set_unfold; intuition discriminate|]).
      apply NoDup_nil; exact I.
  - change (map msg_topic (discovery_messages (publisher_for device_name)))
      with (map (fun suffix =>
                   String.append "homeassistant/sensor/"
                     (String.append device_name suffix))
                ["_daily_steps/config"; "_weekly_steps/config";
                 "_monthly_steps/config"; "_battery_level/config";
                 "_weight/config"; "_latest_heart_rate/config";
                 "_hr_resting/config"; "_hr_max/config"; "_hr_avg/config";
                 "_calories/config"; "_is_awake/config";
                 "_total_sleep_duration/config"]%string).
    apply NoDup_fmap_2.
    + intros a b H. now apply append_cancel, append_cancel in H.
    + repeat (apply NoDup_cons; split;
              [set_unfold; intuition discriminate|]).
      apply NoDup_nil; exact I.
Qed.

Ltac compare_all :=
  repeat match goal with
         | |- context [?a <=? ?b] => destruct (Z.leb_spec a b)
         | |- context [?a <? ?b] => destruct (Z.ltb_spec a b)
         | |- context [?a =? ?b] => destruct (Z.eqb_spec a b)
         | H : context [?a <=? ?b] |- _ => destruct (Z.leb_spec a b)
         | H : context [?a <? ?b] |- _ => destruct (Z.ltb_spec a b)
         | H : context [?a =? ?b] |- _ => destruct (Z.eqb_spec a b)
         end.

Lemma slug_char_is_topic_char (c : ascii) :
  slug_char c = true ->
  topic_char c = true /\ Ascii.eqb c "/"%char = false.
Proof.
  unfold slug_char, topic_char, PyStr.is_lower, PyStr.is_digit.
  intros H. split.
  - compare_all; cbn in H |- *; try discriminate; try reflexivity; lia.
  - apply Ascii.eqb_neq. intros ->.
    change (PyStr.code "/"%char) with 47 in H. discriminate H.
Qed.

Lemma slug_is_topic_safe (t : string) :
  PyStr.all_chars slug_char t = true ->
  PyStr.all_chars topic_char t = true /\ count_char "/"%char t = 0%nat.
Proof.
  induction t as [|c t IH]; [split; reflexivity|].
  cbn [PyStr.all_chars count_char]. intros H.
  apply andb_true_iff in H as [Hc Ht].
  destruct (slug_char_is_topic_char c Hc) as [-> ->].
  destruct (IH Ht) as [-> ->]. split; reflexivity.
Qed.

Lemma prefix_append (a b c : string) :
  String.prefix (String.append a b) (String.append a c) = String.prefix b c.
Proof.
  induction a as [|x a IH]; [reflexivity|].
  change (String.append (String x a) b) with (String x (String.append a b)).
  change (String.append (String x a) c) with (String x (String.append a c)).
  cbn [String.prefix]. destruct (ascii_dec x x); [exact IH | contradiction].
Qed.

(** *** ASCII aliases *)

Lemma code_chr (c : Z) : 0 <= c < 256 -> PyStr.code (PyStr.chr c) = c.
Proof.
  intros Hc. unfold PyStr.code, PyStr.chr.
  rewrite N_ascii_embedding by lia. lia.
Qed.

Lemma is_ascii_range (c : Z) : Text.is_ascii c = true -> 0 <= c < 128.
Proof.
  unfold Text.is_ascii. intros H. apply andb_true_iff in H as [H1 H2].
  apply Z.leb_le in H1. apply Z.ltb_lt in H2. lia.
Qed.

(** A word character of ASCII text becomes a slug character in lower
    case. *)
Lemma lower_word_point (u : unicode) (c : Z) :
  Text.ascii_rows u -> Text.is_ascii c = true -> Text.is_word u c = true ->
  slug_point (Text.lower_point c) = true.
Proof.
  intros [Halnum _] Hc. pose proof (is_ascii_range c Hc) as Hr.
  unfold Text.is_word. rewrite (Halnum c Hc).
  unfold PyStr.is_alnum, PyStr.is_alpha, PyStr.is_upper, PyStr.is_lower,
    PyStr.is_digit.
  rewrite code_chr by lia.
  unfold slug_point, Text.lower_point. intros H.
  destruct ((65 <=? c) && (c <=? 90)) eqn:Hup.
  - apply andb_true_iff in Hup as [H1 H2]. apply Z.leb_le in H1, H2.
    clear H. compare_all; cbn; try reflexivity; lia.
  - compare_all; cbn in *; try discriminate; try reflexivity; lia.
Qed.

Lemma slug_point_is_word (u : unicode) (c : Z) :
  Text.ascii_rows u -> slug_point c = true ->
  Text.is_ascii c = true /\ Text.is_word u c = true
  /\ Text.lower_point c = c.
Proof.
  intros [Halnum _] H.
  assert (Hc : Text.is_ascii c = true).
  { unfold slug_point in H. unfold Text.is_ascii.
    compare_all; cbn in H |- *; try discriminate; try reflexivity; lia. }
  split; [exact Hc|].
  unfold Text.is_word. rewrite (Halnum c Hc).
  unfold PyStr.is_alnum, PyStr.is_alpha, PyStr.is_upper, PyStr.is_lower,
    PyStr.is_digit.
  rewrite code_chr by (apply is_ascii_range in Hc; lia).
  unfold slug_point in H. unfold Text.lower_point.
  split; compare_all; cbn in H |- *; try discriminate; try reflexivity; lia.
Qed.

(** The sanitisation of ASCII text gives ASCII text, and slug characters
    once it is lower-cased. *)
Lemma sanitized_ascii (u : unicode) (t : text) :
  Text.ascii_rows u -> is_ascii_text t = true ->
  forall b,
    is_ascii_text (Text.re_sub_nonword_from u b t) = true
    /\ forallb slug_point
         (map Text.lower_point (Text.re_sub_nonword_from u b t)) = true.
Proof.
  intros Hu. induction t as [|c t IH]; intros Ht b; [split; reflexivity|].
  cbn [is_ascii_text forallb] in Ht. apply andb_true_iff in Ht as [Hc Ht].
  cbn [Text.re_sub_nonword_from].
  destruct (Text.is_word u c) eqn:Hw.
  - destruct (IH Ht false) as [IH1 IH2].
    cbn [is_ascii_text forallb map].
    unfold is_ascii_text in IH1.
    rewrite Hc, IH1, IH2, (lower_word_point u c Hu Hc Hw). split; reflexivity.
  - destruct (IH Ht true) as [IH1 IH2].
    destruct b; [split; assumption|].
    cbn [is_ascii_text forallb map].
    unfold is_ascii_text in IH1. rewrite IH1, IH2. split; reflexivity.
Qed.

Lemma sanitized_not_empty (u : unicode) (c : Z) (t : text) :
  Text.re_sub_nonword u (c :: t) <> [].
Proof.
  unfold Text.re_sub_nonword. cbn [Text.re_sub_nonword_from].
  destruct (Text.is_word u c); discriminate.
Qed.

(** The UTF-8 string of a text of slug characters holds these characters,
    one byte each. *)
Lemma utf8_slug (t : text) :
  forallb slug_point t = true ->
  PyStr.all_chars slug_char (Text.utf8 t) = true
  /\ Text.of_string (Text.utf8 t) = t
  /\ (t <> [] -> Text.utf8 t <> EmptyString).
Proof.
  induction t as [|c t IH]; intros Ht; [repeat split; congruence|].
  cbn [forallb] in Ht. apply andb_true_iff in Ht as [Hc Ht].
  destruct (IH Ht) as (IH1 & IH2 & _).
  assert (Hr : 0 <= c < 128).
  { unfold slug_point in Hc.
    compare_all; cbn in Hc; try discriminate; lia. }
  assert (Hutf : Text.utf8 (c :: t) = String (PyStr.chr c) (Text.utf8 t)).
  { cbn [Text.utf8]. unfold Text.utf8_point.
    destruct (Z.ltb_spec c 128); [reflexivity | lia]. }
  rewrite Hutf. split; [|split].
  - cbn [PyStr.all_chars]. rewrite IH1.
    unfold slug_char, PyStr.is_lower, PyStr.is_digit.
    rewrite code_chr by lia. unfold slug_point in Hc. now rewrite Hc.
  - unfold Text.of_string in *. cbn [list_ascii_of_string map].
    rewrite IH2, code_chr by lia. reflexivity.
  - discriminate.
Qed.

(** Sanitising a text of slug characters changes nothing. *)
Lemma sanitizing_a_slug (u : unicode) (t : text) :
  Text.ascii_rows u -> forallb slug_point t = true ->
  str_lower u (Text.re_sub_nonword u t) = t.
Proof.
  intros Hu Ht.
  assert (Hfix : forall b, Text.re_sub_nonword_from u b t = t
                           /\ is_ascii_text t = true
                           /\ map Text.lower_point t = t).
  { induction t as [|c t IH]; intros b; [repeat split|].
    cbn [forallb] in Ht. apply andb_true_iff in Ht as [Hc Ht].
    destruct (slug_point_is_word u c Hu Hc) as (Ha & Hw & Hl).
    destruct (IH Ht false) as (IH1 & IH2 & IH3).
    cbn [Text.re_sub_nonword_from is_ascii_text forallb map].
    unfold is_ascii_text in IH2. rewrite Hw, IH1, Ha, IH2, Hl, IH3.
    repeat split. }
  destruct (Hfix false) as (Hsame & Hascii & Hlow).
  unfold Text.re_sub_nonword. rewrite Hsame.
  destruct Hu as [_ Hlower]. now rewrite (Hlower t Hascii).
Qed.

(** What the resolver makes of an ASCII alias is a slug, and it is not
    empty. *)
Lemma get_device_alias_slug (u : unicode) (h : host) (s : state) :
  Text.ascii_rows u -> ascii_alias (db h) ->
  exists t,
    result_of (get_device_alias u) h s = Ok (Text.utf8 t)
    /\ forallb slug_point t = true
    /\ t <> [].
Proof.
  intros Hu Halias. rewrite get_device_alias_result.
  assert (Hfallback : exists t,
            Ok "fitness_tracker"%string = Ok (Text.utf8 t)
            /\ forallb slug_point t = true /\ t <> []).
  { exists (Text.of_string "fitness_tracker").
    split; [reflexivity|]. split; [reflexivity | discriminate]. }
  destruct (path_exists h && negb (connect_raises h)
            && negb (rejects (db h) SelectAlias)); [|exact Hfallback].
  unfold ascii_alias in Halias.
  destruct (matching_device (db h)) as [r|]; [|exact Hfallback].
  destruct (dev_alias r) as [[|c rest]|]; try exact Hfallback.
  destruct (sanitized_ascii u (c :: rest) Hu Halias false) as [Hascii Hslug].
  pose proof Hu as [_ Hlower].
  exists (str_lower u (Text.re_sub_nonword u (c :: rest))).
  split; [reflexivity|].
  unfold Text.re_sub_nonword at 1 2. rewrite (Hlower _ Hascii).
  split; [exact Hslug|].
  pose proof (sanitized_not_empty u c rest) as Hne.
  unfold Text.re_sub_nonword in Hne.
  destruct (Text.re_sub_nonword_from u false (c :: rest));
    [contradiction | discriminate].
Qed.

(** X12. When the alias that the store holds for the device is ASCII text
    (or there is none), [__init__] names the device by a slug that is not
    empty and holds no slash, and every topic of the registry built from
    it is fit for publishing: the state topics lie under
    [gadgetbridge/<slug>/], and they and the discovery topics hold
    printable ASCII characters only, none of them a wildcard or a
    space. *)
Theorem resolved_topics_are_well_formed
    (u : unicode) (h : host) (s : state) :
  Text.ascii_rows u ->
  ascii_alias (db h) ->
  exists self,
    result_of (init u) h s = Ok self
    /\ sensors self = make_sensors (device_name self)
    /\ device_name self <> EmptyString
    /\ count_char "/"%char (device_name self) = 0%nat
    /\ Forall (fun sensor =>
                 PyStr.all_chars topic_char (state_topic sensor) = true
                 /\ String.prefix
                      ("gadgetbridge/" +:+ device_name self +:+ "/")
                      (state_topic sensor) = true)
              (sensors self)
    /\ Forall (fun m => PyStr.all_chars topic_char (msg_topic m) = true)
              (discovery_messages self).
Proof.
  intros Hu Halias.
  destruct (get_device_alias_slug u h s Hu Halias) as (t & Hres & Ht & Hne).
  destruct (utf8_slug t Ht) as (Hslug & _ & Hne').
  specialize (Hne' Hne).
  set (slug := Text.utf8 t) in *.
  destruct (slug_is_topic_safe slug Hslug) as [Hsafe Hslash].
  exists (publisher_for slug). split.
  { unfold result_of, init, bind in *.
    destruct (get_device_alias u h s) as [[slug'|e] s']; cbn in Hres;
      [injection Hres as -> | discriminate].
    reflexivity. }
  split; [reflexivity|]. split; [exact Hne'|]. split; [exact Hslash|].
  split.
  - unfold publisher_for, make_sensors. cbn [sensors device_name].
    repeat apply Forall_cons_2; try apply Forall_nil_2;
      cbn [state_topic]; (split;
        [ rewrite !all_chars_append, Hsafe; reflexivity
        | rewrite !prefix_append; reflexivity ]).
  - unfold discovery_messages, publisher_for, make_sensors.
    cbn [sensors map].
    repeat apply Forall_cons_2; try apply Forall_nil_2;
      unfold discovery_message; cbn [msg_topic device_name unique_id];
      rewrite !all_chars_append, Hsafe; reflexivity.
Qed.

(** The alias of the example band, "Mi Band 7!", is ASCII text. *)
Lemma resolved_topics_are_well_formed_witness :
  exists self,
    result_of (init Text.ascii_only) Examples.band_host (initial []) = Ok self
    /\ sensors self = make_sensors (device_name self)
    /\ device_name self <> EmptyString
    /\ count_char "/"%char (device_name self) = 0%nat
    /\ Forall (fun sensor =>
                 PyStr.all_chars topic_char (state_topic sensor) = true
                 /\ String.prefix
                      ("gadgetbridge/" +:+ device_name self +:+ "/")
                      (state_topic sensor) = true)
              (sensors self)
    /\ Forall (fun m => PyStr.all_chars topic_char (msg_topic m) = true)
              (discovery_messages self).
Proof.
  apply (resolved_topics_are_well_formed
           Text.ascii_only Examples.band_host (initial [])).
  - split; [intros c Hc; cbn; rewrite Hc; reflexivity
           | intros t _; reflexivity].
  - reflexivity.
Defined.

(** X13. The slug of an ASCII alias is a fixed point of the sanitisation:
    replacing the runs of non-word characters and lower-casing it once
    more changes nothing; so it is for the fallback slug. *)
Theorem slug_is_stable (u : unicode) (h : host) (s : state) :
  Text.ascii_rows u ->
  ascii_alias (db h) ->
  exists slug,
    result_of (get_device_alias u) h s = Ok slug
    /\ Text.utf8 (str_lower u (Text.re_sub_nonword u (Text.of_string slug)))
       = slug.
Proof.
  intros Hu Halias.
  destruct (get_device_alias_slug u h s Hu Halias) as (t & Hres & Ht & _).
  exists (Text.utf8 t). split; [exact Hres|].
  destruct (utf8_slug t Ht) as (_ & -> & _).
  now rewrite (sanitizing_a_slug u t Hu Ht).
Qed.

Lemma slug_is_stable_witness :
  exists slug,
    result_of (get_device_alias Text.ascii_only)
              Examples.band_host (initial []) = Ok slug
    /\ Text.utf8 (str_lower Text.ascii_only
                    (Text.re_sub_nonword Text.ascii_only
                       (Text.of_string slug)))
       = slug.
Proof.
  apply (slug_is_stable Text.ascii_only Examples.band_host (initial [])).
  - split; [intros c Hc; cbn; rewrite Hc; reflexivity
           | intros t _; reflexivity].
  - reflexivity.
Defined.

(** X14. The resolver and its connection.  On a store that can be reached,
    the resolver sends its one statement and then closes the connection,
    before it looks at the row; but when SQLite rejects the statement it
    logs the error and returns the fallback slug without closing the
    connection it opened.  It never talks to the MQTT client. *)
Theorem get_device_alias_connection (u : unicode) (h : host) (s : state) :
  reachable h ->
  trace_of (get_device_alias u) h s
  = trace s ++ [EvConnect; EvCursor; EvExecute SelectAlias]
      ++ (if rejects (db h) SelectAlias
          then [EvLog ERROR (ErrorFetchingDeviceAlias SqliteError)]
          else [EvClose])
  /\ published (trace_of (get_device_alias u) h s) = published (trace s)
  /\ publish_raises (snd (get_device_alias u h s)) = publish_raises s.
Proof.
  intros (Hpath & Hconn).
  assert (Hrun : exists rs,
            get_device_alias u h s
            = (fst (get_device_alias u h s),
               State (trace s ++ [EvConnect; EvCursor; EvExecute SelectAlias]
                        ++ (if rejects (db h) SelectAlias
                            then [EvLog ERROR
                                    (ErrorFetchingDeviceAlias SqliteError)]
                            else [EvClose]))
                     rs (publish_raises s))).
  { unfold get_device_alias, os_path_exists, bind, ask. rewrite Hpath.
    cbn [negb]. unfold try_except, bind, sqlite3_connect, conn_cursor, bind,
      ask. rewrite Hconn. cbn -[cursor_execute Sql.run].
    rewrite cursor_execute_run. unfold Sql.run.
    destruct (rejects (db h) SelectAlias); cbn.
    - eexists. rewrite <- !app_assoc. reflexivity.
    - destruct (Sql.first_row _) as [r|]; cbn.
      + destruct (dev_alias r) as [[|c rest]|]; cbn;
          eexists; rewrite <- !app_assoc; reflexivity.
      + eexists. rewrite <- !app_assoc. reflexivity. }
  destruct Hrun as (rs & Hrun). unfold trace_of. rewrite Hrun.
  cbn [snd trace publish_raises]. split; [reflexivity|].
  split; [|reflexivity].
  rewrite !published_app. destruct (rejects (db h) SelectAlias); cbn;
    now rewrite app_nil_r.
Qed.

Lemma get_device_alias_connection_witness :
  trace_of (get_device_alias Text.ascii_only) Examples.band_host (initial [])
  = trace (initial []) ++ [EvConnect; EvCursor; EvExecute SelectAlias]
      ++ (if rejects (db Examples.band_host) SelectAlias
          then [EvLog ERROR (ErrorFetchingDeviceAlias SqliteError)]
          else [EvClose])
  /\ published (trace_of (get_device_alias Text.ascii_only)
                         Examples.band_host (initial []))
     = published (trace (initial []))
  /\ publish_raises (snd (get_device_alias Text.ascii_only
                            Examples.band_host (initial [])))
     = publish_raises (initial []).
Proof.
  apply (get_device_alias_connection
           Text.ascii_only Examples.band_host (initial [])).
  repeat split; reflexivity.
Defined.

(* ===================================================================== *)
(** ** From the store to the broker                                       *)
(* ===================================================================== *)

Lemma omap_ext_in {A B} (f g : A -> option B) (l : list A) :
  (forall x, x ∈ l -> f x = g x) -> omap f l = omap g l.
Proof.
  induction l as [|a l IH]; intros H; [reflexivity|].
  cbn [omap list_omap].
  rewrite (H a) by apply list_elem_of_here.
  rewrite IH by (intros x Hx; apply H; now apply list_elem_of_further).
  reflexivity.
Qed.

(** X15. One cycle end to end, on a reachable store: the messages handed
    to the MQTT client are, in registry order, one per sensor whose own
    query answers with a value, carrying that value; a sensor whose query
    raises or answers [None] sends nothing, and costs no other sensor its
    message.  This holds whatever publish calls fail. *)
Theorem cycle_publishes_what_the_queries_answer
    (device_name : string) (h : host) (s : state) :
  reachable h ->
  result_of (cycle (publisher_for device_name)) h s = Ok tt
  /\ published (trace_of (cycle (publisher_for device_name)) h s)
     = published (trace s)
       ++ omap (query_message h) (make_sensors device_name).
Proof.
  intros Hreach.
  destruct (cycle_run device_name h s Hreach)
    as (data & _ & Hval & Hres & Hpub).
  split; [exact Hres|]. rewrite Hpub. f_equal.
  unfold state_messages. apply omap_ext_in. intros sensor Hin.
  unfold state_message, query_message.
  now rewrite (dict_get_lookup _ _ _ (Hval sensor Hin (State [] [] []))).
Qed.

Lemma cycle_publishes_what_the_queries_answer_witness :
  result_of (cycle (publisher_for "mi_band_7_"))
            Examples.broken_heart_rate_host (initial [true]) = Ok tt
  /\ published (trace_of (cycle (publisher_for "mi_band_7_"))
                         Examples.broken_heart_rate_host (initial [true]))
     = published (trace (initial [true]))
       ++ omap (query_message Examples.broken_heart_rate_host)
               (make_sensors "mi_band_7_").
Proof.
  apply (cycle_publishes_what_the_queries_answer
           "mi_band_7_" Examples.broken_heart_rate_host (initial [true])).
  repeat split; reflexivity.
Defined.
